(** * TorchToTosa: shape and type algebra of the Torch -> TOSA legalizations

    A shallow embedding of the conversion patterns of
    [lib/Conversion/TorchToTosa/TorchToTosa.cpp].  Every pattern is a function
    in a small rewriter monad: it reads the static types and the constant
    operands of one source operation, emits target operations through the
    rewriter and returns [success] or a match failure carrying its message. *)

From Stdlib Require Import ZArith List String Bool Lia Permutation Sorted.
From Stdlib Require Import Floats.SpecFloat DecimalString.
Import ListNotations.
Local Open Scope Z_scope.
Local Open Scope list_scope.

Set Implicit Arguments.

(** ** Machine integers *)

Module Int.

(** Two's complement reading of [z] at width [w]: what a store into a signed
    [w]-bit variable keeps. *)
Definition wrap (w z : Z) : Z := (z + 2 ^ (w - 1)) mod 2 ^ w - 2 ^ (w - 1).

Definition min (w : Z) : Z := - 2 ^ (w - 1).
Definition max (w : Z) : Z := 2 ^ (w - 1) - 1.

Definition in_range (w z : Z) : bool := (min w <=? z) && (z <=? max w).

Definition mul64 (a b : Z) : Z := wrap 64 (a * b).

End Int.

Arguments Int.wrap : simpl never.
Arguments Int.min : simpl never.
Arguments Int.max : simpl never.
Arguments Int.in_range : simpl never.
Arguments Int.mul64 : simpl never.

(** ** The IR seen by a pattern *)

(** Element types of tensors and of scalars. *)
Inductive ElemType : Type :=
| FloatType (width : Z)
| IntegerType (width : Z)
| OtherType (name : string).

Definition ElemType_eqb (a b : ElemType) : bool :=
  match a, b with
  | FloatType x, FloatType y => x =? y
  | IntegerType x, IntegerType y => x =? y
  | OtherType x, OtherType y => String.eqb x y
  | _, _ => false
  end.

Definition isFloatType (t : ElemType) : bool :=
  match t with FloatType _ => true | _ => false end.

Definition isIntegerType (t : ElemType) : bool :=
  match t with IntegerType _ => true | _ => false end.

Definition isIntOrFloat (t : ElemType) : bool := isFloatType t || isIntegerType t.


(** Types of values.  A tensor shape is kept as MLIR keeps it: one [int64_t]
    per dimension, a dynamic dimension being [ShapedType::kDynamic]. *)
Inductive Type_ : Type :=
| RankedTensorType (shape : list Z) (elem : ElemType)
| UnrankedTensorType (elem : ElemType)
| ScalarType (elem : ElemType)
| NoneType.

Definition double : Type := spec_float.

(** A binary32 value, kept in the same representation. *)
Definition float : Type := spec_float.

(** What the constant matchers ([m_TorchConstantInt], ...) can see behind a
    value. *)
Inductive Constant : Type :=
| NotConstant
| ConstantInt (i : Z)
| ConstantFloat (d : double)
| ConstantBool (b : bool)
| ListOfConstantInts (l : list Z)
| ConstantNone.

Record Value : Type := mkValue {
  vid : nat;
  vtype : Type_;
  vconst : Constant
}.

Definition m_TorchConstantInt (v : Value) : option Z :=
  match vconst v with ConstantInt i => Some i | _ => None end.

Definition m_TorchConstantFloat (v : Value) : option double :=
  match vconst v with ConstantFloat d => Some d | _ => None end.

Definition m_TorchConstantBool (v : Value) : option bool :=
  match vconst v with ConstantBool b => Some b | _ => None end.

Definition m_TorchListOfConstantInts (v : Value) : option (list Z) :=
  match vconst v with ListOfConstantInts l => Some l | _ => None end.

(** Target operations and the few others the patterns create. *)
Inductive OpName : Type :=
| tosa_const | tosa_reshape | tosa_transpose | tosa_matmul | tosa_cast
| tosa_mul | tosa_add | tosa_sub
| tosa_greater | tosa_equal | tosa_logical_not
| tosa_bitwise_and | tosa_bitwise_or | tosa_bitwise_xor
| tosa_argmax | tosa_gather
| arith_extsi | tensor_cast.

Definition OpName_eqb (a b : OpName) : bool :=
  match a, b with
  | tosa_const, tosa_const | tosa_reshape, tosa_reshape
  | tosa_transpose, tosa_transpose | tosa_matmul, tosa_matmul
  | tosa_cast, tosa_cast | tosa_mul, tosa_mul | tosa_add, tosa_add
  | tosa_sub, tosa_sub | tosa_greater, tosa_greater
  | tosa_equal, tosa_equal | tosa_logical_not, tosa_logical_not
  | tosa_bitwise_and, tosa_bitwise_and | tosa_bitwise_or, tosa_bitwise_or
  | tosa_bitwise_xor, tosa_bitwise_xor | tosa_argmax, tosa_argmax
  | tosa_gather, tosa_gather | arith_extsi, arith_extsi
  | tensor_cast, tensor_cast => true
  | _, _ => false
  end.

Inductive Attribute : Type :=
| NoAttr
| DenseI64ArrayAttr (l : list Z)
| IntegerAttr (i : Z)
| DenseIntElements (width : Z) (l : list Z)
| DenseFPElements (l : list float).

Record Operation : Type := mkOperation {
  opName : OpName;
  opOperands : list Value;
  opAttr : Attribute;
  opResult : Value
}.

(** ** The rewriter *)

(** A pattern returns [success()] or a match failure with its message; an
    [assert] that does not hold aborts the run. *)
Inductive LogicalResult (A : Type) : Type :=
| success (a : A)
| failure (msg : string)
| assertionFailed (msg : string).
Arguments failure {A} msg.
Arguments assertionFailed {A} msg.

(** What became of the matched operation. *)
Inductive Replacement : Type :=
| NotReplaced
| ReplacedBy (v : Value)
| UsesReplacedAndErased (v : Value).

Record RewriterState : Type := mkState {
  nextId : nat;
  emitted : list Operation;
  replacement : Replacement
}.

Definition Rewriter (A : Type) : Type :=
  RewriterState -> LogicalResult (A * RewriterState).

Definition ret {A} (a : A) : Rewriter A := fun s => success (a, s).

Definition bind {A B} (m : Rewriter A) (k : A -> Rewriter B) : Rewriter B :=
  fun s => match m s with
           | success (a, s') => k a s'
           | failure msg => failure msg
           | assertionFailed msg => assertionFailed msg
           end.

Definition notifyMatchFailure {A} (msg : string) : Rewriter A :=
  fun _ => failure msg.

(** [assert(cond && msg)]. *)
Definition assert_ (cond : bool) (msg : string) : Rewriter unit :=
  fun s => if cond then success (tt, s) else assertionFailed msg.

Notation "'let*' x ':=' m 'in' k" := (bind m (fun x => k))
  (at level 10, x pattern, m at level 100, k at level 200).

(** The assertions of LLVM and MLIR behind two idioms of the patterns:
    [cast<Ty>()] asserts that its argument is of type [Ty], so a test of its
    result for null that follows it never fails; [getRank()] asserts that the
    tensor type is ranked.  The result type of an operation is given to a
    pattern converted, as a field of the operation: a [cast] of it is not
    modelled. *)
Definition msgCast : string := "cast<Ty>() argument of incompatible type!".
Definition msgGetRank : string := "cannot query rank of unranked shaped type".

Definition succeeded {A} (r : LogicalResult A) : bool :=
  match r with success _ => true | _ => false end.

Definition failed {A} (r : LogicalResult A) : bool := negb (succeeded r).

(** [rewriter.create<Op>(loc, type, operands, attr)]. *)
Definition create (n : OpName) (ty : Type_) (operands : list Value)
    (a : Attribute) : Rewriter Value :=
  fun s =>
    let v := mkValue (nextId s) ty NotConstant in
    success (v, mkState (S (nextId s))
                        (emitted s ++ [mkOperation n operands a v])
                        (replacement s)).

Definition replaceOp (v : Value) : Rewriter unit :=
  fun s => success (tt, mkState (nextId s) (emitted s) (ReplacedBy v)).

Definition replaceOpWithNewOp (n : OpName) (ty : Type_) (operands : list Value)
    (a : Attribute) : Rewriter unit :=
  let* v := create n ty operands a in replaceOp v.

(** [op.replaceAllUsesWith(v); rewriter.eraseOp(op)]. *)
Definition replaceAllUsesAndErase (v : Value) : Rewriter unit :=
  fun s => success (tt, mkState (nextId s) (emitted s) (UsesReplacedAndErased v)).

Definition initialState : RewriterState := mkState 0 [] NotReplaced.

(** ** Shapes *)

(** Torch's sentinel of an unknown size. *)
Definition kUnknownSize : Z := -1.

(** [ShapedType::kDynamic]. *)
Definition kDynamic : Z := Int.min 64.

Definition isDynamic (d : Z) : bool := d =? kDynamic.

(** Modelled from the spec: the two helpers of Torch/Utils that translate
    between the shape representation "that treats unknown sizes as a sentinel"
    and the one "compatible with the target ISA's dynamic marker"; their
    bodies are not part of this file's source. *)
Definition makeShapeLLVMCompatible (shape : list Z) : list Z :=
  map (fun d => if d =? kUnknownSize then kDynamic else d) shape.

Definition makeShapeTorchCompatible (shape : list Z) : list Z :=
  map (fun d => if d =? kDynamic then kUnknownSize else d) shape.

Definition getShape (t : Type_) : list Z :=
  match t with RankedTensorType s _ => s | _ => [] end.

Definition getRank (t : Type_) : Z := Z.of_nat (List.length (getShape t)).

Definition getElementType (t : Type_) : ElemType :=
  match t with
  | RankedTensorType _ e | UnrankedTensorType e | ScalarType e => e
  | NoneType => OtherType "none"
  end.

Definition isTensorType (t : Type_) : bool :=
  match t with RankedTensorType _ _ | UnrankedTensorType _ => true | _ => false end.

Definition isRankedTensorType (t : Type_) : bool :=
  match t with RankedTensorType _ _ => true | _ => false end.

Definition hasStaticShape (t : Type_) : bool :=
  match t with
  | RankedTensorType s _ => forallb (fun d => negb (isDynamic d)) s
  | _ => false
  end.

(** [v[i]] on a [SmallVector<int64_t>]. *)
Definition at_ (l : list Z) (i : Z) : Z := nth (Z.to_nat i) l 0.

(** The values [0 .. n-1] of a counting loop.  Loop counters and dimension
    numbers stay below the rank of a tensor, so the counters themselves are
    kept as plain integers; where the source stores a dimension number into an
    [int32_t] vector the store is written out with [Int.wrap 32]. *)
Definition iota (n : Z) : list Z := map Z.of_nat (seq 0 (Z.to_nat n)).

(** ** What the platform and the rest of the project supply *)

(** C++ leaves the conversion of a [double] to a signed integer type undefined
    when the truncated value does not fit (and for infinities and NaN): what
    the platform yields there is a parameter, indexed by the destination
    width.  [isViewLikeOp] is the predicate of Torch/Utils, here on the name
    of a user operation. *)
Class Platform : Type := {
  undefinedConversion : Z -> double -> Z;
  isViewLikeOp : string -> bool
}.

Section Legalizations.

Context {platform : Platform}.

(** ** Conversions between [double] and the integer types *)

(** [static_cast<intN_t>(doubleValue)]: truncation toward zero. *)
Definition fptosi (w : Z) (v : double) : Z :=
  match v with
  | S754_zero _ => 0
  | S754_finite s m e =>
      let t := cond_Zopp s (Z.shiftl (Zpos m) e) in
      if Int.in_range w t then t else Int.wrap w (undefinedConversion w v)
  | _ => Int.wrap w (undefinedConversion w v)
  end.

(** [static_cast<double>(i)]: round to nearest, ties to even. *)
Definition sitofp (i : Z) : double := binary_normalize 53 1024 i 0 false.

(** [static_cast<float>(i)], an [int64_t] passed where a [float] is taken:
    one rounding, to binary32. *)
Definition sitofp32 (i : Z) : float := binary_normalize 24 128 i 0 false.

(** [static_cast<float>(d)], kept as the binary32 value. *)
Definition fptrunc (d : double) : float :=
  match d with
  | S754_finite s m e => binary_round 24 128 s m e
  | _ => d
  end.

(** ** Constant and scalar resolver *)

Definition isInValidRange (w : Z) (isFloat : bool) (doubleValue : double)
    (isInt : bool) (intValue : Z) : bool :=
  (* the [assert(isInt)] of the integer branch holds at both call sites, which
     come after the check that one of the two matchers succeeded *)
  if isFloat then
    (* round-trip check instead of numeric limits *)
    SFeqb doubleValue (sitofp (fptosi w doubleValue))
  else
    (Int.min w <=? intValue) && (intValue <=? Int.max w).


(** Modelled from the spec: [tosa::getConstTensor<float>] of
    TosaLegalizeUtils, which "lifts a scalar into a rank-0/broadcastable
    tensor-producing operator": one [tosa.const] of element type f32. *)
Definition getConstTensor_float (vec : list double) (shape : list Z)
    : Rewriter Value :=
  create tosa_const (RankedTensorType shape (FloatType 32)) []
         (DenseFPElements (map fptrunc vec)).

(** Modelled from the spec: [tosa::getConstTensor<intN_t>] of
    TosaLegalizeUtils: one [tosa.const] of element type iN. *)
Definition getConstTensor_int (w : Z) (vec : list Z) (shape : list Z)
    : Rewriter Value :=
  create tosa_const (RankedTensorType shape (IntegerType w)) []
         (DenseIntElements w vec).

(** Modelled from the spec: [tosa::getTosaConstTensorSingleF32] of
    TosaLegalizeUtils: a rank-0 f32 constant.  Its parameter is a [float],
    given here as the binary32 value it holds. *)
Definition getTosaConstTensorSingleF32 (val : float) : Rewriter Value :=
  create tosa_const (RankedTensorType [] (FloatType 32)) []
         (DenseFPElements [val]).

Definition isSome {A} (o : option A) : bool :=
  match o with Some _ => true | None => false end.

Definition valueOr {A} (o : option A) (d : A) : A :=
  match o with Some a => a | None => d end.

Definition msgExtract : string := "Unable to extract the scalar constant".
(** [diag << "Unsupported integer type: " << intType]: the type is printed
    as MLIR prints a signless integer type, [i] and the width. *)
Definition printIntegerType (w : Z) : string :=
  "i" ++ NilZero.string_of_int (Z.to_int w).
Definition msgUnsupportedInt (w : Z) : string :=
  "Unsupported integer type: " ++ printIntegerType w.
Definition msgExceeds : string :=
  "Supplied value of scalar constant exceeds limits of destination type".
Definition msgUnsupportedElem : string := "Usupported element type".

Definition torchScalarToTosaTensor (torchScalarValue : Value)
    (dtype : ElemType) (dshape : list Z) : Rewriter Value :=
  (* Retrieve a const float or int value but create the out Tensor with dtype. *)
  let isFloat := isSome (m_TorchConstantFloat torchScalarValue) in
  let doubleValue := valueOr (m_TorchConstantFloat torchScalarValue) (S754_zero false) in
  let isInt := isSome (m_TorchConstantInt torchScalarValue) in
  let intValue := valueOr (m_TorchConstantInt torchScalarValue) 0 in
  if negb isFloat && negb isInt then notifyMatchFailure msgExtract
  else
    match dtype with
    | FloatType _ =>
        getConstTensor_float
          [if isFloat then doubleValue else sitofp intValue] dshape
    | IntegerType w =>
        if negb (w =? 32) && negb (w =? 64) then
          notifyMatchFailure (msgUnsupportedInt w)
        else if w =? 32 then
          if negb (isInValidRange 32 isFloat doubleValue isInt intValue) then
            notifyMatchFailure msgExceeds
          else
            let d := if isFloat then fptosi 32 doubleValue
                     else Int.wrap 32 intValue in
            getConstTensor_int 32 [d] dshape
        else
          if negb (isInValidRange 64 isFloat doubleValue isInt intValue) then
            notifyMatchFailure msgExceeds
          else
            let d := if isFloat then fptosi 64 doubleValue else intValue in
            getConstTensor_int 64 [d] dshape
    | OtherType _ => notifyMatchFailure msgUnsupportedElem
    end.

(** [if (succeeded(m)) return success(); ... rest]: [m] fails before it
    creates anything, so the fallback starts from the same rewriter state. *)
Definition orElse {A} (m fallback : Rewriter A) : Rewriter A :=
  fun s => match m s with
           | success r => success r
           | failure _ => fallback s
           | assertionFailed msg => assertionFailed msg
           end.

Definition torchAlphaToTosaTensor (alphaScalar : Value) (dtype : ElemType)
    (checkForUnity : bool) : Rewriter Value :=
  orElse (torchScalarToTosaTensor alphaScalar dtype [])
    ((* `alpha` has not been specified. *)
     match m_TorchConstantInt alphaScalar with
     | None =>
         notifyMatchFailure
           "Currently only scalar constants are supported for alpha in TOSA operation"
     | Some alphaValue =>
         (* When no alpha has been specified, this must be 1. *)
         if checkForUnity && negb (alphaValue =? 1) then
           notifyMatchFailure "Unsupported integer value for alpha"
         else getTosaConstTensorSingleF32 (sitofp32 alphaValue)
     end).






(** [if (failed(m)) return rewriter.notifyMatchFailure(op, msg)]. *)
Definition orFail {A} (m : Rewriter A) (msg : string) : Rewriter A :=
  fun s => match m s with
           | success r => success r
           | failure _ => failure msg
           | assertionFailed m' => assertionFailed m'
           end.

(** ** Add and subtract with an alpha multiplier *)


Definition dyn_cast_TensorType (t : Type_) : option Type_ :=
  if isTensorType t then Some t else None.

Definition msgOnlyTensor : string := "Only Tensor types supported in TOSA".
Definition msgOnlyIntOrFloat : string :=
  "Only floating-point or integer datatype legalization supported".


(** ** Comparison and bitwise operators *)






(** ** Argmax *)

Record AtenArgmaxOp : Type := mkArgmax {
  argmax_self : Value;
  argmax_dim : Value;
  argmax_keepdim : Value;
  argmax_type : Type_
}.

(** The loop of [buildArgmax] over the input shape, [i] being its counter. *)
Fixpoint argmaxOutputShape (keepDim : bool) (reduceDim i : Z)
    (inputShape : list Z) : list Z :=
  match inputShape with
  | [] => []
  | dim :: rest =>
      (if negb (i =? reduceDim) then [dim]
       else if keepDim then [1] else [])
      ++ argmaxOutputShape keepDim reduceDim (i + 1) rest
  end.

(** Create a single instance of tosa.argmax. *)
Definition buildArgmax (keepDim : bool) (reduceDim : Z) (input : Value)
    : Rewriter Value :=
  let inputShape := makeShapeTorchCompatible (getShape (vtype input)) in
  let outputShapeArr := argmaxOutputShape keepDim reduceDim 0 inputShape in
  (* Tosa argmax output is i32, while Torch backend mandates i64. *)
  let outputReduceTy :=
    RankedTensorType (makeShapeLLVMCompatible outputShapeArr) (IntegerType 32) in
  create tosa_argmax outputReduceTy [input] (IntegerAttr reduceDim).

(** Convert the final index to i64: i64 is not a defined type for tosa.cast,
    so arith.extsi is used instead. *)
Definition castToInt64 (outputETy : ElemType) (result : Value) : Rewriter unit :=
  let resShape := makeShapeTorchCompatible (getShape (vtype result)) in
  let outTy := RankedTensorType (makeShapeLLVMCompatible resShape) outputETy in
  replaceOpWithNewOp arith_extsi outTy [result] NoAttr.

(** [for (int dim = 0; dim < n; dim++) input = f(input)]. *)
Fixpoint chain (n : nat) (f : Value -> Rewriter Value) (input : Value)
    : Rewriter Value :=
  match n with
  | O => ret input
  | S n' => let* next := f input in chain n' f next
  end.

Definition ConvertAtenArgmaxOp_matchAndRewrite (op : AtenArgmaxOp)
    : Rewriter unit :=
  let self := argmax_self op in
  let selfTy := vtype self in
  let* _ := assert_ (isRankedTensorType selfTy) msgCast in
  if negb (isRankedTensorType selfTy) then
    notifyMatchFailure "Only ranked tensor types supported in TOSA argmax"
  else
  (* NoneType indicates reduce on all dims *)
  let reduceDim := valueOr (m_TorchConstantInt (argmax_dim op)) (-1) in
  match m_TorchConstantBool (argmax_keepdim op) with
  | None => notifyMatchFailure "non-const keepdim parameter unsupported"
  | Some keepDim =>
  let outputETy := getElementType (argmax_type op) in
  if reduceDim =? -1 then
    (* reducing on all dims: progressively reduce each 0-th dim *)
    let* input := chain (Z.to_nat (getRank selfTy)) (buildArgmax keepDim 0) self in
    castToInt64 outputETy input
  else
    let* r := buildArgmax keepDim reduceDim self in
    castToInt64 outputETy r
  end.

(** ** Squeeze *)

Record AtenSqueezeOp : Type := mkSqueeze {
  squeeze_self : Value;
  squeeze_dim : Value;
  squeeze_type : Type_
}.

Inductive SqueezeVariant : Type :=
| ConvertAtenSqueezeOneDimOp
| ConvertAtenSqueezeAllDimsOp.

(** The loop of the one-dim variant, [dimNum] being its counter. *)
Fixpoint squeezeOneDimLoop (squeezeDim dimNum : Z) (selfShape : list Z)
    : list Z :=
  match selfShape with
  | [] => []
  | dim :: rest =>
      (if negb (dim =? 1) || negb (squeezeDim =? dimNum) then [dim] else [])
      ++ squeezeOneDimLoop squeezeDim (dimNum + 1) rest
  end.

Fixpoint squeezeAllDimsLoop (selfShape : list Z) : list Z :=
  match selfShape with
  | [] => []
  | dim :: rest =>
      (if negb (dim =? 1) then [dim] else []) ++ squeezeAllDimsLoop rest
  end.

Definition generateSqueezedShape (variant : SqueezeVariant) (op : AtenSqueezeOp)
    (selfTy : Type_) : Rewriter (list Z) :=
  match variant with
  | ConvertAtenSqueezeOneDimOp =>
      match m_TorchConstantInt (squeeze_dim op) with
      | None => notifyMatchFailure "non-const dim parameter unsupported"
      | Some squeezeDim =>
          (* Handle negative dim *)
          let squeezeDim :=
            if squeezeDim <? 0 then squeezeDim + getRank selfTy
            else squeezeDim in
          let selfShape := makeShapeTorchCompatible (getShape selfTy) in
          (* Only dims statically known to have size=1 are reduced. *)
          ret (squeezeOneDimLoop squeezeDim 0 selfShape)
      end
  | ConvertAtenSqueezeAllDimsOp =>
      let selfShape := makeShapeTorchCompatible (getShape selfTy) in
      (* Only compile-time resolvable dims are handled here. *)
      ret (squeezeAllDimsLoop selfShape)
  end.

Definition ConvertAtenSqueezeOp_matchAndRewrite (variant : SqueezeVariant)
    (op : AtenSqueezeOp) : Rewriter unit :=
  let self := squeeze_self op in
  let selfTy := vtype self in
  let* _ := assert_ (isRankedTensorType selfTy) msgCast in
  if negb (isRankedTensorType selfTy) then
    notifyMatchFailure "Only ranked tensor types supported in TOSA argmax"
  else
  let* newOutputShape :=
    orFail (generateSqueezedShape variant op selfTy)
      "Squeeze could not compute new shape" in
  let resultElemTy := getElementType (squeeze_type op) in
  let newOutputTy :=
    RankedTensorType (makeShapeLLVMCompatible newOutputShape) resultElemTy in
  let* reshapeOp :=
    create tosa_reshape newOutputTy [self] (DenseI64ArrayAttr newOutputShape) in
  replaceOpWithNewOp tensor_cast newOutputTy [reshapeOp] NoAttr.

(** ** Matrix multiplication *)

Record AtenMatmulOp : Type := mkMatmul {
  matmul_self : Value;
  matmul_other : Value;
  matmul_type : Type_
}.

(** Obtaining the rank broadcasted shapes of tensors makes it easier to
    construct the input and output reshaping logic. *)
Definition getRankBroadcastedShape (maxInputRank : Z) (tensor : Value)
    (isRHS : bool) : list Z :=
  let tensorShape := makeShapeTorchCompatible (getShape (vtype tensor)) in
  let tensorRank := getRank (vtype tensor) in
  let bcastDims := maxInputRank - tensorRank in
  if isRHS && (tensorRank =? 1) && negb (bcastDims =? 0) then
    (* RHS with rank1 is special. *)
    repeat 1 (Z.to_nat (bcastDims - 1)) ++ [at_ tensorShape 0; 1]
  else
    (if bcastDims >? 0 then repeat 1 (Z.to_nat bcastDims) else [])
    ++ tensorShape.

(** TOSA matmul is performed on two 3D inputs and generates a 3D output.
    Lower ranked tensors are dim-1 reshaped up to 3D. *)
Definition reshapeUpTo3DTensor (tensor : Value) : Rewriter Value :=
  let tensorTy := vtype tensor in
  let rank := getRank tensorTy in
  let* _ := assert_ (rank <=? 3) "reshapeUpTo3D tensor must receive rank <= 3" in
  if rank =? 3 then ret tensor
  else
    let shape := makeShapeTorchCompatible (getShape tensorTy) in
    let newShape :=
      if rank =? 2 then (* batchsize = 1 *) [1; at_ shape 0; at_ shape 1]
      else (* rank 1 *) [1; 1; at_ shape 0] in
    let newType :=
      RankedTensorType (makeShapeLLVMCompatible newShape)
                       (getElementType tensorTy) in
    create tosa_reshape newType [tensor] (DenseI64ArrayAttr newShape).

(** Not needed if max rank < 3, or if maxrank == 3 and dim[0] matches. *)
Definition needsBatchDimBroadcast (maxInputRank : Z)
    (lhsBroadcastedShape rhsBroadcastedShape : list Z) : bool :=
  if maxInputRank <? 3 then false
  else if (maxInputRank =? 3) &&
          (at_ lhsBroadcastedShape 0 =? at_ rhsBroadcastedShape 0)
  then false
  else true.

Record TensorShape_t : Type := mkTensorShape { dim : Z; shape : Z }.

Fixpoint isTransposeRequiredFrom (lastDim : Z) (transposedDims : list Z)
    : bool :=
  match transposedDims with
  | [] => false
  | d :: rest =>
      if lastDim >? d then true else isTransposeRequiredFrom d rest
  end.

(** Transpose needs to done if transposeDims are not non-monotonically
    increasing. *)
Definition isTransposeRequired (transposedDims : list Z) : bool :=
  isTransposeRequiredFrom (-1) transposedDims.

(** A store of dimension numbers into a [SmallVector<int32_t>]. *)
Definition toI32 (dims : list Z) : list Z := map (Int.wrap 32) dims.

(** Step: generate the common dim/shape information.  One iteration of the
    loop, on [(hasDynamicDims, commonValue, commonElems)]. *)
Definition commonStep (lhsBroadcastedShape rhsBroadcastedShape : list Z)
    (st : bool * Z * list TensorShape_t) (d : Z)
    : bool * Z * list TensorShape_t :=
  let '(hasDynamicDims, commonValue, commonElems) := st in
  let isDynamicDim := isDynamic (at_ lhsBroadcastedShape d) in
  let hasDynamicDims := hasDynamicDims || isDynamicDim in
  if isDynamicDim ||
     (at_ lhsBroadcastedShape d =? at_ rhsBroadcastedShape d)
  then (hasDynamicDims,
        Int.mul64 commonValue (at_ lhsBroadcastedShape d),
        commonElems ++ [mkTensorShape d (at_ lhsBroadcastedShape d)])
  else (hasDynamicDims, commonValue, commonElems).

(** Step: generate the LHS squeezed dim/shape information.  One iteration, on
    [(lhsSqueezedValue, lhsSqueezedElems)]. *)
Definition lhsSqueezedStep (lhsBroadcastedShape rhsBroadcastedShape : list Z)
    (st : Z * list TensorShape_t) (d : Z) : Z * list TensorShape_t :=
  let '(lhsSqueezedValue, lhsSqueezedElems) := st in
  let isDynamicDim := isDynamic (at_ lhsBroadcastedShape d) in
  if negb isDynamicDim &&
     negb (at_ lhsBroadcastedShape d =? at_ rhsBroadcastedShape d)
  then (Int.mul64 lhsSqueezedValue (at_ lhsBroadcastedShape d),
        lhsSqueezedElems ++ [mkTensorShape d (at_ lhsBroadcastedShape d)])
  else (lhsSqueezedValue, lhsSqueezedElems).

(** The loop over the RHS squeeze dims.  One iteration, on
    [(hasDynamicDims, rhsSqueezedValue, rhsSqueezedElems)]. *)
Definition rhsSqueezedStep (lhsBroadcastedShape rhsBroadcastedShape : list Z)
    (st : bool * Z * list TensorShape_t) (d : Z)
    : bool * Z * list TensorShape_t :=
  let '(hasDynamicDims, rhsSqueezedValue, rhsSqueezedElems) := st in
  let isDynamicDim := isDynamic (at_ rhsBroadcastedShape d) in
  let hasDynamicDims := hasDynamicDims || isDynamicDim in
  if negb isDynamicDim &&
     negb (at_ rhsBroadcastedShape d =? at_ lhsBroadcastedShape d)
  then (hasDynamicDims,
        Int.mul64 rhsSqueezedValue (at_ rhsBroadcastedShape d),
        rhsSqueezedElems ++ [mkTensorShape d (at_ rhsBroadcastedShape d)])
  else (hasDynamicDims, rhsSqueezedValue, rhsSqueezedElems).

(** [if (needsTranspose) input = tosa.transpose(input, const(dims))]. *)
Definition transposeIfRequired (input : Value) (transposedDims : list Z)
    (transposedType : Type_) : Rewriter Value :=
  if isTransposeRequired transposedDims then
    let* transposedDimsConst :=
      getConstTensor_int 32 transposedDims
        [Z.of_nat (List.length transposedDims)] in
    create tosa_transpose transposedType [input; transposedDimsConst] NoAttr
  else ret input.

(** What the batch-broadcast branch leaves behind for the output side. *)
Record BatchInfo : Type := mkBatchInfo {
  commonElems : list TensorShape_t;
  lhsSqueezedElems : list TensorShape_t;
  rhsSqueezedElems : list TensorShape_t
}.

(** The branch of [performMatmul] taken when either or both input matrices
    involve broadcasting on their batch dimensions. *)
Definition broadcastBatchDims (maxInputRank : Z)
    (lhsBroadcastedShape rhsBroadcastedShape : list Z)
    (lhsElemTy rhsElemTy : ElemType)
    (rankBroadcastedLhs rankBroadcastedRhs : Value)
    : Rewriter (Value * Value * BatchInfo) :=
  let batch := iota (maxInputRank - 2) in
  let '(hasDynamicDims, commonValue, commonElems) :=
    fold_left (commonStep lhsBroadcastedShape rhsBroadcastedShape) batch
              (false, 1, []) in
  let commonValue := if commonValue <? 0 then kUnknownSize else commonValue in
  let commonValue := if hasDynamicDims then kUnknownSize else commonValue in
  let '(lhsSqueezedValue, lhsSqueezedElems) :=
    fold_left (lhsSqueezedStep lhsBroadcastedShape rhsBroadcastedShape) batch
              (1, []) in
  (* including LHS[-2] *)
  let lhsSqueezedElems :=
    lhsSqueezedElems ++
    [mkTensorShape (maxInputRank - 2)
                   (at_ lhsBroadcastedShape (maxInputRank - 2))] in
  let lhsSqueezedValue :=
    Int.mul64 lhsSqueezedValue (at_ lhsBroadcastedShape (maxInputRank - 2)) in
  let lhsSqueezedValue :=
    if lhsSqueezedValue <? 0 then kUnknownSize else lhsSqueezedValue in
  (* Step: Create the tosa.transpose array: first the common_elems, then the
     lhs_squeezed elems, then the final dim *)
  let transposedLhsShape :=
    map shape commonElems ++ map shape lhsSqueezedElems ++
    [at_ lhsBroadcastedShape (maxInputRank - 1)] in
  let transposedLhsDims :=
    toI32 (map dim commonElems ++ map dim lhsSqueezedElems ++
           [maxInputRank - 1]) in
  let* lhsReshapeInput :=
    transposeIfRequired rankBroadcastedLhs transposedLhsDims
      (RankedTensorType (makeShapeLLVMCompatible transposedLhsShape) rhsElemTy) in
  (* LHS = {common, lhs_squeezed, matmul_dim} *)
  let newLhsShape :=
    [commonValue;
     if hasDynamicDims then kUnknownSize else lhsSqueezedValue;
     at_ lhsBroadcastedShape (maxInputRank - 1)] in
  let* matmulLhs :=
    create tosa_reshape
      (RankedTensorType (makeShapeLLVMCompatible newLhsShape) lhsElemTy)
      [lhsReshapeInput] (DenseI64ArrayAttr newLhsShape) in
  (* Step: Create the RHS transpose sequence
     RHS = {common, matmul_dim, rhs_squeezed} *)
  let '(hasDynamicDims, rhsSqueezedValue, rhsSqueezedElems) :=
    fold_left (rhsSqueezedStep lhsBroadcastedShape rhsBroadcastedShape) batch
              (false, 1, []) in
  let rhsSqueezedElems :=
    rhsSqueezedElems ++
    [mkTensorShape (maxInputRank - 1)
                   (at_ rhsBroadcastedShape (maxInputRank - 1))] in
  let rhsSqueezedValue :=
    Int.mul64 rhsSqueezedValue (at_ rhsBroadcastedShape (maxInputRank - 1)) in
  let transposedRhsShape :=
    map shape commonElems ++ [at_ rhsBroadcastedShape (maxInputRank - 2)] ++
    map shape rhsSqueezedElems in
  let transposedRhsDims :=
    toI32 (map dim commonElems ++ [maxInputRank - 2] ++
           map dim rhsSqueezedElems) in
  let rhsSqueezedValue :=
    if hasDynamicDims then kUnknownSize else rhsSqueezedValue in
  let newRhsShape :=
    [if commonValue <? 0 then kUnknownSize else commonValue;
     at_ rhsBroadcastedShape (maxInputRank - 2);
     rhsSqueezedValue] in
  let* transposedRhsValue :=
    transposeIfRequired rankBroadcastedRhs transposedRhsDims
      (RankedTensorType (makeShapeLLVMCompatible transposedRhsShape) rhsElemTy) in
  let* matmulRhs :=
    create tosa_reshape
      (RankedTensorType (makeShapeLLVMCompatible newRhsShape) rhsElemTy)
      [transposedRhsValue] (DenseI64ArrayAttr newRhsShape) in
  ret (matmulLhs, matmulRhs,
       mkBatchInfo commonElems lhsSqueezedElems rhsSqueezedElems).

(** Construction of the output reshape and transpose information:
    [(reshapedOpShape, transposedOpDims, transposedOpShapes)].  The two loops
    over the squeezed elements stop before the last element, which the
    batch-broadcast branch always appends. *)
Definition computeOpShape (maxInputRank lhsRank rhsRank : Z)
    (lhsShape rhsShape lhsBroadcastedShape rhsBroadcastedShape : list Z)
    (lhsBroadcastedTy : Type_) (info : BatchInfo)
    : list Z * list Z * list Z :=
  if maxInputRank =? 1 then ([], [], [])
  else if maxInputRank =? 2 then
    ((if lhsRank =? 2 then [at_ lhsShape 0] else []) ++
     (if rhsRank =? 2 then [at_ rhsShape 1] else []), [], [])
  else
    let butLast (l : list TensorShape_t) := firstn (List.length l - 1) l in
    (* Only dims that don't broadcast - broadcasting ones come from the other
       input. *)
    let lhsKept :=
      filter (fun e => negb (shape e =? 1)) (butLast (lhsSqueezedElems info)) in
    let rhsKept :=
      filter (fun e => negb (shape e =? 1)) (butLast (rhsSqueezedElems info)) in
    let reshapedOpShape :=
      map shape (commonElems info) ++ map shape lhsKept ++
      (if lhsRank >? 1 then [at_ lhsBroadcastedShape (maxInputRank - 2)] else []) ++
      map shape rhsKept ++
      (if rhsRank >? 1 then [at_ rhsBroadcastedShape (maxInputRank - 1)] else []) in
    let transposedOpDims :=
      toI32 (map dim (commonElems info) ++ map dim lhsKept ++
             (if lhsRank >? 1 then [maxInputRank - 2] else []) ++
             map dim rhsKept ++
             (if rhsRank >? 1 then [maxInputRank - 1] else [])) in
    (* Final transposed output shape construction *)
    let transposedOpShapes :=
      map (fun i =>
             if isDynamic (at_ (getShape lhsBroadcastedTy) i) then kUnknownSize
             else if at_ lhsBroadcastedShape i =? at_ rhsBroadcastedShape i
             then at_ lhsBroadcastedShape i
             else if at_ lhsBroadcastedShape i =? 1
             then at_ rhsBroadcastedShape i
             else at_ lhsBroadcastedShape i)
          (iota (maxInputRank - 2)) ++
      (if lhsRank >? 1 then [at_ lhsBroadcastedShape (maxInputRank - 2)] else []) ++
      (if rhsRank >? 1 then [at_ rhsBroadcastedShape (maxInputRank - 1)] else []) in
    (reshapedOpShape, transposedOpDims, transposedOpShapes).

(** Perform the basic n-dim matmul operation encompassing the handling of
    broadcasting and dynamic shape propagation. *)
Definition performMatmul (lhs rhs : Value) : Rewriter Value :=
  let lhsTy := vtype lhs in
  let rhsTy := vtype rhs in
  let lhsRank := getRank lhsTy in
  let rhsRank := getRank rhsTy in
  let lhsShape := makeShapeTorchCompatible (getShape lhsTy) in
  let rhsShape := makeShapeTorchCompatible (getShape rhsTy) in
  let lhsElemTy := getElementType lhsTy in
  let rhsElemTy := getElementType rhsTy in
  if negb (ElemType_eqb lhsElemTy rhsElemTy) then
    notifyMatchFailure "Matmul: input datatypes mismatched"
  else
  let maxInputRank := if lhsRank >? rhsRank then lhsRank else rhsRank in
  (* If performing dot product on vectors, the RHS is synthetically
     transposed *)
  let maxInputRank :=
    if maxInputRank =? 1 then maxInputRank + 1 else maxInputRank in
  (* Step: Rank broadcast the two inputs. *)
  let lhsBroadcastedShape := getRankBroadcastedShape maxInputRank lhs false in
  let lhsBroadcastedTy :=
    RankedTensorType (makeShapeLLVMCompatible lhsBroadcastedShape) lhsElemTy in
  let rhsBroadcastedShape := getRankBroadcastedShape maxInputRank rhs true in
  let rhsBroadcastedTy :=
    RankedTensorType (makeShapeLLVMCompatible rhsBroadcastedShape) rhsElemTy in
  let* rankBroadcastedLhs :=
    if lhsRank =? maxInputRank then ret lhs
    else create tosa_reshape lhsBroadcastedTy [lhs]
           (DenseI64ArrayAttr lhsBroadcastedShape) in
  let* rankBroadcastedRhs :=
    if rhsRank =? maxInputRank then ret rhs
    else create tosa_reshape rhsBroadcastedTy [rhs]
           (DenseI64ArrayAttr rhsBroadcastedShape) in
  (* Check if we need to perform the broadcast on batch dim *)
  let performBatchDimBroadcast :=
    needsBatchDimBroadcast maxInputRank lhsBroadcastedShape
                           rhsBroadcastedShape in
  (* Inputs to the tosa.matmul *)
  let* (matmulLhs, matmulRhs, info) :=
    if negb performBatchDimBroadcast then
      (* Simple with no broadcasting artifacts. Just reshape up to 3D *)
      let* l := reshapeUpTo3DTensor rankBroadcastedLhs in
      let* r := reshapeUpTo3DTensor rankBroadcastedRhs in
      ret (l, r, mkBatchInfo [] [] [])
    else
      broadcastBatchDims maxInputRank lhsBroadcastedShape rhsBroadcastedShape
        lhsElemTy rhsElemTy rankBroadcastedLhs rankBroadcastedRhs in
  let matmulLhsShape := makeShapeTorchCompatible (getShape (vtype matmulLhs)) in
  let matmulRhsShape := makeShapeTorchCompatible (getShape (vtype matmulRhs)) in
  (* The reshape/transpose should ensure the tosa.matmul always has same
     batch size for either matrix. *)
  let* _ := assert_ (at_ matmulLhsShape 0 =? at_ matmulRhsShape 0)
              "tosa.matmul needs same batchsize on LHS and RHS" in
  let matmulOutputShape :=
    [at_ matmulLhsShape 0; at_ matmulLhsShape 1; at_ matmulRhsShape 2] in
  let outputElemTy :=
    if isFloatType lhsElemTy then lhsElemTy
    else (* qint8 emits i32 matmul output *) IntegerType 32 in
  let mmOutputTy :=
    RankedTensorType (makeShapeLLVMCompatible matmulOutputShape) outputElemTy in
  let* mmOpResult := create tosa_matmul mmOutputTy [matmulLhs; matmulRhs] NoAttr in
  (* Perform the reshape to output shape. This is always required unless max
     input rank=3 and there was no broadcasting. *)
  let performOpReshape :=
    negb ((maxInputRank =? 3) && negb performBatchDimBroadcast) in
  if performOpReshape then
    let '(reshapedOpShape, transposedOpDims, transposedOpShape) :=
      computeOpShape maxInputRank lhsRank rhsRank lhsShape rhsShape
        lhsBroadcastedShape rhsBroadcastedShape lhsBroadcastedTy info in
    (* Perform reshape *)
    let reshapedOpType :=
      RankedTensorType (makeShapeLLVMCompatible reshapedOpShape) outputElemTy in
    let* reshapedOp :=
      create tosa_reshape reshapedOpType [mmOpResult]
        (DenseI64ArrayAttr reshapedOpShape) in
    transposeIfRequired reshapedOp transposedOpDims
      (RankedTensorType (makeShapeLLVMCompatible transposedOpShape) outputElemTy)
  else ret mmOpResult.

Inductive MatmulVariant : Type :=
| ConvertAtenMatMulOp      (* aten.matmul *)
| ConvertAtenMmOp_Mm       (* aten.mm *)
| ConvertAtenMmOp_Bmm.     (* aten.bmm *)

Definition readMatMulInputs (variant : MatmulVariant) (op : AtenMatmulOp)
    : Rewriter (Value * Value) :=
  let lhs := matmul_self op in
  let* _ := assert_ (isRankedTensorType (vtype lhs)) msgCast in
  let rhs := matmul_other op in
  let* _ := assert_ (isRankedTensorType (vtype rhs)) msgCast in
  if negb (isRankedTensorType (vtype lhs)) ||
     negb (isRankedTensorType (vtype rhs)) then
    notifyMatchFailure "Only ranked tensor types supported in TOSA matmul"
  else
    let lhsRank := getRank (vtype lhs) in
    let rhsRank := getRank (vtype rhs) in
    match variant with
    | ConvertAtenMatMulOp => ret (lhs, rhs)
    | ConvertAtenMmOp_Mm =>
        (* Mm takes two 2D tensors. *)
        if negb (lhsRank =? 2) || negb (rhsRank =? 2) then
          notifyMatchFailure "aten.mm called but matrix rank != 2"
        else ret (lhs, rhs)
    | ConvertAtenMmOp_Bmm =>
        (* Bmm takes two 3D tensors. *)
        if negb (lhsRank =? 3) || negb (rhsRank =? 3) then
          notifyMatchFailure "aten.bmm called but matrix rank != 3"
        else ret (lhs, rhs)
    end.

(** The default version just reads two inputs, computes output and returns
    it. *)
Definition ConvertAtenMatmulBaseOp_matchAndRewrite (variant : MatmulVariant)
    (op : AtenMatmulOp) : Rewriter unit :=
  let* (lhs, rhs) :=
    orFail (readMatMulInputs variant op) "Failed to read matmul inputs" in
  let* output :=
    orFail (performMatmul lhs rhs) "Failed to perform matmul operation" in
  replaceOpWithNewOp tensor_cast (matmul_type op) [output] NoAttr.

(** ** Reshape, view and flatten *)





Definition msgConstSize : string := "size must consist of Scalar constants".


(** Modelled from the spec: the "canonical positive-dimension conversion" and
    the "dimension-validity check" of Torch/Utils. *)
Definition toPositiveDim (d inputRank : Z) : Z :=
  if d >=? 0 then d else d + inputRank.

Definition isValidDim (d inputRank : Z) : bool :=
  (d >=? 0) && (d <? inputRank).

Record AtenFlattenUsingIntsOp : Type := mkFlatten {
  flatten_self : Value;
  flatten_start_dim : Value;
  flatten_end_dim : Value;
  flatten_type : Type_
}.

(** [newShape.back() *= v]. *)
Definition mulBack (newShape : list Z) (v : Z) : list Z :=
  match newShape with
  | [] => []
  | _ => removelast newShape ++ [Int.mul64 (last newShape 0) v]
  end.

(** The loop of the flatten pattern over the enumerated input shape. *)
Fixpoint flattenLoop (start_dim end_dim idx : Z) (selfShape newShape : list Z)
    : list Z :=
  match selfShape with
  | [] => newShape
  | s :: rest =>
      let newShape :=
        if (idx <? start_dim) || (idx >? end_dim) then newShape ++ [s]
        else if idx =? start_dim then newShape ++ [s]
        else mulBack newShape s in
      flattenLoop start_dim end_dim (idx + 1) rest newShape
  end.

Definition ConvertAtenFlattenUsingIntsOp_matchAndRewrite
    (op : AtenFlattenUsingIntsOp) : Rewriter unit :=
  (* Not a ranked tensor type *)
  let selfType := vtype (flatten_self op) in
  if negb (isRankedTensorType selfType) || negb (hasStaticShape selfType) then
    notifyMatchFailure
      "Only ranked tensor types with static shapes are currently supported"
  else
  let selfRank := getRank selfType in
  match m_TorchConstantInt (flatten_start_dim op) with
  | None => notifyMatchFailure "start_dim must be a Scalar constant"
  | Some start_dim =>
  let start_dim := toPositiveDim start_dim selfRank in
  match m_TorchConstantInt (flatten_end_dim op) with
  | None => notifyMatchFailure "end_dim must be a Scalar constant"
  | Some end_dim =>
  let end_dim := toPositiveDim end_dim selfRank in
  if (selfRank >? 0) && negb (isValidDim start_dim selfRank) then
    notifyMatchFailure "start_dim is statically invalid"
  else if (selfRank >? 0) && negb (isValidDim end_dim selfRank) then
    notifyMatchFailure "end_dim is statically invalid"
  else if end_dim <? start_dim then
    notifyMatchFailure "end_dim must be larger than start_dim"
  else
  let newShape :=
    flattenLoop start_dim end_dim 0
      (makeShapeTorchCompatible (getShape selfType)) [] in
  (* Handle the Scalar case *)
  let newShape := if Nat.eqb (List.length newShape) 0 then [1] else newShape in
  let newType :=
    RankedTensorType (makeShapeLLVMCompatible newShape)
                     (getElementType selfType) in
  let* reshapeOp :=
    create tosa_reshape newType [flatten_self op] (DenseI64ArrayAttr newShape) in
  replaceOpWithNewOp tensor_cast (flatten_type op) [reshapeOp] NoAttr
  end
  end.

(** ** Embedding *)

Record AtenEmbeddingOp : Type := mkEmbedding {
  embedding_weight : Value;
  embedding_indices : Value;
  embedding_padding_idx : Value;
  embedding_scale_grad_by_freq : Value;
  embedding_sparse : Value;
  embedding_type : Type_
}.

Definition msgIndicesInt : string := "Indices must be of integer tensor type".
Definition msgIndicesRank : string := "indices must be of rank 2".
Definition msgWeightRank : string := "weight must be of rank 2".

Definition ConvertAtenEmbeddingOp_matchAndRewrite (op : AtenEmbeddingOp)
    : Rewriter unit :=
  let weight := embedding_weight op in
  let indices := embedding_indices op in
  let outType := embedding_type op in
  let indicesType := vtype indices in
  if negb (isRankedTensorType indicesType) ||
     negb (isIntegerType (getElementType indicesType)) then
    notifyMatchFailure msgIndicesInt
  else if negb (getRank indicesType =? 2) then
    notifyMatchFailure msgIndicesRank
  else
  let weightType := vtype weight in
  let* _ := assert_ (isRankedTensorType weightType) msgCast in
  if negb (getRank weightType =? 2) then notifyMatchFailure msgWeightRank
  else
  (* FIXME: padding_idx, scale_grad_by_freq and sparse are not handled yet. *)
  match m_TorchConstantInt (embedding_padding_idx op) with
  | None =>
      notifyMatchFailure
        "only supports constant int padding_idx for embedding op"
  | Some _ =>
  match m_TorchConstantBool (embedding_scale_grad_by_freq op) with
  | None =>
      notifyMatchFailure
        "only supports constant bool scale_grad_by_freq for embedding op"
  | Some true =>
      notifyMatchFailure
        "only supports scale_grad_by_freq equals to False for embedding op"
  | Some false =>
  match m_TorchConstantBool (embedding_sparse op) with
  | None =>
      notifyMatchFailure "only supports constant bool sparse for embedding op"
  | Some true =>
      notifyMatchFailure "only support sparse equals to False for embedding op"
  | Some false =>
  (* Reshape the weight, since tosa.gather expects a 3D tensor *)
  let indicesShape := makeShapeTorchCompatible (getShape indicesType) in
  let weightShape := makeShapeTorchCompatible (getShape weightType) in
  let newWeightShape := 1 :: weightShape in
  let* reshapedWeight :=
    create tosa_reshape
      (RankedTensorType (makeShapeLLVMCompatible newWeightShape)
                        (getElementType weightType))
      [weight] (DenseI64ArrayAttr newWeightShape) in
  let numIndices :=
    if hasStaticShape indicesType then fold_left Int.mul64 indicesShape 1
    else kUnknownSize in
  let newIndicesShape := [1; numIndices] in
  let* reshapedIndices :=
    create tosa_reshape
      (RankedTensorType (makeShapeLLVMCompatible newIndicesShape)
                        (getElementType indicesType))
      [indices] (DenseI64ArrayAttr newIndicesShape) in
  let* castIndices :=
    create tosa_cast
      (RankedTensorType (makeShapeLLVMCompatible newIndicesShape)
                        (IntegerType 32))
      [reshapedIndices] NoAttr in
  let intermediateOutShape := [1; numIndices; at_ weightShape 1] in
  let* gatherOp :=
    create tosa_gather
      (RankedTensorType (makeShapeLLVMCompatible intermediateOutShape)
                        (getElementType weightType))
      [reshapedWeight; castIndices] NoAttr in
  replaceOpWithNewOp tosa_reshape outType [gatherOp]
    (DenseI64ArrayAttr (makeShapeTorchCompatible (getShape outType)))
  end
  end
  end.

(** ** Broadcast-to *)

(** [users] lists the names of the operations that use the result. *)
Record AtenBroadcastToOp : Type := mkBroadcastTo {
  broadcast_self : Value;
  broadcast_size : Value;
  broadcast_users : list string
}.

Fixpoint equal (a b : list Z) : bool :=
  match a, b with
  | [], [] => true
  | x :: a', y :: b' => (x =? y) && equal a' b'
  | _, _ => false
  end.

Definition msgStaticOnly : string :=
  "Only tensor types with static shape are supported".
Definition msgViewLikeUser : string :=
  "unimplemented: broadcast not supported for this case".
Definition msgOtherRank : string :=
  "unimplemented: broadcasts other than same rank or zero ranked tensor.".

Definition ConvertAtenBroadcastToOp_matchAndRewrite (op : AtenBroadcastToOp)
    : Rewriter unit :=
  (* Not a tensor type. *)
  let selfType := vtype (broadcast_self op) in
  if negb (isTensorType selfType) || negb (hasStaticShape selfType) then
    notifyMatchFailure msgStaticOnly
  else
  let selfElemTy := getElementType selfType in
  if negb (isIntOrFloat selfElemTy) then notifyMatchFailure msgOnlyIntOrFloat
  else
  match m_TorchListOfConstantInts (broadcast_size op) with
  | None => notifyMatchFailure msgConstSize
  | Some outShape =>
  let inputShape := makeShapeTorchCompatible (getShape selfType) in
  if Nat.eqb (List.length inputShape) (List.length outShape) ||
     Nat.eqb (List.length inputShape) 0 then
    (* Check for identity case.  Otherwise the case is only supported if the
       result is not used by an op which is a view like. *)
    if negb (equal inputShape outShape) &&
       existsb isViewLikeOp (broadcast_users op) then
      notifyMatchFailure msgViewLikeUser
    else
      (* handled by implicit broadcasting done by tosa *)
      replaceAllUsesAndErase (broadcast_self op)
  else notifyMatchFailure msgOtherRank
  end.

End Legalizations.

(** * Specifications *)

Section Specifications.

Context {platform : Platform}.

(** ** The scalar lift, in the spec's words *)


(** ** Squeeze, in the spec's words *)

(** Which positions a squeeze is asked to remove: every position for the
    all-dims variant, the position named by the (normalised) constant dim for
    the one-dim variant; none when that dim is not a constant. *)
Definition squeezeRequest (variant : SqueezeVariant) (dimArg : option Z)
    (rank : Z) : option (Z -> bool) :=
  match variant, dimArg with
  | ConvertAtenSqueezeAllDimsOp, _ => Some (fun _ => true)
  | ConvertAtenSqueezeOneDimOp, Some d =>
      Some (fun i => i =? (if d <? 0 then d + rank else d))
  | ConvertAtenSqueezeOneDimOp, None => None
  end.

(** The positions that stay: all but those whose size is statically known to
    be 1 and that the request names. *)
Definition keptPositions (request : Z -> bool) (s : list Z) : list Z :=
  filter (fun i => negb ((at_ s i =? 1) && request i))
         (iota (Z.of_nat (List.length s))).

Definition squeezeSpec (request : Z -> bool) (s : list Z) : list Z :=
  map (at_ s) (keptPositions request s).

(** A dimension of a ranked tensor type: a static size or the dynamic
    marker. *)
Definition wellFormedDim (d : Z) : Prop := 0 <= d \/ d = kDynamic.

(** A loop that keeps the elements a predicate on (position, element)
    accepts. *)
Fixpoint keepLoop (p : Z -> Z -> bool) (k : Z) (l : list Z) : list Z :=
  match l with
  | [] => []
  | d :: rest => (if p k d then [d] else []) ++ keepLoop p (k + 1) rest
  end.

(** ** Chains of operations *)

(** [ops] is a chain of [tosa.argmax] over dimension [axis]: the first reads
    [input], each next one reads the result of the one before, and every
    result is an i32 tensor. *)
Fixpoint argmaxChain (axis : Z) (input : Value) (ops : list Operation) : Prop :=
  match ops with
  | [] => True
  | o :: rest =>
      opName o = tosa_argmax /\ opOperands o = [input] /\
      opAttr o = IntegerAttr axis /\
      getElementType (vtype (opResult o)) = IntegerType 32 /\
      argmaxChain axis (opResult o) rest
  end.

(** The value a chain ends with. *)
Definition lastResult (input : Value) (ops : list Operation) : Value :=
  fold_left (fun _ o => opResult o) ops input.

Definition countOps (n : OpName) (ops : list Operation) : nat :=
  List.length (filter (fun o => OpName_eqb (opName o) n) ops).

(** ** Embedding, in the spec's words *)

(** Integer index tensor of rank exactly 2 and weight tensor of rank exactly
    2. *)
Definition embeddingRanksAccepted (op : AtenEmbeddingOp) : bool :=
  isRankedTensorType (vtype (embedding_indices op)) &&
  isIntegerType (getElementType (vtype (embedding_indices op))) &&
  (getRank (vtype (embedding_indices op)) =? 2) &&
  isRankedTensorType (vtype (embedding_weight op)) &&
  (getRank (vtype (embedding_weight op)) =? 2).

(** Only the inference path: a constant padding index, and
    [scale_grad_by_freq] and [sparse] statically false. *)
Definition embeddingFlagsAccepted (op : AtenEmbeddingOp) : bool :=
  isSome (m_TorchConstantInt (embedding_padding_idx op)) &&
  match m_TorchConstantBool (embedding_scale_grad_by_freq op),
        m_TorchConstantBool (embedding_sparse op) with
  | Some false, Some false => true
  | _, _ => false
  end.

(** ** Broadcast-to, in the spec's words *)

(** Static input of an integer or float element type, a constant size list
    of the rank of the input (or any rank for a zero-ranked input), and no
    view-like consumer unless the requested shape is the input shape. *)
Definition broadcastToAccepted (op : AtenBroadcastToOp) : bool :=
  let t := vtype (broadcast_self op) in
  isTensorType t && hasStaticShape t && isIntOrFloat (getElementType t) &&
  match m_TorchListOfConstantInts (broadcast_size op) with
  | Some outShape =>
      (Nat.eqb (List.length (getShape t)) (List.length outShape) ||
       Nat.eqb (List.length (getShape t)) 0) &&
      (equal (getShape t) outShape ||
       negb (existsb isViewLikeOp (broadcast_users op)))
  | None => false
  end.

(** ** Reshape, view and flatten, in the spec's words *)




(** ** Comparisons: what the operations compute *)






Fixpoint mapM {A B} (f : A -> option B) (l : list A) : option (list B) :=
  match l with
  | [] => Some []
  | x :: rest =>
      match f x, mapM f rest with
      | Some y, Some ys => Some (y :: ys)
      | _, _ => None
      end
  end.
















(** ** Matmul shape law, in the spec's words *)

(** Standard broadcasting of two lists of batch dimensions: the lists are
    aligned at the right, the shorter one is padded with 1, and two sizes are
    compatible when they are equal or one of them is 1. *)
Definition padLeft (n : nat) (l : list Z) : list Z :=
  repeat 1 (n - List.length l) ++ l.

Definition broadcastDim (a b : Z) : option Z :=
  if a =? b then Some a
  else if a =? 1 then Some b
  else if b =? 1 then Some a
  else None.

Definition broadcastShapes (a b : list Z) : option (list Z) :=
  let n := Nat.max (List.length a) (List.length b) in
  mapM (fun p => broadcastDim (fst p) (snd p))
       (combine (padLeft n a) (padLeft n b)).

(** The shape of [A x B] for [A : batchA ++ [M; K]] and
    [B : batchB ++ [K; N]]. *)
Definition matmulShape (batchA batchB : list Z) (M N : Z) : option (list Z) :=
  match broadcastShapes batchA batchB with
  | Some batch => Some (batch ++ [M; N])
  | None => None
  end.

End Specifications.

(** * Further legalizations *)

Section FurtherLegalizations.

Context {platform : Platform}.

(** ** Stores into a vector *)

Fixpoint setAtNat (l : list Z) (i : nat) (x : Z) : list Z :=
  match l, i with
  | [], _ => []
  | _ :: rest, O => x :: rest
  | y :: rest, S i' => y :: setAtNat rest i' x
  end.

(** [v[i] = x] on a [SmallVector].  Every store of the patterns below comes
    after a check that puts [i] within the vector; outside of it, where C++
    leaves the store undefined, the vector is left as it is. *)
Definition setAt (l : list Z) (i x : Z) : list Z :=
  if (0 <=? i) && (i <? Z.of_nat (List.length l))
  then setAtNat l (Z.to_nat i) x else l.

(** [std::swap(v[i], v[j])]. *)
Definition swapAt (l : list Z) (i j : Z) : list Z :=
  setAt (setAt l i (at_ l j)) j (at_ l i).

Definition isNoneType (t : Type_) : bool :=
  match t with NoneType => true | _ => false end.

(** ** Multiplication *)

Inductive AtenMulKind : Type :=
| AtenMulTensorOp | AtenMulScalarOp | AtenSquareOp.

(** [aten.mul.Tensor], [aten.mul.Scalar]; [aten.square] has no [other]
    operand and the pattern does not read the field for it. *)
Record AtenMulOp : Type := mkMul {
  mul_self : Value;
  mul_other : Value;
  mul_type : Type_
}.

Definition msgOnlyScalarConstants : string :=
  "Currently only scalar constants are supported for conversion in TOSA operation".

Definition ConvertAtenMulOp_matchAndRewrite (AtenOpT : AtenMulKind)
    (op : AtenMulOp) : Rewriter unit :=
  let lhs := mul_self op in
  match dyn_cast_TensorType (vtype lhs) with
  | None => notifyMatchFailure msgOnlyTensor
  | Some lhsType =>
  let outType := mul_type op in
  let outElemTy := getElementType outType in
  if negb (isIntOrFloat outElemTy) then notifyMatchFailure msgOnlyIntOrFloat
  else
  let* rhsTensor :=
    match AtenOpT with
    | AtenSquareOp => ret lhs
    | _ =>
        let rhs := mul_other op in
        match dyn_cast_TensorType (vtype rhs) with
        | None =>
            orFail (torchScalarToTosaTensor rhs outElemTy [])
                   msgOnlyScalarConstants
        | Some _ => ret rhs
        end
    end in
  if isFloatType outElemTy || isIntegerType outElemTy then
    let* lhs :=
      if negb (ElemType_eqb (getElementType lhsType) outElemTy) then
        create tosa_cast outType [lhs] NoAttr
      else ret lhs in
    replaceOpWithNewOp tosa_mul outType [lhs; rhsTensor] (IntegerAttr 0)
  else
    (* Quantized multiplication may need to rescale inputs. *)
    notifyMatchFailure
      "Only floating-point or integer datatype legalization currently supported"
  end.

(** ** Reverse subtraction *)

Record AtenRsubScalarOp : Type := mkRsub {
  rsub_self : Value;
  rsub_other : Value;
  rsub_alpha : Value;
  rsub_type : Type_
}.

Definition msgRsubScalar : string :=
  "Currently only scalar constants are supported for conversion in TOSA Rsub operation".

(** Where the source answers a failed [torchAlphaToTosaTensor] with a bare
    [return failure()], the failure that reaches the caller is the one the
    helper reported: the bind passes it on. *)
Definition ConvertAtenRsubScalarOp_matchAndRewrite (op : AtenRsubScalarOp)
    : Rewriter unit :=
  let self := rsub_self op in
  let otherScalar := rsub_other op in
  let alphaScalar := rsub_alpha op in
  let selfTy := vtype self in
  let* _ := assert_ (isRankedTensorType selfTy) msgCast in
  if negb (isRankedTensorType selfTy) then
    notifyMatchFailure "Only ranked tensor types supported in TOSA Rsub"
  else if negb (isFloatType (getElementType selfTy)) then
    notifyMatchFailure "Only floating-point datatype legalization supported"
  else
  let* otherTensor :=
    orFail (torchScalarToTosaTensor otherScalar (getElementType selfTy) [])
           msgRsubScalar in
  let* alphaTensor :=
    torchAlphaToTosaTensor alphaScalar (getElementType selfTy) true in
  let* multTensor :=
    create tosa_mul (rsub_type op) [self; alphaTensor] (IntegerAttr 0) in
  replaceOpWithNewOp tosa_sub (rsub_type op) [otherTensor; multTensor] NoAttr.

(** ** Linear *)

Record AtenLinearOp : Type := mkLinear {
  linear_input : Value;
  linear_weight : Value;
  linear_bias : Value;
  linear_type : Type_
}.

(** [ConvertAtenLinearOp::readMatMulInputs]. *)
Definition ConvertAtenLinearOp_readMatMulInputs (op : AtenLinearOp)
    : Rewriter (Value * Value) :=
  let lhs := linear_input op in
  let* _ := assert_ (isRankedTensorType (vtype lhs)) msgCast in
  let rhs := linear_weight op in
  let* _ := assert_ (isRankedTensorType (vtype rhs)) msgCast in
  if negb (isRankedTensorType (vtype lhs)) ||
     negb (isRankedTensorType (vtype rhs)) then
    notifyMatchFailure "Only ranked tensor types supported in TOSA matmul"
  else
  let lhsRank := getRank (vtype lhs) in
  let rhsRank := getRank (vtype rhs) in
  if negb (lhsRank =? 2) && negb (lhsRank =? 3) then
    notifyMatchFailure "aten.Linear called but input rank not 2 or 3"
  else if negb (rhsRank =? 2) && negb (rhsRank =? 3) then
    notifyMatchFailure "aten.Linear called but weight rank not 2 or 3"
  else
  (* Protection against crash due to unguarded code in TOSA->LinAlg. *)
  if negb (hasStaticShape (vtype lhs)) || negb (hasStaticShape (vtype rhs)) then
    notifyMatchFailure "aten.Linear needs statically shaped input"
  else ret (lhs, rhs).

(** Override of the default rewriter to perform RHS transpose and bias
    addition as well. *)
Definition ConvertAtenLinearOp_matchAndRewrite (op : AtenLinearOp)
    : Rewriter unit :=
  let* (lhs, rhs) :=
    orFail (ConvertAtenLinearOp_readMatMulInputs op)
           "Failed to read matmul inputs" in
  (* The aten.Linear op has a bias tensor that is added to the matmul
     output. *)
  let bias := linear_bias op in
  let biasTy := vtype bias in
  (* TOSA does not mandate that elementwise op tensors need to be ranked. *)
  if negb (isNoneType biasTy) && negb (isTensorType biasTy) then
    notifyMatchFailure
      "Only tensor types supported in GEMM to TOSA for bias tensor"
  else
  (* RHS must have its last two dims transposed prior to matrix
     multiplication. *)
  let rhsTy := vtype rhs in
  let rhsRank := getRank rhsTy in
  let rhsShape := makeShapeTorchCompatible (getShape rhsTy) in
  let rhsElemTy := getElementType rhsTy in
  (* Swap the last two dims. *)
  let transposedRhsShape := swapAt rhsShape (rhsRank - 1) (rhsRank - 2) in
  let transposedRhsDims :=
    swapAt (toI32 (iota rhsRank)) (rhsRank - 1) (rhsRank - 2) in
  let* transposedRhsShapeConst :=
    getConstTensor_int 32 transposedRhsDims
      [Int.wrap 32 (Z.of_nat (List.length transposedRhsDims))] in
  let transposedRhsType :=
    RankedTensorType (makeShapeLLVMCompatible transposedRhsShape) rhsElemTy in
  let* rhs :=
    create tosa_transpose transposedRhsType [rhs; transposedRhsShapeConst]
           NoAttr in
  let* matmulOutput :=
    orFail (performMatmul lhs rhs) "Failed to perform matmul operation" in
  let* matmulPlusBias :=
    if negb (isNoneType biasTy) then
      (* Bias addition broadcasts to the matmul output shape. *)
      create tosa_add (vtype matmulOutput) [matmulOutput; bias] NoAttr
    else ret matmulOutput in
  replaceOpWithNewOp tensor_cast (linear_type op) [matmulPlusBias] NoAttr.

(** ** Permute, unsqueeze and transpose *)

Record AtenPermuteOp : Type := mkPermute {
  permute_self : Value;
  permute_dims : Value;
  permute_type : Type_
}.

(** The loop of the permute pattern over [dimListInt]: each dim is replaced
    by its positive form, and the first one that is not valid ends the
    pattern. *)
Fixpoint permuteLoop (selfRank : Z) (dimListInt : list Z) : option (list Z) :=
  match dimListInt with
  | [] => Some []
  | d :: rest =>
      let d := toPositiveDim d selfRank in
      if negb (isValidDim d selfRank) then None
      else match permuteLoop selfRank rest with
           | Some rest' => Some (d :: rest')
           | None => None
           end
  end.

Definition ConvertAtenPermuteOp_matchAndRewrite (op : AtenPermuteOp)
    : Rewriter unit :=
  (* Not a ranked tensor type *)
  let selfType := vtype (permute_self op) in
  if negb (isRankedTensorType selfType) then
    notifyMatchFailure
      "Only ranked tensor types with static shapes are currently supported"
  else
  match m_TorchListOfConstantInts (permute_dims op) with
  | None => notifyMatchFailure "Only constant dimensions are currently supported"
  | Some dimListInt =>
  let selfRank := getRank selfType in
  match permuteLoop selfRank dimListInt with
  | None => notifyMatchFailure "Not all dims are valid"
  | Some dimListInt =>
  let* transposeDimsConst := getConstTensor_int 64 dimListInt [selfRank] in
  replaceOpWithNewOp tosa_transpose (permute_type op)
    [permute_self op; transposeDimsConst] NoAttr
  end
  end.

Record AtenUnsqueezeOp : Type := mkUnsqueeze {
  unsqueeze_self : Value;
  unsqueeze_dim : Value;
  unsqueeze_type : Type_
}.

(** The loop of the unsqueeze pattern over the enumerated input shape. *)
Fixpoint unsqueezeLoop (d idx : Z) (selfShape : list Z) : list Z :=
  match selfShape with
  | [] => []
  | s :: rest =>
      (if idx =? d then [1] else []) ++ [s] ++ unsqueezeLoop d (idx + 1) rest
  end.

Definition msgDimInvalid : string := "dim is statically invalid".

Definition ConvertAtenUnsqueezeOp_matchAndRewrite (op : AtenUnsqueezeOp)
    : Rewriter unit :=
  (* Not a tensor type. *)
  match dyn_cast_TensorType (vtype (unsqueeze_self op)) with
  | None => notifyMatchFailure "Only tensor types are currently supported"
  | Some selfType =>
  let* _ := assert_ (isRankedTensorType selfType) msgGetRank in
  let selfRank := getRank selfType in
  let selfElemTy := getElementType selfType in
  if negb (isIntOrFloat selfElemTy) then notifyMatchFailure msgOnlyIntOrFloat
  else
  match m_TorchConstantInt (unsqueeze_dim op) with
  | None => notifyMatchFailure "dim must be a Scalar constant"
  | Some d =>
  (* For unsqueeze, -1 has to be converted to inputRank, and the valid dim
     range is [0, inputRank + 1). *)
  let d := toPositiveDim d (selfRank + 1) in
  if negb (isValidDim d (selfRank + 1)) then notifyMatchFailure msgDimInvalid
  else
  let outShape :=
    unsqueezeLoop d 0 (makeShapeTorchCompatible (getShape selfType)) in
  let outShape := if d =? selfRank then outShape ++ [1] else outShape in
  replaceOpWithNewOp tosa_reshape (unsqueeze_type op) [unsqueeze_self op]
    (DenseI64ArrayAttr outShape)
  end
  end.

Record AtenTransposeIntOp : Type := mkTransposeInt {
  transpose_self : Value;
  transpose_dim0 : Value;
  transpose_dim1 : Value;
  transpose_type : Type_
}.

Definition msgTransposeDims : string :=
  "dim0 and dim1 must be less than tensor rank".

Definition ConvertAtenTransposeIntOp_matchAndRewrite (op : AtenTransposeIntOp)
    : Rewriter unit :=
  match dyn_cast_TensorType (vtype (transpose_self op)) with
  | None => notifyMatchFailure "Only tensor types are supported"
  | Some selfType =>
  (* Only statically resolvable values are currently supported *)
  match m_TorchConstantInt (transpose_dim0 op) with
  | None => notifyMatchFailure "dim0 must be a Scalar constant"
  | Some dim0 =>
  match m_TorchConstantInt (transpose_dim1 op) with
  | None => notifyMatchFailure "dim1 must be a Scalar constant"
  | Some dim1 =>
  let* _ := assert_ (isRankedTensorType selfType) msgGetRank in
  let dim0 := toPositiveDim dim0 (getRank selfType) in
  let dim1 := toPositiveDim dim1 (getRank selfType) in
  let selfRank := getRank selfType in
  if negb (isValidDim dim0 selfRank) || negb (isValidDim dim1 selfRank) then
    notifyMatchFailure msgTransposeDims
  else
  let transposeDims := toI32 (iota (getRank selfType)) in
  let transposeDims := setAt transposeDims dim0 (Int.wrap 32 dim1) in
  let transposeDims := setAt transposeDims dim1 (Int.wrap 32 dim0) in
  let* transposeDimsConst :=
    getConstTensor_int 32 transposeDims [getRank selfType] in
  replaceOpWithNewOp tosa_transpose (transpose_type op)
    [transpose_self op; transposeDimsConst] NoAttr
  end
  end
  end.

(** ** Pooling *)

(** [a / b] on [int64_t]: the quotient truncated toward zero.  C++ leaves it
    undefined for a zero divisor and for the one quotient that does not fit. *)
Definition sdiv (a b : Z) : option Z :=
  if (b =? 0) || ((a =? Int.min 64) && (b =? -1)) then None
  else Some (Z.quot a b).

(** Where C++ leaves a computation undefined the run is taken to abort, as it
    does on x86-64, where such a division traps. *)
Definition orAbort {A} (o : option A) (msg : string) : Rewriter A :=
  fun s => match o with
           | Some a => success (a, s)
           | None => assertionFailed msg
           end.

Definition msgDivision : string := "integer division is undefined".

(** What [processInputs] hands to the common rewriter. *)
Record PoolingInputs : Type := mkPoolingInputs {
  pool_input : Value;
  pool_kernel : list Z;
  pool_stride : list Z;
  pool_pad : list Z;
  pool_outputTy : Type_
}.

(** [ConvertAtenPoolingBaseOp::getOutputDim].  Sums and products are kept
    modulo 2^64. *)
Definition getOutputDim (inputDim kernelDim stride padBefore padAfter
    dilation : Z) : option Z :=
  if inputDim =? kUnknownSize then Some kUnknownSize
  else
    match sdiv (Int.wrap 64 (inputDim + padBefore + padAfter
                             - dilation * (kernelDim - 1) - 1)) stride with
    | Some q => Some (Int.wrap 64 (q + 1))
    | None => None
    end.

(** Apply the transposeDims vector on input to generate a transposed form.
    A dim outside of the input shape, which the callers never pass, reads as
    0. *)
Definition transposeTensor (input : Value) (transposeDims : list Z)
    : Rewriter Value :=
  let inputTy := vtype input in
  let* _ := assert_ (isRankedTensorType inputTy) msgCast in
  let inputElemTy := getElementType inputTy in
  let inputShape := makeShapeTorchCompatible (getShape inputTy) in
  let inputRank := getRank inputTy in
  let* transposeDimsConst :=
    getConstTensor_int 32 transposeDims [Int.wrap 32 inputRank] in
  let transposedInputShape := map (at_ inputShape) transposeDims in
  let transposedInputType :=
    RankedTensorType (makeShapeLLVMCompatible transposedInputShape)
                     inputElemTy in
  create tosa_transpose transposedInputType [input; transposeDimsConst] NoAttr.

Definition transposePoolingInputToHwc (input : Value) : Rewriter Value :=
  let* _ := assert_ (isRankedTensorType (vtype input)) msgCast in
  let inputRank := getRank (vtype input) in
  let nchwToNhwc4DTransposeDims := [0; 2; 3; 1] in
  let chwToHwc3DTransposeDims := [1; 2; 0] in
  transposeTensor input
    (if inputRank =? 3 then chwToHwc3DTransposeDims
     else nchwToNhwc4DTransposeDims).

Definition transposePoolingOutputToChw (input : Value) : Rewriter Value :=
  let* _ := assert_ (isRankedTensorType (vtype input)) msgCast in
  let inputRank := getRank (vtype input) in
  let nhwcToNchw4DTransposeDims := [0; 3; 1; 2] in
  let hwcToChw3DTransposeDims := [2; 0; 1] in
  transposeTensor input
    (if inputRank =? 3 then hwcToChw3DTransposeDims
     else nhwcToNchw4DTransposeDims).

Record AtenAdaptiveAvgPool2dOp : Type := mkAdaptiveAvgPool2d {
  adaptive_self : Value;
  adaptive_output_size : Value
}.

Definition msgPoolRank : string :=
  "NCHW->NHWC transpose requires 3D or 4D tensor".

(** [ConvertAtenAdaptivePoolingOp::processInputs]. *)
Definition ConvertAtenAdaptivePoolingOp_processInputs
    (op : AtenAdaptiveAvgPool2dOp) : Rewriter PoolingInputs :=
  let inputXchw := adaptive_self op in
  let inputTy := vtype inputXchw in
  let* _ := assert_ (isRankedTensorType inputTy) msgCast in
  if negb (isRankedTensorType inputTy) then
    notifyMatchFailure "Adaptive avgpool requires ranked tensor input"
  else
  let inputShape := makeShapeTorchCompatible (getShape inputTy) in
  let inputRank := getRank inputTy in
  let inputElemTy := getElementType inputTy in
  (* Rank sanity check. *)
  if negb (getRank inputTy =? 4) && negb (inputRank =? 3) then
    notifyMatchFailure msgPoolRank
  else
  let inputHDim := at_ inputShape (inputRank - 2) in
  let inputWDim := at_ inputShape (inputRank - 1) in
  match m_TorchListOfConstantInts (adaptive_output_size op) with
  | None =>
      notifyMatchFailure
        "Non-const output_size for adaptive pooling unsupported."
  | Some outputSize =>
  let* (outputHDim, outputWDim) :=
    if Nat.eqb (List.length outputSize) 1 then
      ret (at_ outputSize 0, at_ outputSize 0)
    else if negb (Nat.eqb (List.length outputSize) 2) then
      notifyMatchFailure "Adaptive avgpool output_size not 1 or 2 elements."
    else
      (* Assumes 'None' (e.g. output_size=(None, 5) ) is expressed as <=0. *)
      ret (if at_ outputSize 0 <=? 0 then at_ inputShape (inputRank - 2)
           else at_ outputSize 0,
           if at_ outputSize 1 <=? 0 then at_ inputShape (inputRank - 1)
           else at_ outputSize 1) in
  (* In adaptive pooling,
     stride = inputDim // outputDim
     kernel = inputDim - (outputDim-1)* stride
     pad = 0, dilation = 1 *)
  let* strideH :=
    orAbort (sdiv (at_ inputShape (inputRank - 2)) outputHDim) msgDivision in
  let* strideW :=
    orAbort (sdiv (at_ inputShape (inputRank - 1)) outputWDim) msgDivision in
  let kernelDims :=
    [Int.wrap 64 (inputHDim - (outputHDim - 1) * strideH);
     Int.wrap 64 (inputWDim - (outputWDim - 1) * strideW)] in
  let outputShape :=
    (if inputRank >? 3 then [at_ inputShape 0] else []) ++
    [outputHDim; outputWDim; at_ inputShape (inputRank - 3)] in
  (* Transpose to xHWC *)
  let* input := transposePoolingInputToHwc inputXchw in
  (* Adaptive pooling does unit dilation and zero pad. *)
  ret (mkPoolingInputs input kernelDims [strideH; strideW] [0; 0; 0; 0]
         (RankedTensorType (makeShapeLLVMCompatible outputShape) inputElemTy))
  end.

(** A read past the end of one of the parameter vectors, which C++ leaves
    undefined, reads as 0. *)
Definition getOutputTypeForNonAdaptivePoolingOp (inputTy : Type_)
    (kernelSize strideArray padArray dilationArray : list Z) : option Type_ :=
  let inputShape := makeShapeTorchCompatible (getShape inputTy) in
  let inputRank := getRank inputTy in
  let inputElemTy := getElementType inputTy in
  match getOutputDim (at_ inputShape (inputRank - 2)) (at_ kernelSize 0)
                     (at_ strideArray 0) (at_ padArray 0) (at_ padArray 0)
                     (at_ dilationArray 0) with
  | None => None
  | Some outputHDim =>
  match getOutputDim (at_ inputShape (inputRank - 1)) (at_ kernelSize 1)
                     (at_ strideArray 1) (at_ padArray 1) (at_ padArray 1)
                     (at_ dilationArray 1) with
  | None => None
  | Some outputWDim =>
      let outputShape :=
        (if inputRank >? 3 then [at_ inputShape 0] else []) ++
        [outputHDim; outputWDim; at_ inputShape (inputRank - 3)] in
      Some (RankedTensorType (makeShapeLLVMCompatible outputShape)
                             inputElemTy)
  end
  end.

(** Checks the validity of pooling parameters and stores them in the
    respective vector.  Also, gets the output type for the pooling op:
    [(outputTy, kernel, stride, pad)]. *)
Definition getOutputTypeAndPoolingParameters
    (inputXchw kernel_size stride padding ceil_mode : Value)
    (dilationArray : list Z)
    : Rewriter (Type_ * list Z * list Z * list Z) :=
  let inputTy := vtype inputXchw in
  let* _ := assert_ (isRankedTensorType inputTy) msgCast in
  if negb (isRankedTensorType inputTy) then
    notifyMatchFailure "Pooling op requires ranked tensor input"
  else
  let inputRank := getRank inputTy in
  (* Rank sanity check. *)
  if negb (getRank inputTy =? 4) && negb (inputRank =? 3) then
    notifyMatchFailure msgPoolRank
  else
  match m_TorchListOfConstantInts kernel_size with
  | None => notifyMatchFailure "Non-const kernel_size for pooling op unsupported"
  | Some kernelSizeInts =>
  match m_TorchListOfConstantInts stride with
  | None => notifyMatchFailure "Non-const stride for pooling op unsupported"
  | Some strideInts =>
  match m_TorchListOfConstantInts padding with
  | None =>
      notifyMatchFailure "Non-const padding factor for pooling op unsupported"
  | Some paddingInts =>
  let pad := [at_ paddingInts 0; at_ paddingInts 0;
              at_ paddingInts 1; at_ paddingInts 1] in
  (* FIXME: add ceil_mode support. *)
  match m_TorchConstantBool ceil_mode with
  | None =>
      notifyMatchFailure "only support constant bool ceil_mode for pooling op"
  | Some true =>
      notifyMatchFailure
        "only support ceil_mode equals to False for pooling op"
  | Some false =>
  let* outputTy :=
    orAbort (getOutputTypeForNonAdaptivePoolingOp inputTy kernelSizeInts
               strideInts paddingInts dilationArray) msgDivision in
  ret (outputTy, kernelSizeInts, strideInts, pad)
  end
  end
  end
  end.

Record AtenMaxPool2dOp : Type := mkMaxPool2d {
  maxpool_self : Value;
  maxpool_kernel_size : Value;
  maxpool_stride : Value;
  maxpool_padding : Value;
  maxpool_dilation : Value;
  maxpool_ceil_mode : Value
}.

Definition msgPoolParams : string :=
  "invalid pooling parameters or input type".

(** [ConvertAtenMaxPool2dOp::processInputs]. *)
Definition ConvertAtenMaxPool2dOp_processInputs (op : AtenMaxPool2dOp)
    : Rewriter PoolingInputs :=
  match m_TorchListOfConstantInts (maxpool_dilation op) with
  | None => notifyMatchFailure "Non-const dilation for pooling op unsupported."
  | Some dilationArray =>
  (* TOSA pooling only supports unit dilation. *)
  if (at_ dilationArray 0 >? 1) || (at_ dilationArray 1 >? 1) then
    notifyMatchFailure "Cannot process non-unit pooling dilation."
  else
  let* (outputTy, kernel, stride, pad) :=
    orFail (getOutputTypeAndPoolingParameters (maxpool_self op)
              (maxpool_kernel_size op) (maxpool_stride op)
              (maxpool_padding op) (maxpool_ceil_mode op) dilationArray)
           msgPoolParams in
  (* Transpose to xHWC *)
  let* input := transposePoolingInputToHwc (maxpool_self op) in
  ret (mkPoolingInputs input kernel stride pad outputTy)
  end.

(** The operands of [aten.avg_pool2d] the pattern reads. *)
Record AtenAvgPool2dOp : Type := mkAvgPool2d {
  avgpool_self : Value;
  avgpool_kernel_size : Value;
  avgpool_stride : Value;
  avgpool_padding : Value;
  avgpool_ceil_mode : Value
}.

(** [ConvertAtenAvgPool2dOp::processInputs]. *)
Definition ConvertAtenAvgPool2dOp_processInputs (op : AtenAvgPool2dOp)
    : Rewriter PoolingInputs :=
  let dilationArray := [1; 1] in
  let* (outputTy, kernel, stride, pad) :=
    orFail (getOutputTypeAndPoolingParameters (avgpool_self op)
              (avgpool_kernel_size op) (avgpool_stride op)
              (avgpool_padding op) (avgpool_ceil_mode op) dilationArray)
           msgPoolParams in
  (* Transpose to xHWC *)
  let* input := transposePoolingInputToHwc (avgpool_self op) in
  ret (mkPoolingInputs input kernel stride pad outputTy).

End FurtherLegalizations.

(** * Concrete runs *)

(** ** A concrete platform *)

(** x86-64: [cvttsd2si] yields the "integer indefinite" value, the minimum of
    the destination type, when the conversion is undefined.  The view-like
    operations are given by name. *)
Definition viewLikeNames : list string :=
  ["aten.view"; "aten.reshape"; "aten.squeeze"; "aten.unsqueeze";
   "aten.flatten.using_ints"; "aten.expand"; "aten.broadcast_to";
   "aten.permute"; "aten.transpose.int"; "aten.slice.Tensor"]%string.

#[export] Instance x86_64 : Platform := {
  undefinedConversion := fun w _ => Int.min w;
  isViewLikeOp := fun n => existsb (String.eqb n) viewLikeNames
}.

(** A tensor operand of the given shape and element type. *)
Definition tensor (id : nat) (s : list Z) (e : ElemType) : Value :=
  mkValue id (RankedTensorType s e) NotConstant.

Definition f32 : ElemType := FloatType 32.
Definition i32 : ElemType := IntegerType 32.
Definition i64 : ElemType := IntegerType 64.

(** The type of the value a pattern run ends with. *)
Definition resultShape (r : LogicalResult (Value * RewriterState)) : option (list Z) :=
  match r with
  | success (v, _) => Some (getShape (vtype v))
  | _ => None
  end.

(** ** Operands for concrete runs *)

Definition constInt (id : nat) (i : Z) : Value :=
  mkValue id (ScalarType (IntegerType 64)) (ConstantInt i).


Definition constBool (id : nat) (b : bool) : Value :=
  mkValue id (ScalarType (IntegerType 1)) (ConstantBool b).

Definition constIntList (id : nat) (l : list Z) : Value :=
  mkValue id (ScalarType (OtherType "list<int>")) (ListOfConstantInts l).

Definition noneValue (id : nat) : Value := mkValue id NoneType ConstantNone.

(** An operand whose value is only known at run time. *)
Definition runtimeValue (id : nat) (t : Type_) : Value :=
  mkValue id t NotConstant.

(** ** Example operations *)

(** [aten.squeeze.dim] of a [1 x ? x 1 x 3] tensor at dim 0. *)
Definition squeezeExample : AtenSqueezeOp :=
  mkSqueeze (tensor 0 [1; kDynamic; 1; 3] f32) (constInt 1 0)
            (RankedTensorType [kDynamic; 1; 3] f32).



(** [aten.broadcast_to] of a zero-ranked tensor to shape [3], with no
    user. *)
Definition broadcastExample : AtenBroadcastToOp :=
  mkBroadcastTo (tensor 0 [] f32) (constIntList 1 [3]) [].


(** The rewriter state a run ends in. *)
Definition finalState {A} (r : LogicalResult (A * RewriterState))
    : RewriterState :=
  match r with
  | success (_, s) => s
  | _ => initialState
  end.







(** ** Example operations of the further legalizations *)

(** [aten.transpose.int] of a [2 x 3 x 4] tensor at dims 0 and -1. *)
Definition transposeExample : AtenTransposeIntOp :=
  mkTransposeInt (tensor 0 [2; 3; 4] f32) (constInt 1 0) (constInt 2 (-1))
                 (RankedTensorType [4; 3; 2] f32).

(** [aten.permute] of a [2 x 3 x 4] tensor with the dims [2, 0, -2]. *)
Definition permuteExample : AtenPermuteOp :=
  mkPermute (tensor 0 [2; 3; 4] f32) (constIntList 1 [2; 0; -2])
            (RankedTensorType [4; 2; 3] f32).

(** [aten.unsqueeze] of a [2 x 3] tensor at dim -1. *)
Definition unsqueezeExample : AtenUnsqueezeOp :=
  mkUnsqueeze (tensor 0 [2; 3] f32) (constInt 1 (-1))
              (RankedTensorType [2; 3; 1] f32).

Definition unsqueezeExampleState : RewriterState :=
  Eval vm_compute in
    finalState (ConvertAtenUnsqueezeOp_matchAndRewrite unsqueezeExample
                                                       initialState).

(** The [tosa.reshape] that run creates. *)
Definition unsqueezeExampleOp : Operation :=
  Eval vm_compute in
    last (emitted unsqueezeExampleState)
         (mkOperation tosa_reshape [] NoAttr (tensor 0 [] f32)).

(** [aten.squeeze.dim] at dim -1 of what the unsqueeze above yields. *)
Definition squeezeBackExample : AtenSqueezeOp :=
  mkSqueeze (tensor 2 [2; 3; 1] f32) (constInt 3 (-1))
            (RankedTensorType [2; 3] f32).

(** [aten.squeeze.dim] of a [2 x 3] tensor at dim 5. *)
Definition squeezeOutOfRangeExample : AtenSqueezeOp :=
  mkSqueeze (tensor 0 [2; 3] f32) (constInt 1 5)
            (RankedTensorType [2; 3] f32).

(** [aten.flatten.using_ints] of a [2 x 3 x 4 x 5] tensor from dim 1 to
    dim -2. *)
Definition flattenExample : AtenFlattenUsingIntsOp :=
  mkFlatten (tensor 0 [2; 3; 4; 5] f32) (constInt 1 1) (constInt 2 (-2))
            (RankedTensorType [2; 12; 5] f32).

(** [aten.flatten.using_ints] of a zero-ranked tensor with the default dims
    0 and -1. *)
Definition flattenScalarExample : AtenFlattenUsingIntsOp :=
  mkFlatten (tensor 0 [] f32) (constInt 1 0) (constInt 2 (-1))
            (RankedTensorType [1] f32).

(** [aten.argmax] of a [2 x 3 x 4] tensor over dim 1, keeping the dim. *)
Definition argmaxDimExample : AtenArgmaxOp :=
  mkArgmax (tensor 0 [2; 3; 4] f32) (constInt 1 1) (constBool 2 true)
           (RankedTensorType [2; 1; 4] i64).

(** [aten.argmax] of a [2 x 3 x 4] tensor with no dim, keeping the dims. *)
Definition argmaxKeepExample : AtenArgmaxOp :=
  mkArgmax (tensor 0 [2; 3; 4] f32) (noneValue 1) (constBool 2 true)
           (RankedTensorType [1; 1; 1] i64).

(** [aten.rsub.Scalar] of a [2 x 3] f32 tensor: 3 - 2 * self. *)
Definition rsubExample : AtenRsubScalarOp :=
  mkRsub (tensor 0 [2; 3] f32) (constInt 1 3) (constInt 2 2)
         (RankedTensorType [2; 3] f32).

(** An alpha that does not fit in 32 bits, and that rounds to binary32
    otherwise in one step than through a double. *)
Definition largeAlpha : Value := constInt 0 (2 ^ 60 + 2 ^ 36 + 1).

(** [aten.mul.Tensor] of an i32 tensor by an f32 tensor. *)
Definition mulExample : AtenMulOp :=
  mkMul (tensor 0 [2; 3] i32) (tensor 1 [2; 3] f32)
        (RankedTensorType [2; 3] f32).

(** [aten.max_pool2d] of a [1 x 3 x 8 x 8] tensor: kernel 3, stride 2,
    padding 1. *)
Definition maxPoolExample : AtenMaxPool2dOp :=
  mkMaxPool2d (tensor 0 [1; 3; 8; 8] f32) (constIntList 1 [3; 3])
              (constIntList 2 [2; 2]) (constIntList 3 [1; 1])
              (constIntList 4 [1; 1]) (constBool 5 false).

(** [aten.adaptive_avg_pool2d] of a [1 x 3 x 7 x 7] tensor to [2 x 2]. *)
Definition adaptivePoolExample : AtenAdaptiveAvgPool2dOp :=
  mkAdaptiveAvgPool2d (tensor 0 [1; 3; 7; 7] f32) (constIntList 1 [2; 2]).

(** [aten.linear] of a [4 x 5] input with a [6 x 5] weight and a bias. *)
Definition linearExample : AtenLinearOp :=
  mkLinear (tensor 0 [4; 5] f32) (tensor 1 [6; 5] f32) (tensor 2 [6] f32)
           (RankedTensorType [4; 6] f32).

(** [aten.bmm] of a [1 x 4 x 5] by a [7 x 5 x 6] tensor. *)
Definition bmmExample : AtenMatmulOp :=
  mkMatmul (tensor 0 [1; 4; 5] f32) (tensor 1 [7; 5; 6] f32)
           (RankedTensorType [7; 4; 6] f32).

(** [aten.embedding] of [2 x 3] i64 indices into a [10 x 4] table. *)
Definition embeddingExample : AtenEmbeddingOp :=
  mkEmbedding (tensor 0 [10; 4] f32) (tensor 1 [2; 3] i64) (constInt 2 (-1))
              (constBool 3 false) (constBool 4 false)
              (RankedTensorType [2; 3; 4] f32).


(** ** Runs on another platform, and on wide operands *)




(** The start of a run on an operation with three operands. *)
Definition afterOperands : RewriterState := mkState 3 [] NotReplaced.




(** * Properties *)

Arguments fptosi : simpl never.
Arguments sitofp : simpl never.

Section Properties.

Context {platform : Platform}.

(** ** The rewriter *)

Lemma bind_assert_true {B} (msg : string) (k : unit -> Rewriter B)
    (st : RewriterState) :
  bind (assert_ true msg) k st = k tt st.
Proof. reflexivity. Qed.

(** ** Machine integers *)

Lemma wrap_in_range (w z : Z) :
  0 < w -> Int.in_range w z = true -> Int.wrap w z = z.
Proof.
  unfold Int.in_range, Int.wrap, Int.min, Int.max. intros Hw H.
  apply andb_true_iff in H. destruct H as [Hlo Hhi].
  apply Z.leb_le in Hlo. apply Z.leb_le in Hhi.
  assert (Hp : 2 ^ w = 2 * 2 ^ (w - 1)).
  { replace w with (Z.succ (w - 1)) at 1 by lia. apply Z.pow_succ_r. lia. }
  assert (0 < 2 ^ (w - 1)) by (apply Z.pow_pos_nonneg; lia).
  rewrite Z.mod_small by lia. lia.
Qed.



(** ** Doubles that are integers *)








(** ** Constant and scalar resolver *)


(** ** Shapes *)

Lemma at_map (f : Z -> Z) (l : list Z) (i : Z) :
  f 0 = 0 -> at_ (map f l) i = f (at_ l i).
Proof.
  intros H0. unfold at_. revert l. induction (Z.to_nat i) as [ | n IH];
    intros [ | x l]; simpl; auto.
Qed.

Lemma at_app_right (pre l : list Z) (j : nat) :
  at_ (pre ++ l) (Z.of_nat (List.length pre + j)) = nth j l 0.
Proof.
  unfold at_. rewrite Nat2Z.id, app_nth2 by lia. f_equal. lia.
Qed.

Lemma llvm_of_torch (d : Z) :
  wellFormedDim d ->
  (if (if d =? kDynamic then kUnknownSize else d) =? kUnknownSize
   then kDynamic else (if d =? kDynamic then kUnknownSize else d)) = d.
Proof.
  unfold wellFormedDim, kUnknownSize. intros [H | H].
  - assert (E : (d =? kDynamic) = false)
      by (apply Z.eqb_neq; unfold kDynamic, Int.min; simpl; lia).
    rewrite E. assert (E' : (d =? -1) = false) by (apply Z.eqb_neq; lia).
    now rewrite E'.
  - subst d. now rewrite Z.eqb_refl.
Qed.

Lemma makeShapeLLVMCompatible_Torch (s : list Z) :
  Forall wellFormedDim s ->
  makeShapeLLVMCompatible (makeShapeTorchCompatible s) = s.
Proof.
  unfold makeShapeLLVMCompatible, makeShapeTorchCompatible.
  induction 1 as [ | d s Hd _ IH]; simpl; [reflexivity | ].
  rewrite IH. f_equal. now apply llvm_of_torch.
Qed.

(** ** Squeeze *)

Lemma keepLoop_positions (p : Z -> Z -> bool) (l pre : list Z) :
  keepLoop p (Z.of_nat (List.length pre)) l =
  map (at_ (pre ++ l))
      (filter (fun i => p i (at_ (pre ++ l) i))
              (map Z.of_nat (seq (List.length pre) (List.length l)))).
Proof.
  revert pre. induction l as [ | d l IH]; intros pre; [reflexivity | ].
  simpl keepLoop. simpl List.length. simpl seq. simpl map. simpl filter.
  pose proof (at_app_right pre (d :: l) 0) as Hd.
  rewrite Nat.add_0_r in Hd. simpl nth in Hd. rewrite Hd.
  specialize (IH (pre ++ [d])).
  rewrite <- app_assoc in IH. simpl app in IH.
  rewrite length_app in IH. simpl List.length in IH.
  replace (Z.of_nat (List.length pre + 1)) with (Z.of_nat (List.length pre) + 1)
    in IH by lia.
  replace (List.length pre + 1)%nat with (S (List.length pre)) in IH by lia.
  rewrite IH.
  destruct (p (Z.of_nat (List.length pre)) d); simpl; [rewrite Hd | ];
    reflexivity.
Qed.

Lemma keepLoop_spec (p : Z -> Z -> bool) (l : list Z) :
  keepLoop p 0 l =
  map (at_ l) (filter (fun i => p i (at_ l i)) (iota (Z.of_nat (List.length l)))).
Proof.
  unfold iota. rewrite Nat2Z.id. exact (keepLoop_positions p l []).
Qed.

Lemma squeezeOneDimLoop_keepLoop (squeezeDim : Z) (l : list Z) (k : Z) :
  squeezeOneDimLoop squeezeDim k l =
  keepLoop (fun i d => negb ((d =? 1) && (i =? squeezeDim))) k l.
Proof.
  revert k. induction l as [ | d l IH]; intros k; simpl; [reflexivity | ].
  rewrite IH, negb_andb, (Z.eqb_sym squeezeDim k). reflexivity.
Qed.

Lemma squeezeAllDimsLoop_keepLoop (l : list Z) (k : Z) :
  squeezeAllDimsLoop l = keepLoop (fun _ d => negb ((d =? 1) && true)) k l.
Proof.
  revert k. induction l as [ | d l IH]; intros k; simpl; [reflexivity | ].
  rewrite (IH (k + 1)), andb_true_r. reflexivity.
Qed.

Lemma map_filter_ext {A B} (g h : A -> B) (p q : A -> bool) (l : list A) :
  (forall x, In x l -> p x = q x /\ g x = h x) ->
  map g (filter p l) = map h (filter q l).
Proof.
  induction l as [ | x l IH]; intros H; [reflexivity | ].
  simpl. destruct (H x (or_introl eq_refl)) as [Hp Hg]. rewrite <- Hp.
  specialize (IH (fun y Hy => H y (or_intror Hy))).
  destruct (p x); simpl; [now rewrite Hg, IH | exact IH].
Qed.

(** The loop on the Torch view of a shape computes the spec on the shape
    itself. *)
Lemma keepLoop_squeezeSpec (request : Z -> bool) (s : list Z) :
  Forall wellFormedDim s ->
  makeShapeLLVMCompatible
    (keepLoop (fun i d => negb ((d =? 1) && request i)) 0
              (makeShapeTorchCompatible s)) =
  squeezeSpec request s.
Proof.
  intros Hs. rewrite keepLoop_spec. unfold squeezeSpec, keptPositions.
  assert (Hlen : List.length (makeShapeTorchCompatible s) = List.length s)
    by (unfold makeShapeTorchCompatible; apply length_map).
  rewrite Hlen. unfold makeShapeLLVMCompatible. rewrite map_map.
  apply map_filter_ext. intros i Hi.
  assert (Hw : wellFormedDim (at_ s i)).
  { unfold iota in Hi. apply in_map_iff in Hi. destruct Hi as [n [<- Hn]].
    apply in_seq in Hn. unfold at_. rewrite Nat2Z.id.
    rewrite Forall_forall in Hs. apply Hs, nth_In. lia. }
  unfold makeShapeTorchCompatible. rewrite at_map by reflexivity.
  split; [ | now apply llvm_of_torch].
  destruct (at_ s i =? kDynamic) eqn:D; [ | reflexivity].
  apply Z.eqb_eq in D. rewrite D. reflexivity.
Qed.

(** C4.  On a ranked input whose dimensions are statically known sizes or
    dynamic, both squeeze variants succeed (the one-dim variant given a
    constant dim) and replace the operation by a value whose shape is the
    input shape without exactly the positions that hold a statically known 1
    and that the request names: every other position is kept, in order, and
    a dynamic position is always among the kept ones.  The one-dim variant
    with a non-constant dim fails. *)
Theorem squeeze_removes_only_static_ones
    (variant : SqueezeVariant) (op : AtenSqueezeOp) (s : list Z)
    (e : ElemType) (st : RewriterState) :
  vtype (squeeze_self op) = RankedTensorType s e ->
  Forall wellFormedDim s ->
  match squeezeRequest variant (m_TorchConstantInt (squeeze_dim op))
                       (Z.of_nat (List.length s)) with
  | Some request =>
      (exists out st',
          ConvertAtenSqueezeOp_matchAndRewrite variant op st
            = success (tt, st') /\
          replacement st' = ReplacedBy out /\
          getShape (vtype out) = squeezeSpec request s) /\
      (forall i, 0 <= i < Z.of_nat (List.length s) ->
                 isDynamic (at_ s i) = true ->
                 In i (keptPositions request s))
  | None =>
      ConvertAtenSqueezeOp_matchAndRewrite variant op st
        = failure "Squeeze could not compute new shape"
  end.
Proof.
  intros Hty Hs.
  assert (Hdyn : forall request i, 0 <= i < Z.of_nat (List.length s) ->
                   isDynamic (at_ s i) = true ->
                   In i (keptPositions request s)).
  { intros request i Hi Hd. unfold keptPositions. apply filter_In. split.
    - unfold iota. apply in_map_iff. exists (Z.to_nat i). split; [lia | ].
      apply in_seq. lia.
    - unfold isDynamic in Hd. apply Z.eqb_eq in Hd. rewrite Hd. reflexivity. }
  unfold ConvertAtenSqueezeOp_matchAndRewrite, generateSqueezedShape,
    squeezeRequest.
  rewrite Hty. unfold getRank. simpl isRankedTensorType. simpl getShape.
  destruct variant.
  - destruct (m_TorchConstantInt (squeeze_dim op)) as [d | ]; [ | reflexivity].
    split; [ | now apply Hdyn].
    rewrite squeezeOneDimLoop_keepLoop.
    set (sd := if d <? 0 then d + Z.of_nat (List.length s) else d).
    pose proof (keepLoop_squeezeSpec (fun i => i =? sd) Hs) as Hk.
    cbv beta in Hk.
    eexists. eexists. split; [reflexivity | ]. split; [reflexivity | ].
    simpl. exact Hk.
  - split; [ | now apply Hdyn].
    rewrite (squeezeAllDimsLoop_keepLoop _ 0).
    pose proof (keepLoop_squeezeSpec (fun _ => true) Hs) as Hk.
    cbv beta in Hk.
    eexists. eexists. split; [reflexivity | ]. split; [reflexivity | ].
    simpl. exact Hk.
Qed.

(** ** Argmax *)

Lemma chain_buildArgmax (keepDim : bool) (n : nat) (input : Value)
    (st : RewriterState) :
  exists ops,
    chain n (buildArgmax keepDim 0) input st
      = success (lastResult input ops,
                 mkState (nextId st + n) (emitted st ++ ops) (replacement st)) /\
    List.length ops = n /\ argmaxChain 0 input ops /\
    countOps tosa_cast ops = 0%nat.
Proof.
  revert input st. induction n as [ | n IH]; intros input st.
  - exists []. simpl. unfold ret. rewrite Nat.add_0_r, app_nil_r.
    destruct st; repeat split.
  - simpl chain. unfold bind, buildArgmax at 1, create.
    set (o := mkOperation tosa_argmax [input] (IntegerAttr 0) _).
    set (st1 := mkState _ _ _).
    destruct (IH (opResult o) st1) as [ops [Hrun [Hlen [Hch Hcast]]]].
    exists (o :: ops). subst o; simpl opResult in *. rewrite Hrun.
    unfold st1; simpl. rewrite <- app_assoc. simpl.
    replace (S (nextId st + n)) with (nextId st + S n)%nat by lia.
    repeat split; auto.
Qed.



(** ** Embedding *)

(** C10.  For an operation whose converted result type is a ranked tensor
    type, the embedding pattern succeeds only on an integer index tensor of
    rank exactly 2 and a weight tensor of rank exactly 2; it then flattens the
    indices to a 1 x N tensor and gathers.  Indices that are not a ranked
    integer tensor, indices of another rank and a ranked weight of another
    rank each fail with their own message, whatever the other operands are;
    with the ranks accepted the pattern fails only on the flags of the
    training path.  The one run that is no typed failure is that of a weight
    that is no ranked tensor, behind accepted indices: the cast of its type
    asserts. *)
Theorem embedding_requires_rank_2 (op : AtenEmbeddingOp) (st : RewriterState) :
  isRankedTensorType (embedding_type op) = true ->
  match ConvertAtenEmbeddingOp_matchAndRewrite op st with
  | success (_, st') =>
      embeddingRanksAccepted op = true /\
      embeddingFlagsAccepted op = true /\
      exists reshapedWeight reshapedIndices castIndices gatherOp final N,
        emitted st' =
          emitted st ++
          [reshapedWeight; reshapedIndices; castIndices; gatherOp; final] /\
        opName reshapedIndices = tosa_reshape /\
        opOperands reshapedIndices = [embedding_indices op] /\
        opAttr reshapedIndices = DenseI64ArrayAttr [1; N] /\
        opName gatherOp = tosa_gather /\
        opOperands gatherOp = [opResult reshapedWeight; opResult castIndices] /\
        replacement st' = ReplacedBy (opResult final)
  | failure msg =>
      if negb (isRankedTensorType (vtype (embedding_indices op)) &&
               isIntegerType (getElementType (vtype (embedding_indices op))))
      then msg = msgIndicesInt
      else if negb (getRank (vtype (embedding_indices op)) =? 2)
      then msg = msgIndicesRank
      else
        isRankedTensorType (vtype (embedding_weight op)) = true /\
        if negb (getRank (vtype (embedding_weight op)) =? 2)
        then msg = msgWeightRank
        else embeddingFlagsAccepted op = false
  | assertionFailed msg =>
      isRankedTensorType (vtype (embedding_indices op)) = true /\
      isIntegerType (getElementType (vtype (embedding_indices op))) = true /\
      getRank (vtype (embedding_indices op)) = 2 /\
      isRankedTensorType (vtype (embedding_weight op)) = false /\
      msg = msgCast
  end.
Proof.
  intros _.
  unfold ConvertAtenEmbeddingOp_matchAndRewrite, embeddingRanksAccepted,
    embeddingFlagsAccepted.
  destruct (isRankedTensorType (vtype (embedding_indices op))); simpl;
    [ | reflexivity].
  destruct (isIntegerType (getElementType (vtype (embedding_indices op))));
    simpl; [ | reflexivity].
  destruct (getRank (vtype (embedding_indices op)) =? 2) eqn:Erk; simpl;
    [ | reflexivity].
  apply Z.eqb_eq in Erk.
  destruct (isRankedTensorType (vtype (embedding_weight op))) eqn:Ew.
  2: { unfold bind, assert_. repeat split; assumption. }
  rewrite bind_assert_true.
  destruct (getRank (vtype (embedding_weight op)) =? 2); simpl;
    [ | split; reflexivity].
  destruct (m_TorchConstantInt (embedding_padding_idx op)); simpl;
    [ | split; reflexivity].
  destruct (m_TorchConstantBool (embedding_scale_grad_by_freq op))
    as [[ | ] | ]; simpl; try (split; reflexivity).
  destruct (m_TorchConstantBool (embedding_sparse op)) as [[ | ] | ]; simpl;
    try (split; reflexivity).
  split; [reflexivity | split; [reflexivity | ]].
  do 6 eexists. rewrite <- !app_assoc. simpl.
  split; [reflexivity | ]. repeat split.
Qed.

(** ** Broadcast-to *)

Lemma makeShapeTorchCompatible_static (s : list Z) :
  forallb (fun d => negb (isDynamic d)) s = true ->
  makeShapeTorchCompatible s = s.
Proof.
  unfold makeShapeTorchCompatible, isDynamic.
  induction s as [ | d s IH]; simpl; [reflexivity | ].
  intros H. apply andb_true_iff in H. destruct H as [Hd Hs].
  rewrite IH by exact Hs. destruct (d =? kDynamic); [discriminate | reflexivity].
Qed.

(** C8, as the code has it.  Broadcast-to succeeds exactly on a statically
    shaped input of integer or float element type with a constant size list
    whose rank is the rank of the input, or any rank when the input is
    zero-ranked, and, when the requested shape differs from the input shape,
    with no view-like consumer of the result.  So every rank-changing
    broadcast of an input of rank at least 1 fails.  On success nothing is
    created: the uses of the result are redirected to the input value and
    the operation is erased. *)
Theorem broadcastTo_aliases_input (op : AtenBroadcastToOp) (st : RewriterState) :
  match ConvertAtenBroadcastToOp_matchAndRewrite op st with
  | success (_, st') =>
      broadcastToAccepted op = true /\
      st' = mkState (nextId st) (emitted st)
                    (UsesReplacedAndErased (broadcast_self op))
  | failure msg =>
      broadcastToAccepted op = false /\
      match m_TorchListOfConstantInts (broadcast_size op) with
      | Some outShape =>
          hasStaticShape (vtype (broadcast_self op)) = true ->
          isIntOrFloat (getElementType (vtype (broadcast_self op))) = true ->
          List.length (getShape (vtype (broadcast_self op)))
            <> List.length outShape ->
          List.length (getShape (vtype (broadcast_self op))) <> 0%nat ->
          msg = msgOtherRank
      | None => True
      end
  | assertionFailed _ => False
  end.
Proof.
  unfold ConvertAtenBroadcastToOp_matchAndRewrite, broadcastToAccepted.
  destruct (vtype (broadcast_self op)) as [s e | e | e | ]; simpl;
    try (split; [reflexivity | ];
         destruct (m_TorchListOfConstantInts (broadcast_size op));
         [discriminate | exact I]).
  destruct (forallb (fun d => negb (isDynamic d)) s) eqn:Hs; simpl.
  2:{ split; [reflexivity | ].
      destruct (m_TorchListOfConstantInts (broadcast_size op));
        [discriminate | exact I]. }
  rewrite (makeShapeTorchCompatible_static _ Hs).
  destruct (isIntOrFloat e); simpl.
  2:{ split; [reflexivity | ].
      destruct (m_TorchListOfConstantInts (broadcast_size op));
        [discriminate | exact I]. }
  destruct (m_TorchListOfConstantInts (broadcast_size op)) as [out | ]; simpl;
    [ | split; [reflexivity | exact I]].
  destruct (Nat.eqb (List.length s) (List.length out)) eqn:E1; simpl.
  - destruct (equal s out); simpl; [split; reflexivity | ].
    destruct (existsb isViewLikeOp (broadcast_users op)); simpl.
    + split; [reflexivity | ]. intros _ _ Hne. apply Nat.eqb_eq in E1.
      contradiction.
    + split; reflexivity.
  - destruct (Nat.eqb (List.length s) 0) eqn:E2; simpl.
    + destruct (equal s out); simpl; [split; reflexivity | ].
      destruct (existsb isViewLikeOp (broadcast_users op)); simpl.
      * split; [reflexivity | ]. intros _ _ _ Hne. apply Nat.eqb_eq in E2.
        contradiction.
      * split; reflexivity.
    + split; reflexivity.
Qed.

(** ** Reshape, view and flatten *)



(** ** Add and subtract with an alpha multiplier *)

Lemma ElemType_eqb_eq (a b : ElemType) : ElemType_eqb a b = true -> a = b.
Proof.
  destruct a, b; simpl; try discriminate; intros H.
  - apply Z.eqb_eq in H. now subst.
  - apply Z.eqb_eq in H. now subst.
  - apply String.eqb_eq in H. now subst.
Qed.





(** ** Comparisons *)














(** ** Matrix multiplication *)

Lemma countOps_app (n : OpName) (a b : list Operation) :
  countOps n (a ++ b) = (countOps n a + countOps n b)%nat.
Proof. unfold countOps. now rewrite filter_app, length_app. Qed.

(** The optional transpose always succeeds, creates no matmul and, when it
    transposes, yields the type it is given. *)
Lemma transposeIfRequired_spec (input : Value) (dims : list Z) (ty : Type_)
    (st : RewriterState) :
  exists out new,
    transposeIfRequired input dims ty st
      = success (out, mkState (nextId st + List.length new)
                              (emitted st ++ new) (replacement st)) /\
    countOps tosa_matmul new = 0%nat /\
    out = if isTransposeRequired dims
          then mkValue (S (nextId st)) ty NotConstant else input.
Proof.
  unfold transposeIfRequired.
  destruct (isTransposeRequired dims).
  - unfold bind, getConstTensor_int, create. simpl.
    eexists _, [_; _]. rewrite <- app_assoc. simpl.
    replace (nextId st + 2)%nat with (S (S (nextId st))) by lia.
    repeat split.
  - exists input, []. unfold ret. rewrite Nat.add_0_r, app_nil_r.
    destruct st; repeat split.
Qed.

(** The batch-broadcast branch always succeeds and creates no matmul; both
    operands it returns are rank 3 with the same size in dimension 0, and the
    element lists it leaves behind are the ones its loops collect. *)
Lemma broadcastBatchDims_spec (maxInputRank : Z) (lhsB rhsB : list Z)
    (lhsElemTy rhsElemTy : ElemType) (l0 r0 : Value) (st : RewriterState) :
  exists l r new batch0 l1 l2 r1 r2,
    broadcastBatchDims maxInputRank lhsB rhsB lhsElemTy rhsElemTy l0 r0 st
      = success
          ((l, r,
            mkBatchInfo
              (snd (fold_left (commonStep lhsB rhsB)
                              (iota (maxInputRank - 2)) (false, 1, [])))
              (snd (fold_left (lhsSqueezedStep lhsB rhsB)
                              (iota (maxInputRank - 2)) (1, [])) ++
               [mkTensorShape (maxInputRank - 2)
                              (at_ lhsB (maxInputRank - 2))])
              (snd (fold_left (rhsSqueezedStep lhsB rhsB)
                              (iota (maxInputRank - 2)) (false, 1, [])) ++
               [mkTensorShape (maxInputRank - 1)
                              (at_ rhsB (maxInputRank - 1))])),
           mkState (nextId st + List.length new) (emitted st ++ new)
                   (replacement st)) /\
    countOps tosa_matmul new = 0%nat /\
    getShape (vtype l) = makeShapeLLVMCompatible [batch0; l1; l2] /\
    getShape (vtype r) = makeShapeLLVMCompatible [batch0; r1; r2].
Proof.
  unfold broadcastBatchDims.
  destruct (fold_left (commonStep lhsB rhsB) (iota (maxInputRank - 2))
                      (false, 1, [])) as [[hasDyn commonValue] common].
  destruct (fold_left (lhsSqueezedStep lhsB rhsB) (iota (maxInputRank - 2))
                      (1, [])) as [lhsValue lhsElems].
  destruct (fold_left (rhsSqueezedStep lhsB rhsB) (iota (maxInputRank - 2))
                      (false, 1, [])) as [[hasDynR rhsValue] rhsElems].
  cbn [snd].
  set (cv := if hasDyn then kUnknownSize
             else if commonValue <? 0 then kUnknownSize else commonValue).
  assert (Hcv : (if cv <? 0 then kUnknownSize else cv) = cv).
  { unfold cv. destruct hasDyn; [reflexivity | ].
    destruct (commonValue <? 0) eqn:E; [reflexivity | now rewrite E]. }
  rewrite Hcv.
  match goal with
  | |- context [transposeIfRequired l0 ?d ?t] =>
      destruct (transposeIfRequired_spec l0 d t st)
        as [lt [new1 [Hrun1 [Hc1 _]]]]
  end.
  unfold bind at 1. rewrite Hrun1.
  unfold bind at 1, create at 1. cbn [nextId emitted replacement].
  unfold bind at 1.
  match goal with
  | |- context [transposeIfRequired r0 ?d ?t ?s] =>
      destruct (transposeIfRequired_spec r0 d t s)
        as [rt [new2 [Hrun2 [Hc2 _]]]]
  end.
  rewrite Hrun2.
  unfold bind, create, ret. cbn [nextId emitted replacement].
  eexists _, _, (new1 ++ [_] ++ new2 ++ [_]), cv, _, _, _, _.
  split.
  { apply f_equal. apply f_equal2; [reflexivity | ].
    apply f_equal3; [ | | reflexivity].
    - rewrite !length_app. simpl. lia.
    - rewrite <- !app_assoc. reflexivity. }
  split.
  { rewrite !countOps_app, Hc1, Hc2. reflexivity. }
  split; reflexivity.
Qed.

Lemma getRank_nonneg (t : Type_) : 0 <= getRank t.
Proof. unfold getRank. lia. Qed.

Lemma repeat_at_0 (n : nat) (l : list Z) :
  (0 < n)%nat -> at_ (repeat 1 n ++ l) 0 = 1.
Proof. destruct n; [lia | reflexivity]. Qed.

Lemma getRankBroadcastedShape_length (maxInputRank : Z) (t : Value)
    (isRHS : bool) :
  getRank (vtype t) <= maxInputRank ->
  Z.of_nat (List.length (getRankBroadcastedShape maxInputRank t isRHS))
  = maxInputRank.
Proof.
  intros Hle. pose proof (getRank_nonneg (vtype t)) as H0.
  unfold getRankBroadcastedShape.
  assert (Hlen : Z.of_nat (List.length (makeShapeTorchCompatible
                                          (getShape (vtype t))))
                 = getRank (vtype t))
    by (unfold makeShapeTorchCompatible, getRank; now rewrite length_map).
  destruct (isRHS && (getRank (vtype t) =? 1) &&
            negb (maxInputRank - getRank (vtype t) =? 0)) eqn:E.
  - apply andb_true_iff in E. destruct E as [E E3].
    apply andb_true_iff in E. destruct E as [_ E2].
    apply Z.eqb_eq in E2. apply negb_true_iff, Z.eqb_neq in E3.
    rewrite length_app, repeat_length. simpl. lia.
  - rewrite length_app.
    destruct (maxInputRank - getRank (vtype t) >? 0) eqn:G.
    + rewrite repeat_length. apply Z.gtb_lt in G. lia.
    + pose proof (Zgt_cases (maxInputRank - getRank (vtype t)) 0) as H.
      rewrite G in H. simpl. lia.
Qed.

Lemma getRankBroadcastedShape_leading_1 (maxInputRank : Z) (t : Value)
    (isRHS : bool) :
  3 <= maxInputRank -> getRank (vtype t) < maxInputRank ->
  at_ (getRankBroadcastedShape maxInputRank t isRHS) 0 = 1.
Proof.
  intros H3 Hlt. pose proof (getRank_nonneg (vtype t)) as H0.
  unfold getRankBroadcastedShape.
  destruct (isRHS && (getRank (vtype t) =? 1) &&
            negb (maxInputRank - getRank (vtype t) =? 0)) eqn:E.
  - apply andb_true_iff in E. destruct E as [E _].
    apply andb_true_iff in E. destruct E as [_ E2]. apply Z.eqb_eq in E2.
    apply repeat_at_0. lia.
  - assert (G : (maxInputRank - getRank (vtype t) >? 0) = true)
      by (apply Z.gtb_lt; lia).
    rewrite G. apply repeat_at_0. lia.
Qed.

Lemma getRankBroadcastedShape_same_rank (maxInputRank : Z) (t : Value)
    (isRHS : bool) :
  getRank (vtype t) = maxInputRank ->
  getRankBroadcastedShape maxInputRank t isRHS
  = makeShapeTorchCompatible (getShape (vtype t)).
Proof.
  intros H. unfold getRankBroadcastedShape.
  rewrite H, Z.sub_diag. simpl. now rewrite andb_false_r.
Qed.

(** Up to rank 3 the reshape succeeds, creates no matmul and yields a rank-3
    value: the operand itself at rank 3, and batch size 1 below. *)
Lemma reshapeUpTo3DTensor_spec (t : Value) (st : RewriterState) :
  getRank (vtype t) <= 3 ->
  exists out new,
    reshapeUpTo3DTensor t st
      = success (out, mkState (nextId st + List.length new)
                              (emitted st ++ new) (replacement st)) /\
    countOps tosa_matmul new = 0%nat /\
    List.length (getShape (vtype out)) = 3%nat /\
    at_ (makeShapeTorchCompatible (getShape (vtype out))) 0
      = if getRank (vtype t) =? 3
        then at_ (makeShapeTorchCompatible (getShape (vtype t))) 0
        else 1.
Proof.
  intros Hle. unfold reshapeUpTo3DTensor, bind, assert_.
  assert (E : (getRank (vtype t) <=? 3) = true) by now apply Z.leb_le.
  rewrite E. destruct (getRank (vtype t) =? 3) eqn:E3.
  - exists t, []. unfold ret. rewrite Nat.add_0_r, app_nil_r.
    apply Z.eqb_eq in E3. unfold getRank in E3.
    destruct st; repeat split. simpl. lia.
  - unfold create. eexists _, [_]. rewrite Nat.add_1_r.
    split; [reflexivity | ]. split; [reflexivity | ].
    destruct (getRank (vtype t) =? 2); split; reflexivity.
Qed.

Lemma reshapeUpTo3DTensor_rank3 (t : Value) (st : RewriterState) :
  getRank (vtype t) = 3 -> reshapeUpTo3DTensor t st = success (t, st).
Proof.
  intros H. unfold reshapeUpTo3DTensor, bind, assert_. now rewrite H.
Qed.

(** The rank broadcast of one operand: a reshape unless the rank is already
    the maximal one. *)
Lemma rankBroadcast_spec (c : bool) (v : Value) (ty : Type_) (attr : Attribute)
    (st : RewriterState) :
  exists new,
    (if c then ret v else create tosa_reshape ty [v] attr) st
      = success (if c then v else mkValue (nextId st) ty NotConstant,
                 mkState (nextId st + List.length new) (emitted st ++ new)
                         (replacement st)) /\
    countOps tosa_matmul new = 0%nat.
Proof.
  destruct c.
  - exists []. unfold ret. rewrite Nat.add_0_r, app_nil_r.
    destruct st; split; reflexivity.
  - unfold create. eexists [_]. rewrite Nat.add_1_r. split; reflexivity.
Qed.

Lemma rankBroadcasted_rank (maxInputRank : Z) (t : Value) (isRHS : bool)
    (n : nat) (e : ElemType) :
  getRank (vtype t) <= maxInputRank ->
  getRank (vtype (if getRank (vtype t) =? maxInputRank then t
                  else mkValue n
                         (RankedTensorType
                            (makeShapeLLVMCompatible
                               (getRankBroadcastedShape maxInputRank t isRHS))
                            e) NotConstant))
  = maxInputRank.
Proof.
  intros Hle. destruct (getRank (vtype t) =? maxInputRank) eqn:E.
  - now apply Z.eqb_eq.
  - unfold getRank. simpl. unfold makeShapeLLVMCompatible.
    rewrite length_map. now apply getRankBroadcastedShape_length.
Qed.

Lemma rankBroadcasted_dim0 (maxInputRank : Z) (t : Value) (isRHS : bool)
    (n : nat) (e : ElemType) :
  3 <= maxInputRank -> getRank (vtype t) <= maxInputRank ->
  at_ (makeShapeTorchCompatible
         (getShape
            (vtype (if getRank (vtype t) =? maxInputRank then t
                    else mkValue n
                           (RankedTensorType
                              (makeShapeLLVMCompatible
                                 (getRankBroadcastedShape maxInputRank t isRHS))
                              e) NotConstant)))) 0
  = at_ (getRankBroadcastedShape maxInputRank t isRHS) 0.
Proof.
  intros H3 Hle. destruct (getRank (vtype t) =? maxInputRank) eqn:E.
  - apply Z.eqb_eq in E. now rewrite getRankBroadcastedShape_same_rank.
  - apply Z.eqb_neq in E. simpl.
    unfold makeShapeTorchCompatible, makeShapeLLVMCompatible.
    rewrite !at_map by reflexivity.
    rewrite getRankBroadcastedShape_leading_1 by lia. reflexivity.
Qed.

Lemma at_torch_of_llvm_1 (x y : Z) :
  at_ (makeShapeTorchCompatible (makeShapeLLVMCompatible [1; x; y])) 0 = 1.
Proof. reflexivity. Qed.

(** The operands handed to the matmul, from the rank-broadcast operands
    [rbl] and [rbr]: the stage succeeds and creates no matmul; both operands
    are rank 3 with the same size in dimension 0; without a batch broadcast
    at maximal rank 3 they are [rbl] and [rbr] themselves, and with one the
    element lists are the ones the loops collect. *)
Lemma matmulOperands_spec (maxInputRank : Z) (lhsB rhsB : list Z)
    (el er : ElemType) (rbl rbr : Value) (st : RewriterState) :
  getRank (vtype rbl) = maxInputRank ->
  getRank (vtype rbr) = maxInputRank ->
  (3 <= maxInputRank ->
   at_ (makeShapeTorchCompatible (getShape (vtype rbl))) 0 = at_ lhsB 0) ->
  (3 <= maxInputRank ->
   at_ (makeShapeTorchCompatible (getShape (vtype rbr))) 0 = at_ rhsB 0) ->
  exists l r info new,
    (if negb (needsBatchDimBroadcast maxInputRank lhsB rhsB)
     then
       let* l := reshapeUpTo3DTensor rbl in
       let* r := reshapeUpTo3DTensor rbr in
       ret (l, r, mkBatchInfo [] [] [])
     else
       broadcastBatchDims maxInputRank lhsB rhsB el er rbl rbr) st
      = success ((l, r, info),
                 mkState (nextId st + List.length new) (emitted st ++ new)
                         (replacement st)) /\
    countOps tosa_matmul new = 0%nat /\
    List.length (getShape (vtype l)) = 3%nat /\
    List.length (getShape (vtype r)) = 3%nat /\
    at_ (makeShapeTorchCompatible (getShape (vtype l))) 0
      = at_ (makeShapeTorchCompatible (getShape (vtype r))) 0 /\
    (needsBatchDimBroadcast maxInputRank lhsB rhsB = false ->
     info = mkBatchInfo [] [] [] /\
     (maxInputRank = 3 -> l = rbl /\ r = rbr)) /\
    (needsBatchDimBroadcast maxInputRank lhsB rhsB = true ->
     info =
       mkBatchInfo
         (snd (fold_left (commonStep lhsB rhsB)
                         (iota (maxInputRank - 2)) (false, 1, [])))
         (snd (fold_left (lhsSqueezedStep lhsB rhsB)
                         (iota (maxInputRank - 2)) (1, [])) ++
          [mkTensorShape (maxInputRank - 2) (at_ lhsB (maxInputRank - 2))])
         (snd (fold_left (rhsSqueezedStep lhsB rhsB)
                         (iota (maxInputRank - 2)) (false, 1, [])) ++
          [mkTensorShape (maxInputRank - 1) (at_ rhsB (maxInputRank - 1))])).
Proof.
  intros HrankL HrankR HdL HdR.
  destruct (needsBatchDimBroadcast maxInputRank lhsB rhsB) eqn:Hn;
    cbn [negb].
  - destruct (broadcastBatchDims_spec maxInputRank lhsB rhsB el er rbl rbr st)
      as (l & r & new & b0 & l1 & l2 & r1 & r2 & Hrun & Hc & Hsl & Hsr).
    eexists l, r, _, new. split; [exact Hrun | ]. split; [exact Hc | ].
    rewrite Hsl, Hsr. repeat split; discriminate.
  - assert (Hle3 : maxInputRank <= 3).
    { unfold needsBatchDimBroadcast in Hn.
      destruct (maxInputRank <? 3) eqn:E; [apply Z.ltb_lt in E; lia | ].
      destruct (maxInputRank =? 3) eqn:E3; [apply Z.eqb_eq in E3; lia | ].
      discriminate. }
    pose proof (reshapeUpTo3DTensor_rank3 rbl) as Hsame1.
    pose proof (reshapeUpTo3DTensor_rank3 rbr) as Hsame2.
    destruct (@reshapeUpTo3DTensor_spec rbl st ltac:(lia))
      as (l & new1 & Hrun1 & Hc1 & Hlen1 & Hd1).
    unfold bind at 1. rewrite Hrun1. unfold bind at 1.
    match goal with
    | |- context [reshapeUpTo3DTensor rbr ?s] =>
        destruct (@reshapeUpTo3DTensor_spec rbr s ltac:(lia))
          as (r & new2 & Hrun2 & Hc2 & Hlen2 & Hd2)
    end.
    rewrite Hrun2. unfold ret.
    cbn [nextId emitted replacement].
    exists l, r, (mkBatchInfo [] [] []), (new1 ++ new2).
    split.
    { apply f_equal. apply f_equal2; [reflexivity | ].
      apply f_equal3; [ | | reflexivity].
      - rewrite length_app. lia.
      - now rewrite <- app_assoc. }
    split; [now rewrite countOps_app, Hc1, Hc2 | ].
    split; [exact Hlen1 | ]. split; [exact Hlen2 | ].
    split; [ | split; [ | discriminate]].
    + rewrite Hd1, Hd2, HrankL, HrankR.
      destruct (maxInputRank =? 3) eqn:E3; [ | reflexivity].
      apply Z.eqb_eq in E3.
      rewrite HdL, HdR by lia. unfold needsBatchDimBroadcast in Hn.
      rewrite E3 in Hn. simpl in Hn.
      destruct (at_ lhsB 0 =? at_ rhsB 0) eqn:E0; [ | discriminate].
      now apply Z.eqb_eq.
    + intros _. split; [reflexivity | ]. intros E3.
      rewrite (Hsame1 st) in Hrun1 by lia.
      rewrite (Hsame2 _) in Hrun2 by lia.
      injection Hrun1 as <- _. injection Hrun2 as <- _. split; reflexivity.
Qed.


(** *** Static shapes *)

Lemma static_not_dynamic (l : list Z) (d : Z) :
  Forall (fun x => 0 <= x) l -> isDynamic (at_ l d) = false.
Proof.
  intros H. unfold isDynamic, at_. apply Z.eqb_neq.
  assert (0 <= nth (Z.to_nat d) l 0).
  { destruct (nth_in_or_default (Z.to_nat d) l 0) as [Hin | ->]; [ | lia].
    rewrite Forall_forall in H. now apply H. }
  unfold kDynamic, Int.min. simpl. lia.
Qed.

Lemma makeShapeLLVMCompatible_static (l : list Z) :
  Forall (fun x => 0 <= x) l -> makeShapeLLVMCompatible l = l.
Proof.
  unfold makeShapeLLVMCompatible.
  induction 1 as [ | x l Hx _ IH]; simpl; [reflexivity | ].
  rewrite IH. assert (E : (x =? kUnknownSize) = false)
    by (apply Z.eqb_neq; unfold kUnknownSize; lia).
  now rewrite E.
Qed.

Lemma makeShapeTorchCompatible_nonneg (l : list Z) :
  Forall (fun x => 0 <= x) l -> makeShapeTorchCompatible l = l.
Proof.
  intros H. apply makeShapeTorchCompatible_static.
  apply forallb_forall. intros x Hx. rewrite Forall_forall in H.
  specialize (H x Hx). unfold isDynamic. apply negb_true_iff, Z.eqb_neq.
  unfold kDynamic, Int.min. simpl. lia.
Qed.

(** *** Lists and positions *)

Lemma at_app_left (l1 l2 : list Z) (i : Z) :
  0 <= i < Z.of_nat (List.length l1) -> at_ (l1 ++ l2) i = at_ l1 i.
Proof. intros H. unfold at_. apply app_nth1. lia. Qed.

Lemma at_app_at (l1 l2 : list Z) (j : Z) :
  0 <= j -> at_ (l1 ++ l2) (Z.of_nat (List.length l1) + j) = at_ l2 j.
Proof.
  intros H. unfold at_. rewrite app_nth2 by lia. f_equal. lia.
Qed.

Lemma in_iota (n i : Z) : In i (iota n) <-> 0 <= i < n.
Proof.
  unfold iota. rewrite in_map_iff. split.
  - intros [k [<- Hk]]. apply in_seq in Hk. lia.
  - intros H. exists (Z.to_nat i). split; [lia | ]. apply in_seq. lia.
Qed.

Lemma map_seq_nth {A B} (F : A -> B) (z : list A) (d : A) (k : nat) :
  map (fun i => F (nth (i - k) z d)) (seq k (List.length z)) = map F z.
Proof.
  revert k. induction z as [ | x z IH]; intros k; simpl; [reflexivity | ].
  rewrite Nat.sub_diag. f_equal. rewrite <- (IH (S k)).
  apply map_ext_in. intros i Hi. apply in_seq in Hi.
  replace (i - k)%nat with (S (i - S k)) by lia. reflexivity.
Qed.

(** A function of the two sizes at each batch position, over the positions,
    is the same function zipped over the two lists. *)
Lemma map_iota_combine {B} (F : Z -> Z -> B) (pa pb ta tb : list Z) :
  List.length pa = List.length pb ->
  map (fun i => F (at_ (pa ++ ta) i) (at_ (pb ++ tb) i))
      (iota (Z.of_nat (List.length pa)))
  = map (fun p => F (fst p) (snd p)) (combine pa pb).
Proof.
  intros Hlen.
  rewrite <- (map_seq_nth (fun p => F (fst p) (snd p)) (combine pa pb)
                          (0, 0) 0).
  rewrite length_combine, <- Hlen, Nat.min_id.
  unfold iota. rewrite Nat2Z.id, map_map. apply map_ext_in.
  intros i Hi. apply in_seq in Hi. rewrite Nat.sub_0_r, combine_nth by exact Hlen.
  simpl. rewrite !at_app_left by lia. unfold at_. now rewrite Nat2Z.id.
Qed.

Lemma mapM_Some {A B} (f : A -> option B) (g : A -> B) (l : list A)
    (r : list B) :
  (forall x y, f x = Some y -> y = g x) ->
  mapM f l = Some r -> r = map g l /\ Forall (fun x => f x <> None) l.
Proof.
  intros Hg. revert r. induction l as [ | x l IH]; simpl; intros r H.
  - injection H as <-. split; constructor.
  - destruct (f x) as [y | ] eqn:E; [ | discriminate].
    destruct (mapM f l) as [ys | ]; [ | discriminate].
    injection H as <-. destruct (IH ys eq_refl) as [-> HF].
    split; [now rewrite (Hg x y E) | ]. constructor; [congruence | exact HF].
Qed.

Lemma butLast_app {A} (l : list A) (x : A) :
  firstn (List.length (l ++ [x]) - 1) (l ++ [x]) = l.
Proof.
  rewrite length_app. simpl. rewrite Nat.add_sub.
  rewrite firstn_app, Nat.sub_diag, firstn_all. simpl. apply app_nil_r.
Qed.

Lemma filter_map_comm {A B} (p : B -> bool) (g : A -> B) (l : list A) :
  filter p (map g l) = map g (filter (fun a => p (g a)) l).
Proof.
  induction l as [ | a l IH]; simpl; [reflexivity | ].
  rewrite IH. destruct (p (g a)); reflexivity.
Qed.

Lemma filter_filter {A} (p q : A -> bool) (l : list A) :
  filter q (filter p l) = filter (fun a => p a && q a) l.
Proof.
  induction l as [ | a l IH]; simpl; [reflexivity | ].
  destruct (p a); simpl; [destruct (q a) | ]; now rewrite IH.
Qed.

Lemma toI32_small (l : list Z) :
  Forall (fun d => 0 <= d < 2 ^ 31) l -> toI32 l = l.
Proof.
  unfold toI32. induction 1 as [ | d l Hd _ IH]; simpl; [reflexivity | ].
  rewrite IH. f_equal. apply wrap_in_range; [lia | ].
  unfold Int.in_range, Int.min, Int.max. simpl.
  apply andb_true_iff. split; apply Z.leb_le; simpl in Hd; lia.
Qed.

(** *** The transpose test and sorted lists of dimensions *)

Lemma isTransposeRequiredFrom_sorted (l : list Z) (x : Z) :
  isTransposeRequiredFrom x l = false -> StronglySorted Z.le (x :: l).
Proof.
  revert x. induction l as [ | d l IH]; intros x H.
  - constructor; constructor.
  - simpl in H. destruct (x >? d) eqn:E; [discriminate | ].
    pose proof (Zgt_cases x d) as Hxd. rewrite E in Hxd.
    specialize (IH d H). constructor; [exact IH | ].
    constructor; [exact Hxd | ].
    apply StronglySorted_inv in IH. destruct IH as [_ HF].
    eapply Forall_impl; [ | exact HF]. intros y Hy. simpl in Hy. lia.
Qed.

Lemma StronglySorted_app_inv (l1 l2 : list Z) :
  StronglySorted Z.le (l1 ++ l2) ->
  StronglySorted Z.le l1 /\ StronglySorted Z.le l2 /\
  (forall x y, In x l1 -> In y l2 -> x <= y).
Proof.
  induction l1 as [ | a l1 IH]; simpl; intros H.
  - split; [constructor | ]. split; [exact H | ]. intros x y [].
  - apply StronglySorted_inv in H. destruct H as [H HF].
    destruct (IH H) as [H1 [H2 H12]].
    rewrite Forall_app in HF. destruct HF as [HF1 HF2].
    split; [constructor; assumption | ]. split; [exact H2 | ].
    intros x y [<- | Hx] Hy.
    + rewrite Forall_forall in HF2. now apply HF2.
    + now apply H12.
Qed.

Lemma filter_nil_negb {A} (p : A -> bool) (l : list A) :
  filter p l = [] -> filter (fun x => negb (p x)) l = l.
Proof.
  induction l as [ | x l IH]; simpl; [reflexivity | ].
  destruct (p x); [discriminate | ]. intros H. simpl. now rewrite IH.
Qed.

(** Splitting a strictly increasing list by a predicate and appending the
    two parts gives the list back as soon as the result is sorted. *)
Lemma partition_sorted (p : Z -> bool) (l : list Z) :
  StronglySorted Z.lt l ->
  StronglySorted Z.le (filter p l ++ filter (fun x => negb (p x)) l) ->
  filter p l ++ filter (fun x => negb (p x)) l = l.
Proof.
  induction 1 as [ | x l Hl IH Hx]; simpl; [reflexivity | ].
  destruct (p x) eqn:E; simpl; intros Hs.
  - apply StronglySorted_inv in Hs. destruct Hs as [Hs _].
    now rewrite IH.
  - apply StronglySorted_app_inv in Hs. destruct Hs as [_ [_ H12]].
    assert (Hnil : filter p l = []).
    { destruct (filter p l) as [ | y ys] eqn:F; [reflexivity | exfalso].
      assert (Hy : In y (filter p l)) by (rewrite F; now left).
      apply filter_In in Hy. destruct Hy as [Hy _].
      rewrite Forall_forall in Hx. specialize (Hx y Hy).
      specialize (H12 y x (or_introl eq_refl) (or_introl eq_refl)). lia. }
    rewrite Hnil. simpl. now rewrite (filter_nil_negb _ _ Hnil).
Qed.

Lemma iota_sorted (n : Z) : StronglySorted Z.lt (iota n).
Proof.
  unfold iota. generalize (Z.to_nat n) as k. intros k.
  generalize 0%nat as s. induction k as [ | k IH]; intros s; simpl.
  - constructor.
  - constructor; [apply IH | ].
    apply Forall_forall. intros y Hy. apply in_map_iff in Hy.
    destruct Hy as [j [<- Hj]]. apply in_seq in Hj. lia.
Qed.

(** *** The element lists of the batch-broadcast branch *)

Lemma commonStep_elems (lhsB rhsB : list Z) (l : list Z) (h : bool) (v : Z)
    (acc : list TensorShape_t) :
  (forall d, isDynamic (at_ lhsB d) = false) ->
  snd (fold_left (commonStep lhsB rhsB) l (h, v, acc))
  = acc ++ map (fun d => mkTensorShape d (at_ lhsB d))
               (filter (fun d => at_ lhsB d =? at_ rhsB d) l).
Proof.
  intros Hd. revert h v acc.
  induction l as [ | d l IH]; intros h v acc; simpl.
  - now rewrite app_nil_r.
  - rewrite Hd. simpl.
    destruct (at_ lhsB d =? at_ rhsB d); rewrite IH; simpl;
      [now rewrite <- app_assoc | reflexivity].
Qed.

Lemma lhsSqueezedStep_elems (lhsB rhsB : list Z) (l : list Z) (v : Z)
    (acc : list TensorShape_t) :
  (forall d, isDynamic (at_ lhsB d) = false) ->
  snd (fold_left (lhsSqueezedStep lhsB rhsB) l (v, acc))
  = acc ++ map (fun d => mkTensorShape d (at_ lhsB d))
               (filter (fun d => negb (at_ lhsB d =? at_ rhsB d)) l).
Proof.
  intros Hd. revert v acc.
  induction l as [ | d l IH]; intros v acc; simpl.
  - now rewrite app_nil_r.
  - rewrite Hd. simpl.
    destruct (at_ lhsB d =? at_ rhsB d); simpl; rewrite IH;
      [reflexivity | now rewrite <- app_assoc].
Qed.

Lemma rhsSqueezedStep_elems (lhsB rhsB : list Z) (l : list Z) (h : bool)
    (v : Z) (acc : list TensorShape_t) :
  (forall d, isDynamic (at_ rhsB d) = false) ->
  snd (fold_left (rhsSqueezedStep lhsB rhsB) l (h, v, acc))
  = acc ++ map (fun d => mkTensorShape d (at_ rhsB d))
               (filter (fun d => negb (at_ rhsB d =? at_ lhsB d)) l).
Proof.
  intros Hd. revert h v acc.
  induction l as [ | d l IH]; intros h v acc; simpl.
  - now rewrite app_nil_r.
  - rewrite Hd. simpl.
    destruct (at_ rhsB d =? at_ lhsB d); simpl; rewrite IH;
      [reflexivity | now rewrite <- app_assoc].
Qed.

(** *** The output shape on static, broadcast-compatible operands *)

(** The size a compatible pair broadcasts to. *)
Lemma broadcastDim_value (a b y : Z) :
  broadcastDim a b = Some y ->
  y = (if a =? b then a else if a =? 1 then b else a).
Proof.
  unfold broadcastDim. destruct (a =? b); [congruence | ].
  destruct (a =? 1); [congruence | ]. destruct (b =? 1); congruence.
Qed.

Lemma computeOpShape_broadcast
    (pa pb batch : list Z) (M K N lhsRank rhsRank : Z)
    (lhsShape rhsShape : list Z) (e : ElemType) (rs td ts : list Z) :
  let n := Z.of_nat (List.length pa) + 2 in
  let lhsB := pa ++ [M; K] in
  let rhsB := pb ++ [K; N] in
  List.length pa = List.length pb ->
  3 <= n < 2 ^ 31 ->
  Forall (fun d => 0 <= d) lhsB -> Forall (fun d => 0 <= d) rhsB ->
  mapM (fun p => broadcastDim (fst p) (snd p)) (combine pa pb) = Some batch ->
  (lhsRank >? 1) = true -> (rhsRank >? 1) = true ->
  computeOpShape n lhsRank rhsRank lhsShape rhsShape lhsB rhsB
    (RankedTensorType (makeShapeLLVMCompatible lhsB) e)
    (mkBatchInfo
       (snd (fold_left (commonStep lhsB rhsB) (iota (n - 2)) (false, 1, [])))
       (snd (fold_left (lhsSqueezedStep lhsB rhsB) (iota (n - 2)) (1, [])) ++
        [mkTensorShape (n - 2) (at_ lhsB (n - 2))])
       (snd (fold_left (rhsSqueezedStep lhsB rhsB) (iota (n - 2))
                       (false, 1, [])) ++
        [mkTensorShape (n - 1) (at_ rhsB (n - 1))]))
    = (rs, td, ts) ->
  (if isTransposeRequired td then ts else rs) = batch ++ [M; N].
Proof.
  intros n lhsB rhsB Hlen Hn HsL HsR Hb HrL HrR.
  unfold computeOpShape.
  assert (E1 : (n =? 1) = false) by (apply Z.eqb_neq; lia).
  assert (E2 : (n =? 2) = false) by (apply Z.eqb_neq; lia).
  rewrite E1, E2, HrL, HrR. cbn [commonElems lhsSqueezedElems rhsSqueezedElems].
  rewrite !butLast_app.
  rewrite commonStep_elems by (intros; now apply static_not_dynamic).
  rewrite lhsSqueezedStep_elems by (intros; now apply static_not_dynamic).
  rewrite rhsSqueezedStep_elems by (intros; now apply static_not_dynamic).
  cbn [app]. rewrite !filter_map_comm, !filter_filter, !map_map.
  cbn [shape dim]. rewrite !map_id.
  replace (n - 2) with (Z.of_nat (List.length pa)) by lia.
  replace (n - 1) with (Z.of_nat (List.length pb) + 1) by lia.
  assert (HM : at_ lhsB (Z.of_nat (List.length pa)) = M).
  { unfold lhsB. rewrite <- (Z.add_0_r (Z.of_nat _)).
    now rewrite at_app_at by lia. }
  assert (HN : at_ rhsB (Z.of_nat (List.length pb) + 1) = N)
    by (unfold rhsB; now rewrite at_app_at by lia).
  rewrite HM, HN.
  set (idx := iota (Z.of_nat (List.length pa))).
  set (C := filter (fun d => at_ lhsB d =? at_ rhsB d) idx).
  set (L := filter (fun d => negb (at_ lhsB d =? at_ rhsB d) &&
                             negb (at_ lhsB d =? 1)) idx).
  set (R := filter (fun d => negb (at_ rhsB d =? at_ lhsB d) &&
                             negb (at_ rhsB d =? 1)) idx).
  intros Hc. injection Hc as <- <- <-.
  (* the broadcast sizes, position by position *)
  destruct (mapM_Some _ (fun p => if fst p =? snd p then fst p
                                  else if fst p =? 1 then snd p else fst p)
                      _ (fun p y => @broadcastDim_value (fst p) (snd p) y) Hb)
    as [Hbatch Hcompat].
  assert (Hts : map (fun i => if at_ lhsB i =? at_ rhsB i then at_ lhsB i
                              else if at_ lhsB i =? 1 then at_ rhsB i
                              else at_ lhsB i) idx = batch).
  { rewrite Hbatch. unfold idx, lhsB, rhsB.
    exact (map_iota_combine
             (fun a b => if a =? b then a else if a =? 1 then b else a)
             pa pb [M; K] [K; N] Hlen). }
  destruct (isTransposeRequired _) eqn:Htr.
  - (* transposed: the declared shape *)
    rewrite <- Hts. cbn [getShape].
    rewrite (makeShapeLLVMCompatible_static HsL).
    f_equal. apply map_ext. intros i.
    now rewrite (static_not_dynamic i HsL).
  - (* not transposed: the dimensions are already in order *)
    assert (Hidx : forall i, In i idx ->
                             0 <= i < Z.of_nat (List.length pa))
      by (intros i Hi; now apply in_iota).
    assert (HinC : forall i, In i C -> In i idx)
      by (intros i Hi; apply filter_In in Hi; tauto).
    assert (HinL : forall i, In i L -> In i idx)
      by (intros i Hi; apply filter_In in Hi; tauto).
    assert (HinR : forall i, In i R -> In i idx)
      by (intros i Hi; apply filter_In in Hi; tauto).
    rewrite toI32_small in Htr.
    2:{ apply Forall_forall. intros d Hd.
        repeat (apply in_app_or in Hd; destruct Hd as [Hd | Hd]);
          try (specialize (Hidx d (HinC d Hd)); lia);
          try (specialize (Hidx d (HinL d Hd)); lia).
        destruct Hd as [<- | Hd]; [lia | ].
        apply in_app_or in Hd. destruct Hd as [Hd | [<- | []]];
          [specialize (Hidx d (HinR d Hd)) | ]; lia. }
    apply isTransposeRequiredFrom_sorted, StronglySorted_inv in Htr.
    destruct Htr as [Hsorted _].
    rewrite app_assoc in Hsorted.
    apply StronglySorted_app_inv in Hsorted.
    destruct Hsorted as [HsCL [HsR' _]].
    apply StronglySorted_inv in HsR'. destruct HsR' as [_ HgeR].
    assert (HR : R = []).
    { destruct R as [ | r R'] eqn:ER; [reflexivity | exfalso].
      apply Forall_inv in HgeR.
      specialize (Hidx r (HinR r (or_introl eq_refl))). lia. }
    (* nothing is kept on the right, so the left keeps every differing
       position *)
    assert (HL : L = filter (fun d => negb (at_ lhsB d =? at_ rhsB d)) idx).
    { apply filter_ext_in. intros i Hi.
      destruct (at_ lhsB i =? at_ rhsB i) eqn:Eq; [reflexivity | ].
      apply Z.eqb_neq in Eq. simpl.
      assert (Hri : (negb (at_ rhsB i =? at_ lhsB i) &&
                     negb (at_ rhsB i =? 1)) = false).
      { destruct (negb (at_ rhsB i =? at_ lhsB i) &&
                  negb (at_ rhsB i =? 1)) eqn:F; [exfalso | reflexivity].
        assert (In i R) by (apply filter_In; split; assumption).
        rewrite HR in H. exact H. }
      assert (Eq' : (at_ rhsB i =? at_ lhsB i) = false)
        by (apply Z.eqb_neq; congruence).
      rewrite Eq' in Hri. simpl in Hri.
      apply negb_false_iff, Z.eqb_eq in Hri.
      apply negb_true_iff, Z.eqb_neq. congruence. }
    assert (HCL : C ++ L = idx).
    { rewrite HL. apply partition_sorted; [apply iota_sorted | ].
      rewrite <- HL. exact HsCL. }
    rewrite HR. cbn [map app]. rewrite app_assoc, <- map_app, HCL.
    f_equal. rewrite <- Hts. apply map_ext_in. intros i Hi.
    destruct (at_ lhsB i =? at_ rhsB i) eqn:Eq; [reflexivity | ].
    destruct (at_ lhsB i =? 1) eqn:E1'; [exfalso | reflexivity].
    assert (HiL : In i L).
    { rewrite HL. apply filter_In. split; [exact Hi | now rewrite Eq]. }
    apply filter_In in HiL. destruct HiL as [_ HiL].
    rewrite Eq, E1' in HiL. discriminate.
Qed.

Lemma ElemType_eqb_refl (e : ElemType) : ElemType_eqb e e = true.
Proof.
  destruct e; simpl; [apply Z.eqb_refl | apply Z.eqb_refl | apply String.eqb_refl].
Qed.

(** The type of the value [performMatmul] returns, in terms of the shape
    computations of the source. *)
Lemma performMatmul_output (lhs rhs : Value) (st : RewriterState) :
  let lhsRank := getRank (vtype lhs) in
  let rhsRank := getRank (vtype rhs) in
  let m0 := if lhsRank >? rhsRank then lhsRank else rhsRank in
  let maxInputRank := if m0 =? 1 then m0 + 1 else m0 in
  let lhsB := getRankBroadcastedShape maxInputRank lhs false in
  let rhsB := getRankBroadcastedShape maxInputRank rhs true in
  let lhsBTy :=
    RankedTensorType (makeShapeLLVMCompatible lhsB)
                     (getElementType (vtype lhs)) in
  let rhsBTy :=
    RankedTensorType (makeShapeLLVMCompatible rhsB)
                     (getElementType (vtype rhs)) in
  let needs := needsBatchDimBroadcast maxInputRank lhsB rhsB in
  ElemType_eqb (getElementType (vtype lhs)) (getElementType (vtype rhs))
    = true ->
  exists out st' info tl tr,
    performMatmul lhs rhs st = success (out, st') /\
    (needs = false -> info = mkBatchInfo [] [] [] /\
       (maxInputRank = 3 ->
        tl = (if lhsRank =? maxInputRank then vtype lhs else lhsBTy) /\
        tr = (if rhsRank =? maxInputRank then vtype rhs else rhsBTy))) /\
    (needs = true ->
     info =
       mkBatchInfo
         (snd (fold_left (commonStep lhsB rhsB)
                         (iota (maxInputRank - 2)) (false, 1, [])))
         (snd (fold_left (lhsSqueezedStep lhsB rhsB)
                         (iota (maxInputRank - 2)) (1, [])) ++
          [mkTensorShape (maxInputRank - 2) (at_ lhsB (maxInputRank - 2))])
         (snd (fold_left (rhsSqueezedStep lhsB rhsB)
                         (iota (maxInputRank - 2)) (false, 1, [])) ++
          [mkTensorShape (maxInputRank - 1) (at_ rhsB (maxInputRank - 1))])) /\
    getShape (vtype out) =
      makeShapeLLVMCompatible
        (if negb ((maxInputRank =? 3) && negb needs) then
           let '(rs, td, ts) :=
             computeOpShape maxInputRank lhsRank rhsRank
               (makeShapeTorchCompatible (getShape (vtype lhs)))
               (makeShapeTorchCompatible (getShape (vtype rhs)))
               lhsB rhsB lhsBTy info in
           if isTransposeRequired td then ts else rs
         else
           [at_ (makeShapeTorchCompatible (getShape tl)) 0;
            at_ (makeShapeTorchCompatible (getShape tl)) 1;
            at_ (makeShapeTorchCompatible (getShape tr)) 2]).
Proof.
  intros lhsRank rhsRank m0 maxInputRank lhsB rhsB lhsBTy rhsBTy needs He.
  unfold performMatmul. rewrite He. cbn [negb].
  fold lhsRank rhsRank m0 maxInputRank lhsB rhsB lhsBTy rhsBTy needs.
  pose proof (getRank_nonneg (vtype lhs)) as Hl0.
  pose proof (getRank_nonneg (vtype rhs)) as Hr0.
  fold lhsRank in Hl0. fold rhsRank in Hr0.
  assert (Hmax : lhsRank <= maxInputRank /\ rhsRank <= maxInputRank).
  { unfold maxInputRank, m0.
    pose proof (Zgt_cases lhsRank rhsRank) as Hc.
    destruct (lhsRank >? rhsRank);
      match goal with |- context [?x =? 1] => destruct (x =? 1) end; lia. }
  destruct Hmax as [Hlmax Hrmax].
  (* the two rank broadcasts *)
  unfold bind at 1.
  destruct (rankBroadcast_spec (lhsRank =? maxInputRank) lhs lhsBTy
              (DenseI64ArrayAttr lhsB) st) as [newL [HrunL _]].
  rewrite HrunL. clear HrunL.
  set (rbl := if lhsRank =? maxInputRank then lhs else _).
  set (st1 := mkState (nextId st + List.length newL) _ _).
  unfold bind at 1.
  destruct (rankBroadcast_spec (rhsRank =? maxInputRank) rhs rhsBTy
              (DenseI64ArrayAttr rhsB) st1) as [newR [HrunR _]].
  rewrite HrunR. clear HrunR.
  set (rbr := if rhsRank =? maxInputRank then rhs else _).
  set (st2 := mkState (nextId st1 + List.length newR) _ _).
  assert (HrankL : getRank (vtype rbl) = maxInputRank)
    by (apply rankBroadcasted_rank; exact Hlmax).
  assert (HrankR : getRank (vtype rbr) = maxInputRank)
    by (apply rankBroadcasted_rank; exact Hrmax).
  assert (HdL : 3 <= maxInputRank ->
                at_ (makeShapeTorchCompatible (getShape (vtype rbl))) 0
                = at_ lhsB 0)
    by (intros; apply rankBroadcasted_dim0; assumption).
  assert (HdR : 3 <= maxInputRank ->
                at_ (makeShapeTorchCompatible (getShape (vtype rbr))) 0
                = at_ rhsB 0)
    by (intros; apply rankBroadcasted_dim0; assumption).
  assert (HtyL : vtype rbl
                 = if lhsRank =? maxInputRank then vtype lhs else lhsBTy)
    by (unfold rbl; destruct (lhsRank =? maxInputRank); reflexivity).
  assert (HtyR : vtype rbr
                 = if rhsRank =? maxInputRank then vtype rhs else rhsBTy)
    by (unfold rbr; destruct (rhsRank =? maxInputRank); reflexivity).
  (* the operands of the matmul *)
  unfold bind at 1.
  destruct (@matmulOperands_spec maxInputRank lhsB rhsB
              (getElementType (vtype lhs)) (getElementType (vtype rhs))
              rbl rbr st2 HrankL HrankR HdL HdR)
    as (l & r & info & newM & HrunM & _ & _ & _ & Hd0 & Hno & Hyes).
  fold needs in HrunM, Hno, Hyes.
  rewrite HrunM. clear HrunM.
  assert (Hcond : (at_ (makeShapeTorchCompatible (getShape (vtype l))) 0 =?
                   at_ (makeShapeTorchCompatible (getShape (vtype r))) 0)
                  = true) by (rewrite Hd0; apply Z.eqb_refl).
  unfold bind at 1, assert_. rewrite Hcond.
  unfold bind at 1, create at 1. cbn [nextId emitted replacement].
  assert (Hno' : needs = false -> info = mkBatchInfo [] [] [] /\
            (maxInputRank = 3 ->
             vtype l = (if lhsRank =? maxInputRank then vtype lhs else lhsBTy)
             /\ vtype r
                = (if rhsRank =? maxInputRank then vtype rhs else rhsBTy))).
  { intros Hn. destruct (Hno Hn) as [Hi Hlr]. split; [exact Hi | ].
    intros E3. destruct (Hlr E3) as [-> ->]. split; assumption. }
  destruct (negb ((maxInputRank =? 3) && negb needs)) eqn:Hp.
  - destruct (computeOpShape _ _ _ _ _ _ _ _ _) as [[rs td] ts] eqn:Hcs.
    unfold bind at 1, create at 1. cbn [nextId emitted replacement].
    match goal with
    | |- context [transposeIfRequired ?v ?d ?t ?s] =>
        destruct (transposeIfRequired_spec v d t s)
          as (out & new & Hrun & _ & Hout)
    end.
    rewrite Hrun.
    eexists out, _, info, (vtype l), (vtype r).
    split; [reflexivity | ]. split; [exact Hno' | ]. split; [exact Hyes | ].
    change (computeOpShape maxInputRank lhsRank rhsRank
              (makeShapeTorchCompatible (getShape (vtype lhs)))
              (makeShapeTorchCompatible (getShape (vtype rhs)))
              lhsB rhsB lhsBTy info = (rs, td, ts)) in Hcs.
    rewrite Hcs, Hout. destruct (isTransposeRequired td); reflexivity.
  - unfold ret.
    eexists _, _, info, (vtype l), (vtype r).
    split; [reflexivity | ]. split; [exact Hno' | ]. split; [exact Hyes | ].
    reflexivity.
Qed.

Lemma getRankBroadcastedShape_padLeft (bX : list Z) (x y : Z) (id : nat)
    (e : ElemType) (nb : nat) (isRHS : bool) :
  (List.length bX <= nb)%nat ->
  Forall (fun d => 0 <= d) (bX ++ [x; y]) ->
  getRankBroadcastedShape (Z.of_nat nb + 2) (tensor id (bX ++ [x; y]) e) isRHS
  = padLeft nb bX ++ [x; y].
Proof.
  intros Hle Hs. unfold getRankBroadcastedShape, tensor, getRank, padLeft.
  cbn [vtype getShape]. rewrite (makeShapeTorchCompatible_nonneg Hs).
  rewrite length_app. cbn [List.length].
  assert (E1 : (Z.of_nat (List.length bX + 2) =? 1) = false)
    by (apply Z.eqb_neq; lia).
  rewrite E1, andb_false_r. cbn [andb].
  rewrite <- app_assoc. f_equal.
  destruct (Z.of_nat nb + 2 - Z.of_nat (List.length bX + 2) >? 0) eqn:G.
  - f_equal. lia.
  - pose proof (Zgt_cases (Z.of_nat nb + 2 - Z.of_nat (List.length bX + 2)) 0)
      as H. rewrite G in H.
    replace (nb - List.length bX)%nat with 0%nat by lia. reflexivity.
Qed.

Lemma padLeft_length (nb : nat) (l : list Z) :
  (List.length l <= nb)%nat -> List.length (padLeft nb l) = nb.
Proof.
  intros H. unfold padLeft. rewrite length_app, repeat_length. lia.
Qed.

Lemma padLeft_nonneg (nb : nat) (l : list Z) :
  Forall (fun d => 0 <= d) l -> Forall (fun d => 0 <= d) (padLeft nb l).
Proof.
  intros H. unfold padLeft. apply Forall_app. split; [ | exact H].
  apply Forall_forall. intros x Hx. apply repeat_spec in Hx. lia.
Qed.

Lemma broadcast_nonneg (pa pb batch : list Z) :
  Forall (fun d => 0 <= d) pa -> Forall (fun d => 0 <= d) pb ->
  mapM (fun p => broadcastDim (fst p) (snd p)) (combine pa pb) = Some batch ->
  Forall (fun d => 0 <= d) batch.
Proof.
  revert pb batch. induction pa as [ | a pa IH]; intros pb batch Ha Hb H.
  - simpl in H. injection H as <-. constructor.
  - destruct pb as [ | b pb]; simpl in H; [injection H as <-; constructor | ].
    destruct (broadcastDim a b) as [y | ] eqn:E; [ | discriminate].
    destruct (mapM _ (combine pa pb)) as [ys | ] eqn:E'; [ | discriminate].
    injection H as <-. apply Forall_inv in Ha as Ha0.
    apply Forall_inv in Hb as Hb0. apply Forall_inv_tail in Ha.
    apply Forall_inv_tail in Hb.
    constructor; [ | now apply (IH pb)].
    apply broadcastDim_value in E. rewrite E.
    destruct (a =? b); [lia | ]. destruct (a =? 1); lia.
Qed.

(** C1.  For statically shaped operands [A : batchA ++ [M; K]] and
    [B : batchB ++ [K; N]] of one element type whose batch dimensions are
    broadcast-compatible (ranks below 2^31), [performMatmul] succeeds and the
    value it returns has the standard broadcasting matmul shape
    [broadcast(batchA, batchB) ++ [M; N]].  In particular [3,1,5,6] with
    [1,4,6,7] gives [3,4,5,7], [14,19] with [19,28] gives [14,28], and
    [4,8,16,32] with [8,32,17] gives [4,8,16,17]. *)
Theorem performMatmul_static_output_shape
    (batchA batchB batch : list Z) (M K N : Z) (e : ElemType) (ia ib : nat)
    (st : RewriterState) :
  Forall (fun d => 0 <= d) (batchA ++ [M; K]) ->
  Forall (fun d => 0 <= d) (batchB ++ [K; N]) ->
  broadcastShapes batchA batchB = Some batch ->
  Z.of_nat (Nat.max (List.length batchA) (List.length batchB)) + 2 < 2 ^ 31 ->
  resultShape (performMatmul (tensor ia (batchA ++ [M; K]) e)
                             (tensor ib (batchB ++ [K; N]) e) st)
    = Some (batch ++ [M; N]) /\
  resultShape (performMatmul (tensor 0 [3; 1; 5; 6] f32)
                             (tensor 1 [1; 4; 6; 7] f32) initialState)
    = Some [3; 4; 5; 7] /\
  resultShape (performMatmul (tensor 0 [14; 19] f32)
                             (tensor 1 [19; 28] f32) initialState)
    = Some [14; 28] /\
  resultShape (performMatmul (tensor 0 [4; 8; 16; 32] f32)
                             (tensor 1 [8; 32; 17] f32) initialState)
    = Some [4; 8; 16; 17].
Proof.
  intros HsA HsB Hb Hsmall.
  split; [ | repeat split; reflexivity].
  set (lhs := tensor ia (batchA ++ [M; K]) e).
  set (rhs := tensor ib (batchB ++ [K; N]) e).
  set (nb := Nat.max (List.length batchA) (List.length batchB)) in *.
  assert (HleA : (List.length batchA <= nb)%nat) by (unfold nb; lia).
  assert (HleB : (List.length batchB <= nb)%nat) by (unfold nb; lia).
  assert (HrkL : getRank (vtype lhs) = Z.of_nat (List.length batchA) + 2).
  { unfold lhs, tensor, getRank. cbn [vtype getShape].
    rewrite length_app. simpl. lia. }
  assert (HrkR : getRank (vtype rhs) = Z.of_nat (List.length batchB) + 2).
  { unfold rhs, tensor, getRank. cbn [vtype getShape].
    rewrite length_app. simpl. lia. }
  pose proof (performMatmul_output lhs rhs st) as Hout.
  cbv zeta in Hout. rewrite HrkL, HrkR in Hout.
  (* the maximal rank *)
  match type of Hout with
  | context [if ?m =? 1 then ?m + 1 else ?m] =>
      assert (Hmax : (if m =? 1 then m + 1 else m) = Z.of_nat nb + 2)
  end.
  { pose proof (Zgt_cases (Z.of_nat (List.length batchA) + 2)
                          (Z.of_nat (List.length batchB) + 2)) as Hc.
    destruct (Z.of_nat (List.length batchA) + 2 >?
              Z.of_nat (List.length batchB) + 2);
      match goal with |- context [?x =? 1] =>
        destruct (x =? 1) eqn:E1; [apply Z.eqb_eq in E1 | ] end;
      unfold nb; lia. }
  rewrite Hmax in Hout.
  set (pa := padLeft nb batchA) in *. set (pb := padLeft nb batchB) in *.
  assert (HlB : getRankBroadcastedShape (Z.of_nat nb + 2) lhs false
                = pa ++ [M; K])
    by (unfold lhs; now apply getRankBroadcastedShape_padLeft).
  assert (HrB : getRankBroadcastedShape (Z.of_nat nb + 2) rhs true
                = pb ++ [K; N])
    by (unfold rhs; now apply getRankBroadcastedShape_padLeft).
  rewrite HlB, HrB in Hout.
  assert (Hlpa : List.length pa = nb) by now apply padLeft_length.
  assert (Hlpb : List.length pb = nb) by now apply padLeft_length.
  assert (HsA' : Forall (fun d => 0 <= d) (pa ++ [M; K])).
  { apply Forall_app in HsA. destruct HsA as [H1 H2].
    apply Forall_app. split; [now apply padLeft_nonneg | exact H2]. }
  assert (HsB' : Forall (fun d => 0 <= d) (pb ++ [K; N])).
  { apply Forall_app in HsB. destruct HsB as [H1 H2].
    apply Forall_app. split; [now apply padLeft_nonneg | exact H2]. }
  assert (Hbatch : Forall (fun d => 0 <= d) batch).
  { apply Forall_app in HsA'. apply Forall_app in HsB'.
    apply (@broadcast_nonneg pa pb batch); tauto. }
  assert (HMN : Forall (fun d => 0 <= d) (batch ++ [M; N])).
  { apply Forall_app. split; [exact Hbatch | ].
    apply Forall_app in HsA. apply Forall_app in HsB.
    destruct HsA as [_ HA]. destruct HsB as [_ HB].
    apply Forall_inv in HA. apply Forall_inv_tail, Forall_inv in HB.
    repeat constructor; assumption. }
  destruct (Hout (ElemType_eqb_refl e))
    as (out & st' & info & tl & tr & Hrun & Hno & Hyes & Hshape).
  unfold resultShape. rewrite Hrun. f_equal. rewrite Hshape.
  rewrite <- (makeShapeLLVMCompatible_static HMN). f_equal.
  clear Hshape Hrun Hout.
  unfold broadcastShapes in Hb. fold nb pa pb in Hb. cbv zeta in Hb.
  (* the rank-broadcast operands have the padded shapes *)
  assert (HtlA : makeShapeTorchCompatible
                   (getShape
                      (if Z.of_nat (List.length batchA) + 2 =? Z.of_nat nb + 2
                       then vtype lhs
                       else RankedTensorType
                              (makeShapeLLVMCompatible (pa ++ [M; K]))
                              (getElementType (vtype lhs))))
                 = pa ++ [M; K]).
  { destruct (Z.of_nat (List.length batchA) + 2 =? Z.of_nat nb + 2) eqn:E.
    - apply Z.eqb_eq in E. unfold pa, padLeft, lhs, tensor.
      cbn [vtype getShape].
      replace (nb - List.length batchA)%nat with 0%nat by lia.
      now apply makeShapeTorchCompatible_nonneg.
    - cbn [getShape]. rewrite (makeShapeLLVMCompatible_static HsA').
      now apply makeShapeTorchCompatible_nonneg. }
  assert (HtlB : makeShapeTorchCompatible
                   (getShape
                      (if Z.of_nat (List.length batchB) + 2 =? Z.of_nat nb + 2
                       then vtype rhs
                       else RankedTensorType
                              (makeShapeLLVMCompatible (pb ++ [K; N]))
                              (getElementType (vtype rhs))))
                 = pb ++ [K; N]).
  { destruct (Z.of_nat (List.length batchB) + 2 =? Z.of_nat nb + 2) eqn:E.
    - apply Z.eqb_eq in E. unfold pb, padLeft, rhs, tensor.
      cbn [vtype getShape].
      replace (nb - List.length batchB)%nat with 0%nat by lia.
      now apply makeShapeTorchCompatible_nonneg.
    - cbn [getShape]. rewrite (makeShapeLLVMCompatible_static HsB').
      now apply makeShapeTorchCompatible_nonneg. }
  assert (HshA : nb = 0%nat ->
                 makeShapeTorchCompatible (getShape (vtype lhs)) = [M; K]).
  { intros H0. unfold lhs, tensor. cbn [vtype getShape].
    rewrite (makeShapeTorchCompatible_nonneg HsA).
    destruct batchA; [reflexivity | simpl in HleA; lia]. }
  assert (HshB : nb = 0%nat ->
                 makeShapeTorchCompatible (getShape (vtype rhs)) = [K; N]).
  { intros H0. unfold rhs, tensor. cbn [vtype getShape].
    rewrite (makeShapeTorchCompatible_nonneg HsB).
    destruct batchB; [reflexivity | simpl in HleB; lia]. }
  assert (HgtA : (Z.of_nat (List.length batchA) + 2 >? 1) = true)
    by (apply Z.gtb_lt; lia).
  assert (HgtB : (Z.of_nat (List.length batchB) + 2 >? 1) = true)
    by (apply Z.gtb_lt; lia).
  clearbody pa pb lhs rhs.
  destruct (needsBatchDimBroadcast (Z.of_nat nb + 2) (pa ++ [M; K])
                                   (pb ++ [K; N])) eqn:Hn.
  - (* batch broadcast *)
    assert (H3 : 3 <= Z.of_nat nb + 2).
    { unfold needsBatchDimBroadcast in Hn.
      destruct (Z.of_nat nb + 2 <? 3) eqn:E; [discriminate | ].
      apply Z.ltb_ge in E. exact E. }
    rewrite andb_false_r. cbn [negb]. rewrite (Hyes eq_refl).
    clearbody nb. subst nb.
    destruct (computeOpShape _ _ _ _ _ _ _ _ _) as [[rs td] ts] eqn:Hcs.
    refine (@computeOpShape_broadcast pa pb batch M K N _ _ _ _ _ rs td ts
              _ _ _ _ _ _ _ Hcs); try assumption; [congruence | lia].
  - (* no batch broadcast *)
    destruct (Hno eq_refl) as [-> Htl]. cbn [negb]. rewrite andb_true_r.
    destruct (Z.of_nat nb + 2 =? 3) eqn:E3; cbn [negb].
    + (* rank 3 with equal batch sizes *)
      apply Z.eqb_eq in E3. destruct (Htl E3) as [-> ->].
      rewrite HtlA, HtlB.
      assert (Hnb : nb = 1%nat) by lia.
      destruct pa as [ | p [ | ? ?]]; simpl in Hlpa; try lia.
      destruct pb as [ | q [ | ? ?]]; simpl in Hlpb; try lia.
      unfold needsBatchDimBroadcast in Hn. rewrite E3 in Hn. simpl in Hn.
      destruct (at_ [p; M; K] 0 =? at_ [q; K; N] 0) eqn:E0; [ | discriminate].
      apply Z.eqb_eq in E0. change (p = q) in E0. subst q.
      simpl in Hb. unfold broadcastDim in Hb. rewrite Z.eqb_refl in Hb.
      injection Hb as <-. reflexivity.
    + (* rank 2 *)
      assert (Hnb : nb = 0%nat).
      { unfold needsBatchDimBroadcast in Hn. apply Z.eqb_neq in E3.
        destruct (Z.of_nat nb + 2 <? 3) eqn:E; [apply Z.ltb_lt in E; lia | ].
        assert (E3' : (Z.of_nat nb + 2 =? 3) = false) by now apply Z.eqb_neq.
        rewrite E3' in Hn. discriminate. }
      destruct pa; simpl in Hlpa; [ | lia].
      destruct pb; simpl in Hlpb; [ | lia].
      simpl in Hb. injection Hb as <-.
      rewrite (HshA Hnb), (HshB Hnb).
      assert (EA : List.length batchA = 0%nat) by lia.
      assert (EB : List.length batchB = 0%nat) by lia.
      rewrite EA, EB, Hnb. reflexivity.
Qed.

End Properties.

(** * The theorems at concrete operations *)

Lemma performMatmul_static_output_shape_witness :
  Forall (fun d => 0 <= d) ([3; 1] ++ [5; 6]) /\
  Forall (fun d => 0 <= d) ([1; 4] ++ [6; 7]) /\
  broadcastShapes [3; 1] [1; 4] = Some [3; 4] /\
  Z.of_nat (Nat.max (List.length [3; 1]) (List.length [1; 4])) + 2 < 2 ^ 31 /\
  resultShape (performMatmul (tensor 0 ([3; 1] ++ [5; 6]) f32)
                             (tensor 1 ([1; 4] ++ [6; 7]) f32) initialState)
    = Some ([3; 4] ++ [5; 7]).
Proof.
  assert (H1 : Forall (fun d => 0 <= d) ([3; 1] ++ [5; 6]))
    by (repeat constructor; lia).
  assert (H2 : Forall (fun d => 0 <= d) ([1; 4] ++ [6; 7]))
    by (repeat constructor; lia).
  assert (H3 : broadcastShapes [3; 1] [1; 4] = Some [3; 4]) by reflexivity.
  assert (H4 : Z.of_nat (Nat.max (List.length [3; 1]) (List.length [1; 4]))
               + 2 < 2 ^ 31) by reflexivity.
  repeat (split; [assumption | ]).
  exact (proj1 (performMatmul_static_output_shape
                  [3; 1] [1; 4] 5 6 7 f32 0 1 initialState H1 H2 H3 H4)).
Defined.

Lemma squeeze_removes_only_static_ones_witness :
  vtype (squeeze_self squeezeExample)
    = RankedTensorType [1; kDynamic; 1; 3] f32 /\
  Forall wellFormedDim [1; kDynamic; 1; 3] /\
  exists out st',
    ConvertAtenSqueezeOp_matchAndRewrite ConvertAtenSqueezeOneDimOp
      squeezeExample initialState = success (tt, st') /\
    replacement st' = ReplacedBy out /\
    getShape (vtype out) = [kDynamic; 1; 3].
Proof.
  assert (H : Forall wellFormedDim [1; kDynamic; 1; 3]).
  { apply Forall_cons; [left; lia | ].
    apply Forall_cons; [right; reflexivity | ].
    apply Forall_cons; [left; lia | ].
    apply Forall_cons; [left; lia | apply Forall_nil]. }
  split; [reflexivity | ]. split; [exact H | ].
  exact (proj1 (squeeze_removes_only_static_ones ConvertAtenSqueezeOneDimOp
                  squeezeExample initialState eq_refl H)).
Defined.





Lemma embedding_requires_rank_2_witness :
  isRankedTensorType (embedding_type embeddingExample) = true /\
  embeddingRanksAccepted embeddingExample = true /\
  embeddingFlagsAccepted embeddingExample = true.
Proof.
  split; [reflexivity | ].
  pose proof (@embedding_requires_rank_2 embeddingExample afterOperands
                eq_refl) as H.
  destruct (ConvertAtenEmbeddingOp_matchAndRewrite embeddingExample
              afterOperands) as [[[] st'] | m | m] eqn:E;
    [ | vm_compute in E; discriminate E | vm_compute in E; discriminate E].
  exact (conj (proj1 H) (proj1 (proj2 H))).
Defined.





(** C8 as stated does not hold: a zero-ranked input broadcast to rank 1 is a
    rank-changing broadcast, and it succeeds. *)
Lemma broadcastTo_rank_changing_succeeds :
  List.length (getShape (vtype (broadcast_self broadcastExample)))
    <> List.length [3] /\
  m_TorchListOfConstantInts (broadcast_size broadcastExample) = Some [3] /\
  ConvertAtenBroadcastToOp_matchAndRewrite broadcastExample initialState
    = success (tt, mkState 0 []
                     (UsesReplacedAndErased (broadcast_self broadcastExample))).
Proof. split; [discriminate | split; reflexivity]. Qed.

(** * Properties of the further legalizations *)

Section FurtherProperties.

Context {platform : Platform}.

(** ** Stores into a vector *)

Lemma setAtNat_length (l : list Z) (i : nat) (x : Z) :
  List.length (setAtNat l i x) = List.length l.
Proof.
  revert i. induction l as [ | y l IH]; intros [ | i]; simpl; auto.
Qed.

Lemma setAt_length (l : list Z) (i x : Z) :
  List.length (setAt l i x) = List.length l.
Proof.
  unfold setAt. destruct ((0 <=? i) && (i <? Z.of_nat (List.length l)));
    [apply setAtNat_length | reflexivity].
Qed.

Lemma nth_setAtNat (l : list Z) (i j : nat) (x : Z) :
  (i < List.length l)%nat ->
  nth j (setAtNat l i x) 0 = if Nat.eqb j i then x else nth j l 0.
Proof.
  revert i j. induction l as [ | y l IH]; intros i j Hi; simpl in Hi; [lia | ].
  destruct i as [ | i], j as [ | j]; simpl; try reflexivity.
  apply IH. lia.
Qed.

Lemma at_setAt (l : list Z) (i j x : Z) :
  0 <= i < Z.of_nat (List.length l) -> 0 <= j ->
  at_ (setAt l i x) j = if j =? i then x else at_ l j.
Proof.
  intros Hi Hj. unfold setAt, at_.
  assert (E : (0 <=? i) && (i <? Z.of_nat (List.length l)) = true).
  { apply andb_true_iff. split; [apply Z.leb_le | apply Z.ltb_lt]; lia. }
  rewrite E, nth_setAtNat by lia.
  destruct (j =? i) eqn:Eji.
  - apply Z.eqb_eq in Eji. subst j. now rewrite Nat.eqb_refl.
  - apply Z.eqb_neq in Eji.
    assert (En : Nat.eqb (Z.to_nat j) (Z.to_nat i) = false)
      by (apply Nat.eqb_neq; lia).
    now rewrite En.
Qed.

Lemma iota_length (n : Z) : List.length (iota n) = Z.to_nat n.
Proof. unfold iota. now rewrite length_map, length_seq. Qed.

Lemma at_iota (n i : Z) : 0 <= i < n -> at_ (iota n) i = i.
Proof.
  intros H. unfold at_, iota.
  rewrite nth_indep with (d' := Z.of_nat 0)
    by (rewrite length_map, length_seq; lia).
  rewrite map_nth, seq_nth by lia. lia.
Qed.

Lemma toI32_iota (n : Z) : n < 2 ^ 31 -> toI32 (iota n) = iota n.
Proof.
  intros H. apply toI32_small. apply Forall_forall. intros x Hx.
  apply in_iota in Hx. lia.
Qed.

Lemma wrap32_small (d : Z) : 0 <= d < 2 ^ 31 -> Int.wrap 32 d = d.
Proof.
  intros H. apply wrap_in_range; [lia | ].
  unfold Int.in_range, Int.min, Int.max. simpl.
  apply andb_true_iff. split; apply Z.leb_le; simpl in H; lia.
Qed.

Lemma iota_NoDup (n : Z) : NoDup (iota n).
Proof.
  pose proof (iota_sorted n) as Hs. induction Hs as [ | x l Hs IH Hx].
  - constructor.
  - constructor; [ | exact IH]. intros Hin.
    rewrite Forall_forall in Hx. specialize (Hx x Hin). lia.
Qed.

(** A list that agrees with [0 .. n-1] up to an involution of the positions
    is a permutation of it. *)
Lemma involution_Permutation (p : list Z) (n : Z) :
  List.length p = Z.to_nat n ->
  (forall i, 0 <= i < n -> 0 <= at_ p i < n) ->
  (forall i, 0 <= i < n -> at_ p (at_ p i) = i) ->
  Permutation p (iota n).
Proof.
  intros Hlen Hrange Hinv.
  assert (Hp : p = map (at_ p) (iota n)).
  { apply nth_ext with (d := 0) (d' := at_ p 0).
    - now rewrite length_map, iota_length.
    - intros k Hk. rewrite map_nth.
      assert (Hk' : nth k (iota n) 0 = Z.of_nat k).
      { pose proof (@at_iota n (Z.of_nat k) ltac:(lia)) as H.
        unfold at_ in H. now rewrite Nat2Z.id in H. }
      rewrite Hk'. unfold at_. now rewrite Nat2Z.id. }
  pose proof (iota_NoDup n) as Hnd.
  rewrite Hp. apply Permutation_map_same_l.
  - apply NoDup_map_NoDup_ForallPairs; [ | exact Hnd].
    intros x y Hx Hy Hxy. apply in_iota in Hx. apply in_iota in Hy.
    rewrite <- (Hinv x Hx), <- (Hinv y Hy). now rewrite Hxy.
  - intros x Hin. apply in_map_iff in Hin.
    destruct Hin as [i [<- Hi]]. apply in_iota in Hi. apply in_iota.
    now apply Hrange.
Qed.

(** ** Transpose of two dims *)

Lemma toPositiveDim_cases (d n : Z) :
  toPositiveDim d n = if d <? 0 then d + n else d.
Proof.
  unfold toPositiveDim. destruct (d <? 0) eqn:E.
  - apply Z.ltb_lt in E. assert (E' : (d >=? 0) = false) by lia. now rewrite E'.
  - apply Z.ltb_ge in E. assert (E' : (d >=? 0) = true) by lia. now rewrite E'.
Qed.

Lemma isValidDim_cases (d n : Z) :
  isValidDim d n = (0 <=? d) && (d <? n).
Proof.
  unfold isValidDim. f_equal. destruct (0 <=? d) eqn:E.
  - apply Z.leb_le in E. lia.
  - apply Z.leb_gt in E. lia.
Qed.

(** X1.  [aten.transpose.int] with constant dims on a ranked tensor: each dim
    is counted from the end when negative; when both then lie within the rank
    the pattern creates the constant dims vector and one [tosa.transpose]
    reading it, and that vector is the identity with the two positions
    exchanged: it is a permutation of [0 .. rank-1] and its own inverse.  In
    every other case the pattern fails with its message on the dims. *)
Theorem transpose_int_swaps_two_dims
    (op : AtenTransposeIntOp) (s : list Z) (e : ElemType) (d0 d1 : Z)
    (st : RewriterState) :
  vtype (transpose_self op) = RankedTensorType s e ->
  m_TorchConstantInt (transpose_dim0 op) = Some d0 ->
  m_TorchConstantInt (transpose_dim1 op) = Some d1 ->
  Z.of_nat (List.length s) < 2 ^ 31 ->
  let n := Z.of_nat (List.length s) in
  let p0 := if d0 <? 0 then d0 + n else d0 in
  let p1 := if d1 <? 0 then d1 + n else d1 in
  if (0 <=? p0) && (p0 <? n) && ((0 <=? p1) && (p1 <? n)) then
    exists perm c t st',
      ConvertAtenTransposeIntOp_matchAndRewrite op st = success (tt, st') /\
      emitted st' = emitted st ++ [c; t] /\
      opName c = tosa_const /\ opAttr c = DenseIntElements 32 perm /\
      opName t = tosa_transpose /\
      opOperands t = [transpose_self op; opResult c] /\
      vtype (opResult t) = transpose_type op /\
      replacement st' = ReplacedBy (opResult t) /\
      (forall i, 0 <= i < n ->
         at_ perm i = if i =? p0 then p1 else if i =? p1 then p0 else i) /\
      (forall i, 0 <= i < n -> at_ perm (at_ perm i) = i) /\
      Permutation perm (iota n)
  else
    ConvertAtenTransposeIntOp_matchAndRewrite op st = failure msgTransposeDims.
Proof.
  intros Hty H0 H1 Hsmall n p0 p1.
  unfold ConvertAtenTransposeIntOp_matchAndRewrite, dyn_cast_TensorType.
  rewrite Hty, H0, H1. unfold getRank. cbn [isTensorType getShape].
  fold n. rewrite !toPositiveDim_cases, !isValidDim_cases. fold p0 p1.
  rewrite <- negb_andb.
  destruct ((0 <=? p0) && (p0 <? n) && ((0 <=? p1) && (p1 <? n))) eqn:Hv;
    cbn [negb]; [ | reflexivity].
  apply andb_true_iff in Hv. destruct Hv as [Hv0 Hv1].
  apply andb_true_iff in Hv0. apply andb_true_iff in Hv1.
  destruct Hv0 as [Ha0 Hb0]. destruct Hv1 as [Ha1 Hb1].
  apply Z.leb_le in Ha0. apply Z.leb_le in Ha1.
  apply Z.ltb_lt in Hb0. apply Z.ltb_lt in Hb1.
  rewrite toI32_iota by exact Hsmall.
  rewrite !wrap32_small by lia.
  set (perm := setAt (setAt (iota n) p0 p1) p1 p0).
  assert (Hlen0 : Z.of_nat (List.length (iota n)) = n)
    by (rewrite iota_length; lia).
  assert (Hat : forall i, 0 <= i < n ->
            at_ perm i = if i =? p0 then p1 else if i =? p1 then p0 else i).
  { intros i Hi. unfold perm.
    rewrite at_setAt by (rewrite ?setAt_length; lia).
    rewrite at_setAt by lia. rewrite at_iota by lia.
    destruct (i =? p1) eqn:E1; [ | reflexivity].
    apply Z.eqb_eq in E1. subst i.
    destruct (p1 =? p0) eqn:E0; [ | reflexivity].
    apply Z.eqb_eq in E0. congruence. }
  assert (Hrange : forall i, 0 <= i < n -> 0 <= at_ perm i < n).
  { intros i Hi. rewrite Hat by exact Hi.
    destruct (i =? p0); [lia | ]. destruct (i =? p1); lia. }
  assert (Hinv : forall i, 0 <= i < n -> at_ perm (at_ perm i) = i).
  { intros i Hi. rewrite (Hat (at_ perm i)) by now apply Hrange.
    rewrite Hat by exact Hi.
    destruct (i =? p0) eqn:E0.
    - apply Z.eqb_eq in E0. subst i.
      destruct (p1 =? p0) eqn:E10; [now apply Z.eqb_eq in E10 | ].
      now rewrite Z.eqb_refl.
    - destruct (i =? p1) eqn:E1.
      + apply Z.eqb_eq in E1. subst i. now rewrite Z.eqb_refl.
      + now rewrite E0, E1. }
  unfold getConstTensor_int, replaceOpWithNewOp, bind, create, replaceOp.
  eexists perm, _, _, _. split; [reflexivity | ]. cbn.
  rewrite <- app_assoc. cbn.
  split; [reflexivity | ]. repeat split; try assumption.
  apply involution_Permutation; try assumption.
  unfold perm. rewrite !setAt_length, iota_length. reflexivity.
Qed.

(** ** Permute *)

Lemma permuteLoop_spec (n : Z) (dims : list Z) :
  permuteLoop n dims =
  if forallb (fun d => (- n <=? d) && (d <? n)) dims
  then Some (map (fun d => if d <? 0 then d + n else d) dims)
  else None.
Proof.
  induction dims as [ | d dims IH]; [reflexivity | ].
  cbn [permuteLoop forallb map]. rewrite IH.
  rewrite toPositiveDim_cases, isValidDim_cases.
  assert (E : (0 <=? (if d <? 0 then d + n else d)) &&
              ((if d <? 0 then d + n else d) <? n)
              = (- n <=? d) && (d <? n)).
  { destruct (d <? 0) eqn:Ed.
    - apply Z.ltb_lt in Ed.
      assert (E1 : (d + n <? n) = true) by (apply Z.ltb_lt; lia).
      rewrite E1, andb_true_r.
      destruct (0 <=? d + n) eqn:Ea.
      + apply Z.leb_le in Ea.
        assert (E3 : (- n <=? d) = true) by (apply Z.leb_le; lia).
        assert (E4 : (d <? n) = true) by (apply Z.ltb_lt; lia).
        now rewrite E3, E4.
      + apply Z.leb_gt in Ea.
        assert (E3 : (- n <=? d) = false) by (apply Z.leb_gt; lia).
        now rewrite E3.
    - apply Z.ltb_ge in Ed.
      assert (E1 : (0 <=? d) = true) by (apply Z.leb_le; lia).
      rewrite E1. cbn [andb].
      destruct (d <? n) eqn:Eb; [ | now rewrite andb_false_r].
      apply Z.ltb_lt in Eb.
      assert (E3 : (- n <=? d) = true) by (apply Z.leb_le; lia).
      now rewrite E3. }
  rewrite E.
  destruct ((- n <=? d) && (d <? n)); cbn [negb andb]; [ | reflexivity].
  destruct (forallb _ dims); reflexivity.
Qed.

(** X2.  [aten.permute] with a constant list of as many dims as the rank of
    its ranked input succeeds exactly when every entry lies in
    [-rank .. rank-1]: it then hands the list, with each negative entry
    counted from the end, to one [tosa.transpose], and checks nothing else
    about it (a list that names a dim twice is passed on as it is).  With an
    entry outside that range it fails with its message on the dims. *)
Theorem permute_accepts_dims_in_range
    (op : AtenPermuteOp) (s : list Z) (e : ElemType) (dims : list Z)
    (st : RewriterState) :
  vtype (permute_self op) = RankedTensorType s e ->
  m_TorchListOfConstantInts (permute_dims op) = Some dims ->
  List.length dims = List.length s ->
  let n := Z.of_nat (List.length s) in
  if forallb (fun d => (- n <=? d) && (d <? n)) dims then
    exists c t st',
      ConvertAtenPermuteOp_matchAndRewrite op st = success (tt, st') /\
      emitted st' = emitted st ++ [c; t] /\
      opName c = tosa_const /\
      opAttr c =
        DenseIntElements 64 (map (fun d => if d <? 0 then d + n else d) dims) /\
      opName t = tosa_transpose /\
      opOperands t = [permute_self op; opResult c] /\
      vtype (opResult t) = permute_type op /\
      replacement st' = ReplacedBy (opResult t)
  else
    ConvertAtenPermuteOp_matchAndRewrite op st
      = failure "Not all dims are valid".
Proof.
  intros Hty Hdims _ n.
  unfold ConvertAtenPermuteOp_matchAndRewrite.
  rewrite Hty, Hdims. unfold getRank. cbn [isRankedTensorType getShape negb].
  fold n. rewrite permuteLoop_spec.
  destruct (forallb _ dims); [ | reflexivity].
  unfold getConstTensor_int, replaceOpWithNewOp, bind, create, replaceOp.
  eexists _, _, _. split; [reflexivity | ]. cbn.
  rewrite <- app_assoc. repeat split.
Qed.

(** ** Unsqueeze *)

Lemma unsqueezeLoop_insert (d k : Z) (l : list Z) :
  k <= d ->
  unsqueezeLoop d k l =
  if d - k <? Z.of_nat (List.length l)
  then firstn (Z.to_nat (d - k)) l ++ [1] ++ skipn (Z.to_nat (d - k)) l
  else l.
Proof.
  revert k. induction l as [ | x l IH]; intros k Hk.
  - cbn [unsqueezeLoop List.length].
    destruct (d - k <? Z.of_nat 0) eqn:E; [apply Z.ltb_lt in E; lia | ].
    reflexivity.
  - cbn [unsqueezeLoop]. destruct (k =? d) eqn:E.
    + apply Z.eqb_eq in E. subst k.
      replace (d - d) with 0 by lia. cbn [Z.to_nat firstn skipn].
      assert (E0 : (0 <? Z.of_nat (List.length (x :: l))) = true)
        by (apply Z.ltb_lt; simpl; lia).
      rewrite E0. cbn [app]. do 2 f_equal.
      assert (Hno : forall m k', d < k' -> unsqueezeLoop d k' m = m).
      { induction m as [ | y m IHm]; intros k' Hk'; [reflexivity | ].
        cbn [unsqueezeLoop].
        assert (E' : (k' =? d) = false) by (apply Z.eqb_neq; lia).
        rewrite E'. cbn [app]. f_equal. apply IHm. lia. }
      apply Hno. lia.
    + apply Z.eqb_neq in E. rewrite IH by lia.
      replace (d - (k + 1)) with (d - k - 1) by lia.
      cbn [List.length]. rewrite Nat2Z.inj_succ.
      replace (Z.to_nat (d - k)) with (S (Z.to_nat (d - k - 1))) by lia.
      cbn [firstn skipn app].
      destruct (d - k - 1 <? Z.of_nat (List.length l)) eqn:E1.
      * assert (E2 : (d - k <? Z.succ (Z.of_nat (List.length l))) = true)
          by (apply Z.ltb_lt; apply Z.ltb_lt in E1; lia).
        now rewrite E2.
      * assert (E2 : (d - k <? Z.succ (Z.of_nat (List.length l))) = false)
          by (apply Z.ltb_ge; apply Z.ltb_ge in E1; lia).
        now rewrite E2.
Qed.

(** The shape the unsqueeze pattern writes into its reshape. *)
Lemma unsqueeze_outShape (p : Z) (l : list Z) :
  0 <= p <= Z.of_nat (List.length l) ->
  (if p =? Z.of_nat (List.length l)
   then unsqueezeLoop p 0 l ++ [1] else unsqueezeLoop p 0 l)
  = firstn (Z.to_nat p) l ++ [1] ++ skipn (Z.to_nat p) l.
Proof.
  intros Hp. rewrite unsqueezeLoop_insert by lia.
  replace (p - 0) with p by lia.
  destruct (p =? Z.of_nat (List.length l)) eqn:E.
  - apply Z.eqb_eq in E.
    assert (E' : (p <? Z.of_nat (List.length l)) = false)
      by (apply Z.ltb_ge; lia).
    rewrite E'. rewrite firstn_all2, skipn_all2 by lia. reflexivity.
  - apply Z.eqb_neq in E.
    assert (E' : (p <? Z.of_nat (List.length l)) = true)
      by (apply Z.ltb_lt; lia).
    now rewrite E'.
Qed.

(** The run of the unsqueeze pattern on a ranked tensor with a constant
    dim. *)
Lemma ConvertAtenUnsqueezeOp_run
    (op : AtenUnsqueezeOp) (s : list Z) (e : ElemType) (d : Z)
    (st : RewriterState) :
  vtype (unsqueeze_self op) = RankedTensorType s e ->
  m_TorchConstantInt (unsqueeze_dim op) = Some d ->
  let n := Z.of_nat (List.length s) in
  let p := if d <? 0 then d + (n + 1) else d in
  let s' := makeShapeTorchCompatible s in
  ConvertAtenUnsqueezeOp_matchAndRewrite op st =
  if negb (isIntOrFloat e) then failure msgOnlyIntOrFloat
  else if (0 <=? p) && (p <=? n) then
    let r := mkValue (nextId st) (unsqueeze_type op) NotConstant in
    success (tt, mkState (S (nextId st))
                   (emitted st ++
                    [mkOperation tosa_reshape [unsqueeze_self op]
                       (DenseI64ArrayAttr
                          (firstn (Z.to_nat p) s' ++ [1] ++
                           skipn (Z.to_nat p) s')) r])
                   (ReplacedBy r))
  else failure msgDimInvalid.
Proof.
  intros Hty Hd n p s'.
  unfold ConvertAtenUnsqueezeOp_matchAndRewrite, dyn_cast_TensorType.
  rewrite Hty, Hd. unfold getRank. cbn [isTensorType getShape getElementType].
  destruct (isIntOrFloat e); cbn [negb]; [ | reflexivity]. fold n s'.
  rewrite toPositiveDim_cases, isValidDim_cases. fold p.
  assert (E : (p <? n + 1) = (p <=? n)).
  { destruct (p <=? n) eqn:E1.
    - apply Z.leb_le in E1. apply Z.ltb_lt. lia.
    - apply Z.leb_gt in E1. apply Z.ltb_ge. lia. }
  rewrite E.
  destruct ((0 <=? p) && (p <=? n)) eqn:Hv; cbn [negb]; [ | reflexivity].
  apply andb_true_iff in Hv. destruct Hv as [Ha Hb].
  apply Z.leb_le in Ha. apply Z.leb_le in Hb.
  assert (Hlen : Z.of_nat (List.length s') = n)
    by (unfold s', makeShapeTorchCompatible; now rewrite length_map).
  pose proof (@unsqueeze_outShape p s' ltac:(lia)) as Hout.
  rewrite Hlen in Hout. rewrite Hout. reflexivity.
Qed.

(** X3.  [aten.unsqueeze] of a ranked tensor of integer or float element
    type with a constant dim [d]: a negative [d] is counted from the end of
    the result, so it stands for [d + rank + 1]; when the position then lies
    in [0 .. rank] the pattern creates one [tosa.reshape] whose shape is the
    input shape with a 1 inserted at that position (appended when the
    position is the rank), and otherwise it fails with its message on the
    dim. *)
Theorem unsqueeze_inserts_unit_dim
    (op : AtenUnsqueezeOp) (s : list Z) (e : ElemType) (d : Z)
    (st : RewriterState) :
  vtype (unsqueeze_self op) = RankedTensorType s e ->
  isIntOrFloat e = true ->
  m_TorchConstantInt (unsqueeze_dim op) = Some d ->
  let n := Z.of_nat (List.length s) in
  let p := if d <? 0 then d + (n + 1) else d in
  let s' := makeShapeTorchCompatible s in
  if (0 <=? p) && (p <=? n) then
    exists r st',
      ConvertAtenUnsqueezeOp_matchAndRewrite op st = success (tt, st') /\
      emitted st' = emitted st ++ [r] /\
      opName r = tosa_reshape /\ opOperands r = [unsqueeze_self op] /\
      opAttr r =
        DenseI64ArrayAttr
          (firstn (Z.to_nat p) s' ++ [1] ++ skipn (Z.to_nat p) s') /\
      vtype (opResult r) = unsqueeze_type op /\
      replacement st' = ReplacedBy (opResult r)
  else
    ConvertAtenUnsqueezeOp_matchAndRewrite op st = failure msgDimInvalid.
Proof.
  intros Hty He Hd n p s'.
  rewrite (ConvertAtenUnsqueezeOp_run op st Hty Hd). rewrite He. cbn [negb].
  fold n p s'.
  destruct ((0 <=? p) && (p <=? n)); [ | reflexivity].
  eexists _, _. split; [reflexivity | ]. cbn. repeat split.
Qed.

(** ** Squeeze of one dim *)

Lemma squeezeOneDimLoop_id (p k : Z) (l : list Z) :
  (forall j, (j < List.length l)%nat -> k + Z.of_nat j = p ->
             nth j l 0 <> 1) ->
  squeezeOneDimLoop p k l = l.
Proof.
  revert k. induction l as [ | x l IH]; intros k H; [reflexivity | ].
  cbn [squeezeOneDimLoop].
  assert (E : negb (x =? 1) || negb (p =? k) = true).
  { destruct (p =? k) eqn:Ep; [ | now rewrite orb_true_r].
    apply Z.eqb_eq in Ep.
    assert (Hx : x <> 1) by (apply (H 0%nat); simpl; lia).
    apply Z.eqb_neq in Hx. now rewrite Hx. }
  rewrite E. cbn [app]. f_equal. apply IH.
  intros j Hj Hp. apply (H (S j)); simpl; lia.
Qed.

Lemma squeezeOneDimLoop_remove (p k : Z) (a b : list Z) :
  p = k + Z.of_nat (List.length a) ->
  squeezeOneDimLoop p k (a ++ [1] ++ b) = a ++ b.
Proof.
  revert k. induction a as [ | x a IH]; intros k Hp.
  - cbn [app squeezeOneDimLoop List.length] in *.
    assert (E : (p =? k) = true) by (apply Z.eqb_eq; lia).
    rewrite E. cbn. apply squeezeOneDimLoop_id. intros j Hj Hk. lia.
  - cbn [app squeezeOneDimLoop]. cbn [List.length] in Hp.
    assert (E : (p =? k) = false) by (apply Z.eqb_neq; lia).
    rewrite E, orb_true_r. cbn [app]. f_equal. apply IH. lia.
Qed.

Lemma makeShapeTorchCompatible_LLVM (l : list Z) :
  Forall (fun d => -1 <= d) l ->
  makeShapeTorchCompatible (makeShapeLLVMCompatible l) = l.
Proof.
  unfold makeShapeTorchCompatible, makeShapeLLVMCompatible.
  induction 1 as [ | d l Hd _ IH]; [reflexivity | ].
  cbn [map]. rewrite IH. f_equal. unfold kUnknownSize.
  destruct (d =? -1) eqn:E.
  - apply Z.eqb_eq in E. subst d. now rewrite Z.eqb_refl.
  - apply Z.eqb_neq in E.
    assert (E' : (d =? kDynamic) = false)
      by (apply Z.eqb_neq; unfold kDynamic, Int.min; simpl; lia).
    now rewrite E'.
Qed.

Lemma makeShapeTorchCompatible_range (s : list Z) :
  Forall wellFormedDim s ->
  Forall (fun d => -1 <= d) (makeShapeTorchCompatible s).
Proof.
  unfold makeShapeTorchCompatible. induction 1 as [ | d l Hd _ IH];
    constructor; [ | exact IH].
  destruct Hd as [Hd | ->].
  - destruct (d =? kDynamic); unfold kUnknownSize; lia.
  - rewrite Z.eqb_refl. unfold kUnknownSize. lia.
Qed.

(** The run of the one-dim squeeze pattern on a ranked tensor with a constant
    dim. *)
Lemma ConvertAtenSqueezeOneDimOp_run
    (op : AtenSqueezeOp) (s : list Z) (e : ElemType) (d : Z)
    (st : RewriterState) :
  vtype (squeeze_self op) = RankedTensorType s e ->
  m_TorchConstantInt (squeeze_dim op) = Some d ->
  exists v st',
    ConvertAtenSqueezeOp_matchAndRewrite ConvertAtenSqueezeOneDimOp op st
      = success (tt, st') /\
    replacement st' = ReplacedBy v /\
    getShape (vtype v) =
      makeShapeLLVMCompatible
        (squeezeOneDimLoop
           (if d <? 0 then d + Z.of_nat (List.length s) else d) 0
           (makeShapeTorchCompatible s)).
Proof.
  intros Hty Hd.
  unfold ConvertAtenSqueezeOp_matchAndRewrite, generateSqueezedShape.
  rewrite Hty, Hd. unfold getRank. cbn [isRankedTensorType getShape negb].
  eexists _, _. split; [reflexivity | ]. split; reflexivity.
Qed.

(** X4.  Squeezing at dim [d] what an unsqueeze at the same constant dim [d]
    produced gives back the shape the unsqueeze started from: the one-dim
    squeeze pattern, run on a tensor of the shape written by the unsqueeze
    pattern, succeeds and replaces its operation by a value of the original
    shape. *)
Theorem squeeze_dim_undoes_unsqueeze
    (u : AtenUnsqueezeOp) (q : AtenSqueezeOp) (s out : list Z)
    (e e' : ElemType) (d : Z) (st st1 st2 : RewriterState) (r : Operation) :
  vtype (unsqueeze_self u) = RankedTensorType s e ->
  Forall wellFormedDim s ->
  m_TorchConstantInt (unsqueeze_dim u) = Some d ->
  ConvertAtenUnsqueezeOp_matchAndRewrite u st = success (tt, st1) ->
  emitted st1 = emitted st ++ [r] ->
  opAttr r = DenseI64ArrayAttr out ->
  vtype (squeeze_self q) = RankedTensorType (makeShapeLLVMCompatible out) e' ->
  m_TorchConstantInt (squeeze_dim q) = Some d ->
  exists v st2',
    ConvertAtenSqueezeOp_matchAndRewrite ConvertAtenSqueezeOneDimOp q st2
      = success (tt, st2') /\
    replacement st2' = ReplacedBy v /\
    getShape (vtype v) = s.
Proof.
  intros Hty Hs Hd Hrun Hem Hattr Hqty Hqd.
  rewrite (ConvertAtenUnsqueezeOp_run u st Hty Hd) in Hrun.
  set (n := Z.of_nat (List.length s)) in *.
  set (p := if d <? 0 then d + (n + 1) else d) in *.
  set (s' := makeShapeTorchCompatible s) in *.
  destruct (isIntOrFloat e); cbn [negb] in Hrun; [ | discriminate].
  destruct ((0 <=? p) && (p <=? n)) eqn:Hv; [ | discriminate].
  apply andb_true_iff in Hv. destruct Hv as [Ha Hb].
  apply Z.leb_le in Ha. apply Z.leb_le in Hb.
  injection Hrun as Hst1. rewrite <- Hst1 in Hem. cbn [emitted] in Hem.
  apply app_inv_head in Hem. injection Hem as Hr. rewrite <- Hr in Hattr.
  cbn [opAttr] in Hattr. injection Hattr as Hout.
  assert (Hlen : List.length s' = List.length s)
    by (unfold s', makeShapeTorchCompatible; now rewrite length_map).
  assert (Hrange : Forall (fun x => -1 <= x) out).
  { rewrite <- Hout. pose proof (makeShapeTorchCompatible_range Hs) as H.
    fold s' in H. rewrite <- (firstn_skipn (Z.to_nat p) s') in H.
    apply Forall_app in H. destruct H as [H1 H2].
    apply Forall_app. split; [exact H1 | ].
    constructor; [lia | exact H2]. }
  destruct (ConvertAtenSqueezeOneDimOp_run q st2 Hqty Hqd)
    as (v & st2' & Hq & Hrep & Hshape).
  exists v, st2'. split; [exact Hq | ]. split; [exact Hrep | ].
  rewrite Hshape. rewrite (makeShapeTorchCompatible_LLVM Hrange).
  assert (Hlo : List.length (makeShapeLLVMCompatible out)
                = S (List.length s)).
  { unfold makeShapeLLVMCompatible. rewrite length_map, <- Hout.
    rewrite length_app. cbn [List.length].
    rewrite length_firstn, length_skipn. lia. }
  rewrite Hlo.
  assert (Hp : (if d <? 0 then d + Z.of_nat (S (List.length s)) else d) = p).
  { unfold p, n. destruct (d <? 0); lia. }
  rewrite Hp, <- Hout.
  change (firstn (Z.to_nat p) s' ++ 1 :: skipn (Z.to_nat p) s')
    with (firstn (Z.to_nat p) s' ++ [1] ++ skipn (Z.to_nat p) s').
  rewrite squeezeOneDimLoop_remove by (rewrite length_firstn; lia).
  rewrite firstn_skipn. unfold s'. now apply makeShapeLLVMCompatible_Torch.
Qed.

(** X5.  The one-dim squeeze pattern never rejects a constant dim: when the
    position it names (counted from the end when negative) lies outside of
    the rank, or holds anything but a statically known 1, the pattern still
    succeeds and the value that replaces the operation has the shape of the
    input. *)
Theorem squeeze_dim_keeps_other_shapes
    (op : AtenSqueezeOp) (s : list Z) (e : ElemType) (d : Z)
    (st : RewriterState) :
  vtype (squeeze_self op) = RankedTensorType s e ->
  Forall wellFormedDim s ->
  m_TorchConstantInt (squeeze_dim op) = Some d ->
  let n := Z.of_nat (List.length s) in
  let p := if d <? 0 then d + n else d in
  (0 <= p < n -> at_ s p <> 1) ->
  exists v st',
    ConvertAtenSqueezeOp_matchAndRewrite ConvertAtenSqueezeOneDimOp op st
      = success (tt, st') /\
    replacement st' = ReplacedBy v /\
    getShape (vtype v) = s.
Proof.
  intros Hty Hs Hd n p Hp.
  destruct (ConvertAtenSqueezeOneDimOp_run op st Hty Hd)
    as (v & st' & Hq & Hrep & Hshape).
  exists v, st'. split; [exact Hq | ]. split; [exact Hrep | ].
  rewrite Hshape. fold n p. rewrite squeezeOneDimLoop_id.
  - now apply makeShapeLLVMCompatible_Torch.
  - intros j Hj Hjp.
    unfold makeShapeTorchCompatible in *. rewrite length_map in Hj.
    assert (Hin : 0 <= p < n) by (unfold n; lia).
    specialize (Hp Hin). unfold at_ in Hp.
    replace (Z.to_nat p) with j in Hp by lia.
    change 0 with ((fun x => if x =? kDynamic then kUnknownSize else x) 0)
      at 1.
    rewrite map_nth.
    destruct (nth j s 0 =? kDynamic); [unfold kUnknownSize; lia | exact Hp].
Qed.

(** ** Flatten *)

Lemma wrap_mul_wrap (w x d : Z) :
  0 < w -> Int.wrap w (Int.wrap w x * d) = Int.wrap w (x * d).
Proof.
  intros Hw. unfold Int.wrap.
  assert (Hm : 0 < 2 ^ w) by (apply Z.pow_pos_nonneg; lia).
  f_equal.
  rewrite (Z.mod_eq (x + 2 ^ (w - 1)) (2 ^ w)) by lia.
  replace ((x + 2 ^ (w - 1) - 2 ^ w * ((x + 2 ^ (w - 1)) / 2 ^ w)
            - 2 ^ (w - 1)) * d + 2 ^ (w - 1))
    with (x * d + 2 ^ (w - 1)
          + (- ((x + 2 ^ (w - 1)) / 2 ^ w) * d) * 2 ^ w) by ring.
  apply Z_mod_plus_full.
Qed.

Lemma fold_mul64_wrap (l : list Z) (x : Z) :
  fold_left Int.mul64 l (Int.wrap 64 x) = Int.wrap 64 (fold_left Z.mul l x).
Proof.
  revert x. induction l as [ | d l IH]; intros x; [reflexivity | ].
  cbn [fold_left]. unfold Int.mul64 at 2.
  rewrite wrap_mul_wrap by lia. apply IH.
Qed.

Lemma wrap64_small (d : Z) : 0 <= d < 2 ^ 63 -> Int.wrap 64 d = d.
Proof.
  intros H. apply wrap_in_range; [lia | ].
  unfold Int.in_range, Int.min, Int.max. simpl.
  apply andb_true_iff. split; apply Z.leb_le; simpl in H; lia.
Qed.

Lemma fold_mul_scale (l : list Z) (x : Z) :
  fold_left Z.mul l x = x * fold_left Z.mul l 1.
Proof.
  revert x. induction l as [ | d l IH]; intros x; cbn [fold_left]; [lia | ].
  rewrite (IH (x * d)), (IH (1 * d)). ring.
Qed.

Lemma fold_mul_app (l1 l2 : list Z) :
  fold_left Z.mul (l1 ++ l2) 1
  = fold_left Z.mul l1 1 * fold_left Z.mul l2 1.
Proof. rewrite fold_left_app. apply fold_mul_scale. Qed.

(** The three phases of the flatten loop. *)
Lemma flattenLoop_before (a b k : Z) (pre l acc : list Z) :
  k + Z.of_nat (List.length pre) <= a ->
  flattenLoop a b k (pre ++ l) acc
  = flattenLoop a b (k + Z.of_nat (List.length pre)) l (acc ++ pre).
Proof.
  revert k acc. induction pre as [ | x pre IH]; intros k acc H.
  - cbn. now rewrite Z.add_0_r, app_nil_r.
  - cbn [app flattenLoop]. cbn [List.length] in *.
    assert (E : (k <? a) = true) by (apply Z.ltb_lt; lia).
    rewrite E. cbn [orb]. rewrite IH by lia.
    rewrite <- app_assoc. cbn [app]. f_equal. lia.
Qed.

Lemma flattenLoop_within (a b k : Z) (mid l acc : list Z) (y : Z) :
  a < k -> k + Z.of_nat (List.length mid) <= b + 1 ->
  flattenLoop a b k (mid ++ l) (acc ++ [y])
  = flattenLoop a b (k + Z.of_nat (List.length mid)) l
      (acc ++ [fold_left Int.mul64 mid y]).
Proof.
  revert k y. induction mid as [ | x mid IH]; intros k y Ha Hb.
  - cbn. now rewrite Z.add_0_r.
  - cbn [app flattenLoop]. cbn [List.length] in *.
    assert (E1 : (k <? a) = false) by (apply Z.ltb_ge; lia).
    assert (E2 : (k >? b) = false) by (rewrite Z.gtb_ltb; apply Z.ltb_ge; lia).
    assert (E3 : (k =? a) = false) by (apply Z.eqb_neq; lia).
    rewrite E1, E2, E3. cbn [orb].
    assert (Hm : mulBack (acc ++ [y]) x = acc ++ [Int.mul64 y x]).
    { unfold mulBack. destruct (acc ++ [y]) eqn:E;
        [now destruct acc | ].
      rewrite <- E, removelast_last, last_last. reflexivity. }
    rewrite Hm, IH by lia. cbn [fold_left]. f_equal. lia.
Qed.

Lemma flattenLoop_after (a b k : Z) (l acc : list Z) :
  b < k -> a <= b -> flattenLoop a b k l acc = acc ++ l.
Proof.
  revert k acc. induction l as [ | x l IH]; intros k acc Hb Ha.
  - cbn. now rewrite app_nil_r.
  - cbn [flattenLoop].
    assert (E : (k >? b) = true) by (rewrite Z.gtb_ltb; apply Z.ltb_lt; lia).
    rewrite E, orb_true_r, IH by lia. now rewrite <- app_assoc.
Qed.

Lemma flattenLoop_closed (a b : Z) (l : list Z) :
  0 <= a <= b -> b < Z.of_nat (List.length l) ->
  Forall (fun d => 0 <= d < 2 ^ 63) l ->
  flattenLoop a b 0 l [] =
  firstn (Z.to_nat a) l ++
  [Int.wrap 64
     (fold_left Z.mul (firstn (Z.to_nat (b - a + 1)) (skipn (Z.to_nat a) l))
                1)] ++
  skipn (Z.to_nat (b + 1)) l.
Proof.
  intros Hab Hb Hl.
  set (pre := firstn (Z.to_nat a) l).
  set (rest := skipn (Z.to_nat a) l).
  assert (Hsplit : l = pre ++ rest)
    by (unfold pre, rest; now rewrite firstn_skipn).
  assert (Hpre : List.length pre = Z.to_nat a)
    by (unfold pre; rewrite length_firstn; lia).
  assert (Hrest : List.length rest = (List.length l - Z.to_nat a)%nat)
    by (unfold rest; now rewrite length_skipn).
  destruct rest as [ | y rest'] eqn:Er; [simpl in Hrest; lia | ].
  set (mid := firstn (Z.to_nat (b - a)) rest').
  set (post := skipn (Z.to_nat (b - a)) rest').
  assert (Hsplit' : rest' = mid ++ post)
    by (unfold mid, post; now rewrite firstn_skipn).
  assert (Hmid : List.length mid = Z.to_nat (b - a)).
  { unfold mid. rewrite length_firstn. simpl in Hrest. lia. }
  assert (Hpost : skipn (Z.to_nat (b + 1)) l = post).
  { rewrite Hsplit.
    replace (Z.to_nat (b + 1))
      with (List.length pre + S (Z.to_nat (b - a)))%nat by lia.
    rewrite skipn_app, skipn_all2 by lia.
    replace (List.length pre + S (Z.to_nat (b - a)) - List.length pre)%nat
      with (S (Z.to_nat (b - a))) by lia.
    reflexivity. }
  assert (Hy : 0 <= y < 2 ^ 63).
  { rewrite Forall_forall in Hl. apply Hl. rewrite Hsplit.
    apply in_or_app. right. now left. }
  rewrite Hpost.
  replace (Z.to_nat (b - a + 1)) with (S (Z.to_nat (b - a))) by lia.
  cbn [firstn fold_left]. fold mid.
  rewrite Hsplit at 1.
  rewrite flattenLoop_before by lia. cbn [app].
  replace (0 + Z.of_nat (List.length pre)) with a by lia.
  cbn [flattenLoop].
  assert (E1 : (a <? a) = false) by (apply Z.ltb_irrefl).
  assert (E2 : (a >? b) = false) by (rewrite Z.gtb_ltb; apply Z.ltb_ge; lia).
  rewrite E1, E2, Z.eqb_refl. cbn [orb].
  rewrite Hsplit'. rewrite flattenLoop_within by lia.
  rewrite flattenLoop_after by lia.
  rewrite <- app_assoc. do 2 f_equal. cbn [app]. f_equal.
  rewrite <- (wrap64_small Hy) at 1. rewrite fold_mul64_wrap.
  now replace (1 * y) with y by lia.
Qed.

Lemma hasStaticShape_nonneg (s : list Z) (e : ElemType) :
  Forall (fun d => 0 <= d) s -> hasStaticShape (RankedTensorType s e) = true.
Proof.
  intros H. cbn [hasStaticShape]. apply forallb_forall. intros x Hx.
  rewrite Forall_forall in H. specialize (H x Hx).
  unfold isDynamic. apply negb_true_iff, Z.eqb_neq.
  unfold kDynamic, Int.min. simpl. lia.
Qed.

(** X6.  [aten.flatten.using_ints] of a statically shaped tensor with
    constant start and end dims that, counted from the end when negative,
    satisfy [0 <= start <= end < rank]: the pattern succeeds and creates one
    [tosa.reshape] followed by the [tensor.cast] that replaces the operation.
    The new shape keeps the dims before [start] and after [end] and puts in
    between one dim holding the product of the dims [start .. end], computed
    in 64 bits; so it has [rank - (end - start)] dims, and as long as that
    product fits in 64 bits the number of elements is the same. *)
Theorem flatten_merges_dim_range
    (op : AtenFlattenUsingIntsOp) (s : list Z) (e : ElemType) (sd ed : Z)
    (st : RewriterState) :
  vtype (flatten_self op) = RankedTensorType s e ->
  Forall (fun d => 0 <= d < 2 ^ 63) s ->
  m_TorchConstantInt (flatten_start_dim op) = Some sd ->
  m_TorchConstantInt (flatten_end_dim op) = Some ed ->
  let n := Z.of_nat (List.length s) in
  let a := if sd <? 0 then sd + n else sd in
  let b := if ed <? 0 then ed + n else ed in
  let merged :=
    fold_left Z.mul (firstn (Z.to_nat (b - a + 1)) (skipn (Z.to_nat a) s)) 1 in
  let newShape :=
    firstn (Z.to_nat a) s ++ [Int.wrap 64 merged] ++
    skipn (Z.to_nat (b + 1)) s in
  0 <= a <= b -> b < n ->
  (exists r c st',
      ConvertAtenFlattenUsingIntsOp_matchAndRewrite op st = success (tt, st') /\
      emitted st' = emitted st ++ [r; c] /\
      opName r = tosa_reshape /\ opOperands r = [flatten_self op] /\
      opAttr r = DenseI64ArrayAttr newShape /\
      opName c = tensor_cast /\ opOperands c = [opResult r] /\
      vtype (opResult c) = flatten_type op /\
      replacement st' = ReplacedBy (opResult c)) /\
  Z.of_nat (List.length newShape) = n - (b - a) /\
  (merged < 2 ^ 63 -> fold_left Z.mul newShape 1 = fold_left Z.mul s 1).
Proof.
  intros Hty Hs Hsd Hed n a b merged newShape Hab Hbn.
  assert (Hs0 : Forall (fun d => 0 <= d) s).
  { apply Forall_forall. intros x Hx. rewrite Forall_forall in Hs.
    specialize (Hs x Hx). lia. }
  split; [ | split].
  - unfold ConvertAtenFlattenUsingIntsOp_matchAndRewrite.
    rewrite Hty, Hsd, Hed, (hasStaticShape_nonneg e Hs0).
    unfold getRank. cbn [isRankedTensorType getShape getElementType negb orb].
    fold n. rewrite !toPositiveDim_cases, !isValidDim_cases. fold a b.
    assert (Ea : (0 <=? a) && (a <? n) = true)
      by (apply andb_true_iff; split; [apply Z.leb_le | apply Z.ltb_lt]; lia).
    assert (Eb : (0 <=? b) && (b <? n) = true)
      by (apply andb_true_iff; split; [apply Z.leb_le | apply Z.ltb_lt]; lia).
    assert (Eab : (b <? a) = false) by (apply Z.ltb_ge; lia).
    rewrite Ea, Eb, Eab. cbn [negb andb]. rewrite !andb_false_r.
    rewrite (makeShapeTorchCompatible_nonneg Hs0).
    rewrite (flattenLoop_closed Hab Hbn Hs). fold merged newShape.
    assert (Hne : Nat.eqb (List.length newShape) 0 = false).
    { apply Nat.eqb_neq. unfold newShape. rewrite !length_app. simpl. lia. }
    rewrite Hne.
    unfold replaceOpWithNewOp, bind, create, replaceOp.
    eexists _, _, _. split; [reflexivity | ]. cbn.
    rewrite <- app_assoc. repeat split.
  - unfold newShape. rewrite !length_app, length_firstn, length_skipn.
    cbn [List.length]. unfold n in *. lia.
  - intros Hm.
    set (pre := firstn (Z.to_nat a) s) in *.
    set (mid := firstn (Z.to_nat (b - a + 1)) (skipn (Z.to_nat a) s)) in *.
    assert (Hpost : skipn (Z.to_nat (b + 1)) s
                    = skipn (Z.to_nat (b - a + 1)) (skipn (Z.to_nat a) s)).
    { rewrite skipn_skipn. f_equal. lia. }
    assert (Hsplit : s = pre ++ mid ++ skipn (Z.to_nat (b + 1)) s).
    { rewrite Hpost. unfold pre, mid. now rewrite !firstn_skipn. }
    assert (Hmid : Forall (fun d => 0 <= d) mid).
    { rewrite Hsplit in Hs0. apply Forall_app in Hs0. destruct Hs0 as [_ H].
      apply Forall_app in H. tauto. }
    assert (Hpos : forall l, Forall (fun d => 0 <= d) l ->
                             0 <= fold_left Z.mul l 1).
    { induction l as [ | x l IH]; intros Hl; cbn [fold_left]; [lia | ].
      rewrite fold_mul_scale. apply Forall_inv in Hl as Hx.
      apply Forall_inv_tail in Hl. specialize (IH Hl). nia. }
    assert (Hw : Int.wrap 64 merged = merged).
    { apply wrap64_small. split; [now apply Hpos | exact Hm]. }
    assert (Hprod : fold_left Z.mul s 1 =
                    fold_left Z.mul
                      (pre ++ mid ++ skipn (Z.to_nat (b + 1)) s) 1)
      by (f_equal; exact Hsplit).
    rewrite Hprod. unfold newShape. rewrite Hw.
    rewrite !fold_mul_app. cbn [fold_left]. fold merged. lia.
Qed.

(** X7.  Flattening a zero-ranked tensor: the validity of the two constant
    dims is not checked, only their order as they are given.  With
    [start_dim <= end_dim] the pattern succeeds and reshapes to the shape
    [1]; otherwise (as with the dims 0 and -1) it fails with its message on
    the order of the dims. *)
Theorem flatten_of_scalar
    (op : AtenFlattenUsingIntsOp) (e : ElemType) (sd ed : Z)
    (st : RewriterState) :
  vtype (flatten_self op) = RankedTensorType [] e ->
  m_TorchConstantInt (flatten_start_dim op) = Some sd ->
  m_TorchConstantInt (flatten_end_dim op) = Some ed ->
  if sd <=? ed then
    exists r c st',
      ConvertAtenFlattenUsingIntsOp_matchAndRewrite op st = success (tt, st') /\
      emitted st' = emitted st ++ [r; c] /\
      opName r = tosa_reshape /\ opOperands r = [flatten_self op] /\
      opAttr r = DenseI64ArrayAttr [1] /\
      vtype (opResult r) = RankedTensorType [1] e /\
      opName c = tensor_cast /\ opOperands c = [opResult r] /\
      replacement st' = ReplacedBy (opResult c)
  else
    ConvertAtenFlattenUsingIntsOp_matchAndRewrite op st
      = failure "end_dim must be larger than start_dim".
Proof.
  intros Hty Hsd Hed.
  unfold ConvertAtenFlattenUsingIntsOp_matchAndRewrite.
  rewrite Hty, Hsd, Hed. unfold getRank.
  cbn [isRankedTensorType hasStaticShape forallb getShape getElementType
       negb orb List.length Z.of_nat].
  rewrite !toPositiveDim_cases.
  replace (if sd <? 0 then sd + 0 else sd) with sd
    by (destruct (sd <? 0); lia).
  replace (if ed <? 0 then ed + 0 else ed) with ed
    by (destruct (ed <? 0); lia).
  change (0 >? 0) with false. cbn [andb].
  rewrite Z.ltb_antisym.
  destruct (sd <=? ed); cbn [negb]; [ | reflexivity].
  unfold replaceOpWithNewOp, bind, create, replaceOp.
  eexists _, _, _. split; [reflexivity | ]. cbn.
  rewrite <- app_assoc. repeat split.
Qed.

(** ** Argmax over one dim, and over all of them *)

Lemma argmaxOutputShape_id (keepDim : bool) (d k : Z) (l : list Z) :
  d < k \/ k + Z.of_nat (List.length l) <= d ->
  argmaxOutputShape keepDim d k l = l.
Proof.
  revert k. induction l as [ | x l IH]; intros k H; [reflexivity | ].
  cbn [argmaxOutputShape]. cbn [List.length] in H.
  assert (E : (k =? d) = false) by (apply Z.eqb_neq; lia).
  rewrite E. cbn [negb app]. f_equal. apply IH. lia.
Qed.

Lemma argmaxOutputShape_at (keepDim : bool) (d k : Z) (l : list Z) :
  k <= d < k + Z.of_nat (List.length l) ->
  argmaxOutputShape keepDim d k l =
  firstn (Z.to_nat (d - k)) l ++ (if keepDim then [1] else []) ++
  skipn (S (Z.to_nat (d - k))) l.
Proof.
  revert k. induction l as [ | x l IH]; intros k H;
    [cbn [List.length] in H; lia | ].
  cbn [argmaxOutputShape]. cbn [List.length] in H.
  destruct (k =? d) eqn:E.
  - apply Z.eqb_eq in E. subst k. replace (d - d) with 0 by lia.
    cbn [negb Z.to_nat firstn skipn app]. f_equal.
    apply argmaxOutputShape_id. lia.
  - apply Z.eqb_neq in E. cbn [negb]. rewrite IH by lia.
    replace (d - (k + 1)) with (d - k - 1) by lia.
    replace (Z.to_nat (d - k)) with (S (Z.to_nat (d - k - 1))) by lia.
    reflexivity.
Qed.

Lemma wellFormedDim_1 : wellFormedDim 1.
Proof. left. lia. Qed.

(** X8.  Argmax over one constant dim [d] other than -1, with a constant
    keepdim, on a ranked tensor: one [tosa.argmax] with axis [d] is created,
    an i32 tensor, and the [arith.extsi] to the result element type replaces
    the operation.  For [0 <= d < rank] both have the input shape with
    position [d] removed, or set to 1 when keepdim holds.  A dim outside of
    that range is neither rejected nor counted from the end: the argmax is
    created with that axis and with the shape of the input. *)
Theorem argmax_one_dim_shape
    (op : AtenArgmaxOp) (s : list Z) (e : ElemType) (d : Z) (keepDim : bool)
    (st : RewriterState) :
  vtype (argmax_self op) = RankedTensorType s e ->
  Forall wellFormedDim s ->
  m_TorchConstantInt (argmax_dim op) = Some d ->
  d <> -1 ->
  m_TorchConstantBool (argmax_keepdim op) = Some keepDim ->
  let n := Z.of_nat (List.length s) in
  let outShape :=
    if (0 <=? d) && (d <? n)
    then firstn (Z.to_nat d) s ++ (if keepDim then [1] else []) ++
         skipn (S (Z.to_nat d)) s
    else s in
  exists a x st',
    ConvertAtenArgmaxOp_matchAndRewrite op st = success (tt, st') /\
    emitted st' = emitted st ++ [a; x] /\
    opName a = tosa_argmax /\ opOperands a = [argmax_self op] /\
    opAttr a = IntegerAttr d /\
    vtype (opResult a) = RankedTensorType outShape (IntegerType 32) /\
    opName x = arith_extsi /\ opOperands x = [opResult a] /\
    vtype (opResult x)
      = RankedTensorType outShape (getElementType (argmax_type op)) /\
    replacement st' = ReplacedBy (opResult x).
Proof.
  intros Hty Hs Hd Hne Hk n outShape.
  assert (Hout : makeShapeLLVMCompatible
                   (argmaxOutputShape keepDim d 0 (makeShapeTorchCompatible s))
                 = outShape).
  { unfold outShape.
    assert (Hlen : List.length (makeShapeTorchCompatible s) = List.length s)
      by (unfold makeShapeTorchCompatible; apply length_map).
    destruct ((0 <=? d) && (d <? n)) eqn:Hv.
    - apply andb_true_iff in Hv. destruct Hv as [Ha Hb].
      apply Z.leb_le in Ha. apply Z.ltb_lt in Hb.
      rewrite argmaxOutputShape_at by (rewrite Hlen; fold n; lia).
      replace (d - 0) with d by lia.
      unfold makeShapeLLVMCompatible. rewrite !map_app.
      rewrite <- firstn_map, <- skipn_map.
      fold (makeShapeLLVMCompatible (makeShapeTorchCompatible s)).
      rewrite (makeShapeLLVMCompatible_Torch Hs).
      now destruct keepDim.
    - rewrite argmaxOutputShape_id; [now apply makeShapeLLVMCompatible_Torch | ].
      rewrite Hlen. fold n.
      apply andb_false_iff in Hv. destruct Hv as [Hv | Hv];
        [apply Z.leb_gt in Hv | apply Z.ltb_ge in Hv]; lia. }
  assert (Hwf : Forall wellFormedDim outShape).
  { unfold outShape. destruct ((0 <=? d) && (d <? n)); [ | exact Hs].
    rewrite <- (firstn_skipn (Z.to_nat d) s) in Hs.
    apply Forall_app in Hs. destruct Hs as [H1 H2].
    apply Forall_app. split; [exact H1 | ]. apply Forall_app. split.
    - destruct keepDim;
        [constructor; [apply wellFormedDim_1 | constructor] | constructor].
    - destruct (skipn (Z.to_nat d) s) as [ | y t] eqn:E.
      + replace (S (Z.to_nat d)) with (1 + Z.to_nat d)%nat by lia.
        rewrite <- skipn_skipn, E. constructor.
      + replace (S (Z.to_nat d)) with (1 + Z.to_nat d)%nat by lia.
        rewrite <- skipn_skipn, E. cbn. now apply Forall_inv_tail in H2. }
  unfold ConvertAtenArgmaxOp_matchAndRewrite.
  rewrite Hty, Hd, Hk. cbn [isRankedTensorType negb valueOr].
  assert (E : (d =? -1) = false) by now apply Z.eqb_neq.
  rewrite E.
  unfold buildArgmax, castToInt64, replaceOpWithNewOp, bind, create, replaceOp.
  rewrite Hty. cbn [vtype getShape]. rewrite Hout.
  rewrite (makeShapeLLVMCompatible_Torch Hwf).
  eexists _, _, _. split; [reflexivity | ]. cbn.
  rewrite <- app_assoc. repeat split.
Qed.

(** The shape at the end of a chain of [k] reductions of dim 0. *)
Lemma chain_buildArgmax_shape (keepDim : bool) (k : nat) (input : Value)
    (st : RewriterState) :
  Forall wellFormedDim (getShape (vtype input)) ->
  exists v st',
    chain k (buildArgmax keepDim 0) input st = success (v, st') /\
    getShape (vtype v) =
      if keepDim then
        match k, getShape (vtype input) with
        | O, l => l
        | S _, [] => []
        | S _, _ :: t => 1 :: t
        end
      else skipn k (getShape (vtype input)).
Proof.
  revert input st. induction k as [ | k IH]; intros input st Hwf.
  - exists input, st. split; [reflexivity | ]. now destruct keepDim.
  - cbn [chain]. unfold bind, buildArgmax at 1, create.
    set (o := mkValue _ _ _).
    set (st1 := mkState _ _ _).
    assert (Ho : getShape (vtype o) =
                 match getShape (vtype input) with
                 | [] => []
                 | _ :: t => if keepDim then 1 :: t else t
                 end).
    { unfold o. cbn [vtype getShape].
      destruct (getShape (vtype input)) as [ | x t] eqn:E; [reflexivity | ].
      unfold makeShapeTorchCompatible. cbn [map argmaxOutputShape].
      change (0 =? 0) with true. cbn [negb].
      rewrite argmaxOutputShape_id by lia.
      apply Forall_inv_tail in Hwf.
      pose proof (makeShapeLLVMCompatible_Torch Hwf) as Ht.
      unfold makeShapeLLVMCompatible, makeShapeTorchCompatible in *.
      destruct keepDim; cbn [app map]; rewrite Ht; reflexivity. }
    assert (Hwf' : Forall wellFormedDim (getShape (vtype o))).
    { rewrite Ho. destruct (getShape (vtype input)) as [ | x t];
        [constructor | ].
      apply Forall_inv_tail in Hwf.
      destruct keepDim; [constructor; [apply wellFormedDim_1 | ] | ];
        exact Hwf. }
    destruct (IH o st1 Hwf') as (v & st' & Hrun & Hshape).
    exists v, st'. split; [exact Hrun | ]. rewrite Hshape, Ho.
    destruct keepDim.
    + destruct k; destruct (getShape (vtype input)); reflexivity.
    + destruct (getShape (vtype input)); [now rewrite skipn_nil | reflexivity].
Qed.

(** X9.  Argmax with no dim, or with the constant dim -1 (which the pattern
    does not tell apart from no dim), on a rank-R tensor: R [tosa.argmax] over
    dim 0 are chained and one [arith.extsi] replaces the operation.  Without
    keepdim the result is zero-ranked.  With keepdim each step reduces dim 0
    again, so the result has the input shape with its first size set to 1:
    the other dims are never reduced. *)
Theorem argmax_all_dims_result_shape
    (op : AtenArgmaxOp) (s : list Z) (e : ElemType) (keepDim : bool)
    (st : RewriterState) :
  vtype (argmax_self op) = RankedTensorType s e ->
  Forall wellFormedDim s ->
  valueOr (m_TorchConstantInt (argmax_dim op)) (-1) = -1 ->
  m_TorchConstantBool (argmax_keepdim op) = Some keepDim ->
  exists ops ext st',
    ConvertAtenArgmaxOp_matchAndRewrite op st = success (tt, st') /\
    emitted st' = emitted st ++ ops ++ [ext] /\
    List.length ops = List.length s /\
    argmaxChain 0 (argmax_self op) ops /\
    opName ext = arith_extsi /\
    opOperands ext = [lastResult (argmax_self op) ops] /\
    replacement st' = ReplacedBy (opResult ext) /\
    getShape (vtype (opResult ext)) =
      if keepDim then match s with [] => [] | _ :: t => 1 :: t end else [].
Proof.
  intros Hty Hs Hdim Hkeep.
  unfold ConvertAtenArgmaxOp_matchAndRewrite.
  rewrite Hty, Hdim, Hkeep. unfold getRank.
  cbn [isRankedTensorType negb getShape]. rewrite bind_assert_true.
  rewrite Nat2Z.id.
  change (-1 =? -1) with true. cbv iota.
  destruct (chain_buildArgmax keepDim (List.length s) (argmax_self op) st)
    as [ops [Hrun [Hlen [Hch _]]]].
  assert (Hwf : Forall wellFormedDim (getShape (vtype (argmax_self op))))
    by now rewrite Hty.
  destruct (@chain_buildArgmax_shape keepDim (List.length s) (argmax_self op)
              st Hwf)
    as (v & st1 & Hrun' & Hshape).
  rewrite Hrun in Hrun'. injection Hrun' as Hv _.
  rewrite <- Hv, Hty in Hshape. cbn [getShape] in Hshape.
  assert (Hfinal : getShape (vtype (lastResult (argmax_self op) ops)) =
            if keepDim then match s with [] => [] | _ :: t => 1 :: t end
            else []).
  { rewrite Hshape. destruct keepDim.
    - now destruct s.
    - now rewrite skipn_all. }
  assert (Hwf' : Forall wellFormedDim
                   (getShape (vtype (lastResult (argmax_self op) ops)))).
  { rewrite Hfinal. destruct keepDim; [ | constructor].
    destruct s as [ | x t]; [constructor | ].
    apply Forall_inv_tail in Hs. constructor; [apply wellFormedDim_1 | exact Hs]. }
  unfold bind at 1. rewrite Hrun.
  unfold castToInt64, replaceOpWithNewOp, bind, create, replaceOp.
  eexists ops, _, _. split; [reflexivity | ]. cbn.
  rewrite <- app_assoc.
  rewrite (makeShapeLLVMCompatible_Torch Hwf').
  repeat split; auto.
Qed.

(** ** Reverse subtraction and multiplication *)

(** X10.  [aten.rsub.Scalar] of a ranked float tensor succeeds exactly when
    [other] and [alpha] are both scalar constants (integer or float): it
    creates the two constants as f32 tensors, then [tosa.mul] of the input by
    alpha and [tosa.sub] of that product from [other], which replaces the
    operation.  The lift of alpha never reaches the check that alpha be 1: an
    integer alpha other than 1 is accepted and multiplied in. *)
Theorem rsub_accepts_any_constant_alpha
    (op : AtenRsubScalarOp) (s : list Z) (w : Z) (st : RewriterState) :
  vtype (rsub_self op) = RankedTensorType s (FloatType w) ->
  let isScalar v :=
    isSome (m_TorchConstantFloat v) || isSome (m_TorchConstantInt v) in
  let asDouble v :=
    match vconst v with
    | ConstantFloat d => d
    | ConstantInt i => sitofp i
    | _ => S754_zero false
    end in
  match ConvertAtenRsubScalarOp_matchAndRewrite op st with
  | success (_, st') =>
      isScalar (rsub_other op) = true /\ isScalar (rsub_alpha op) = true /\
      exists c1 c2 m sb,
        emitted st' = emitted st ++ [c1; c2; m; sb] /\
        opName c1 = tosa_const /\
        opAttr c1 = DenseFPElements [fptrunc (asDouble (rsub_other op))] /\
        opName c2 = tosa_const /\
        opAttr c2 = DenseFPElements [fptrunc (asDouble (rsub_alpha op))] /\
        opName m = tosa_mul /\
        opOperands m = [rsub_self op; opResult c2] /\
        opName sb = tosa_sub /\
        opOperands sb = [opResult c1; opResult m] /\
        vtype (opResult sb) = rsub_type op /\
        replacement st' = ReplacedBy (opResult sb)
  | failure _ =>
      isScalar (rsub_other op) && isScalar (rsub_alpha op) = false
  | assertionFailed _ => False
  end.
Proof.
  intros Hty isScalar asDouble.
  unfold ConvertAtenRsubScalarOp_matchAndRewrite.
  rewrite Hty. cbn [isRankedTensorType getElementType isFloatType negb].
  unfold isScalar, asDouble, torchAlphaToTosaTensor, orElse, orFail, bind,
    torchScalarToTosaTensor, m_TorchConstantFloat, m_TorchConstantInt,
    getConstTensor_float, getTosaConstTensorSingleF32, create,
    replaceOpWithNewOp, replaceOp, notifyMatchFailure.
  destruct (vconst (rsub_other op)); cbn; try reflexivity;
    destruct (vconst (rsub_alpha op)); cbn; try reflexivity;
    (split; [reflexivity | split; [reflexivity | ]];
     do 4 eexists; rewrite <- !app_assoc; cbn;
     split; [reflexivity | repeat split]).
Qed.

(** X11.  The lift of an integer constant alpha at the i32 element type, as
    add and sub ask for it: a value within the i32 range becomes an i32
    constant holding it; a value outside of the range is not rejected when
    the unity check is off, it becomes an f32 constant holding the integer
    rounded to binary32 in one step; and with the unity check on it is
    rejected, since 1 lies within the range. *)
Theorem alpha_outside_i32_becomes_f32
    (alpha : Value) (i : Z) (checkForUnity : bool) (st : RewriterState) :
  m_TorchConstantInt alpha = Some i ->
  torchAlphaToTosaTensor alpha (IntegerType 32) checkForUnity st =
  if Int.in_range 32 i then
    let t := mkValue (nextId st) (RankedTensorType [] (IntegerType 32))
                     NotConstant in
    success (t, mkState (S (nextId st))
                  (emitted st ++
                   [mkOperation tosa_const [] (DenseIntElements 32 [i]) t])
                  (replacement st))
  else if checkForUnity then failure "Unsupported integer value for alpha"
  else
    let t := mkValue (nextId st) (RankedTensorType [] (FloatType 32))
                     NotConstant in
    success (t, mkState (S (nextId st))
                  (emitted st ++
                   [mkOperation tosa_const []
                      (DenseFPElements [sitofp32 i]) t])
                  (replacement st)).
Proof.
  intros Hi.
  assert (Hc : vconst alpha = ConstantInt i).
  { unfold m_TorchConstantInt in Hi. destruct (vconst alpha); congruence. }
  assert (Hint : forall w' j, (Int.min w' <=? j) && (j <=? Int.max w')
                              = Int.in_range w' j) by reflexivity.
  unfold torchAlphaToTosaTensor, orElse, torchScalarToTosaTensor,
    isInValidRange, m_TorchConstantFloat, m_TorchConstantInt,
    getConstTensor_int, getTosaConstTensorSingleF32, create,
    notifyMatchFailure.
  rewrite Hc. cbn [isSome valueOr negb andb]. change (32 =? 32) with true.
  cbn [negb andb]. rewrite Hint.
  destruct (Int.in_range 32 i) eqn:R; cbn [negb].
  - rewrite (@wrap_in_range 32 i ltac:(lia) R). reflexivity.
  - destruct checkForUnity; cbn [andb]; [ | reflexivity].
    assert (E : (i =? 1) = false).
    { apply Z.eqb_neq. intros ->. discriminate R. }
    now rewrite E.
Qed.

(** X12.  [aten.mul.Tensor] of two tensors fails only when the left operand
    is no tensor or the result element type is neither integer nor float; its
    last failure, on quantized types, is never reached.  On success the
    operation is replaced by one [tosa.mul] of the result type with shift 0.
    Its left operand always has the result element type, being cast to the
    result type when its own differs; its right operand is the right tensor
    as it is, never cast, whatever its element type. *)
Theorem mul_casts_only_left_operand
    (k : AtenMulKind) (op : AtenMulOp) (st : RewriterState) :
  k <> AtenSquareOp ->
  isTensorType (vtype (mul_other op)) = true ->
  match ConvertAtenMulOp_matchAndRewrite k op st with
  | success (_, st') =>
      isTensorType (vtype (mul_self op)) = true /\
      isIntOrFloat (getElementType (mul_type op)) = true /\
      exists m lhs,
        (emitted st' = emitted st ++ [m] /\ lhs = mul_self op \/
         exists c, emitted st' = emitted st ++ [c; m] /\
                   opName c = tosa_cast /\ opOperands c = [mul_self op] /\
                   vtype (opResult c) = mul_type op /\ lhs = opResult c) /\
        opName m = tosa_mul /\ opOperands m = [lhs; mul_other op] /\
        opAttr m = IntegerAttr 0 /\
        vtype (opResult m) = mul_type op /\
        replacement st' = ReplacedBy (opResult m) /\
        getElementType (vtype lhs) = getElementType (mul_type op)
  | failure msg => msg = msgOnlyTensor \/ msg = msgOnlyIntOrFloat
  | assertionFailed _ => False
  end.
Proof.
  intros Hk Hr.
  unfold ConvertAtenMulOp_matchAndRewrite, dyn_cast_TensorType.
  destruct (isTensorType (vtype (mul_self op))) eqn:Hl;
    [ | left; reflexivity].
  destruct (isIntOrFloat (getElementType (mul_type op))) eqn:Ho;
    cbn [negb]; [ | right; reflexivity].
  assert (Ho' : isFloatType (getElementType (mul_type op)) ||
                isIntegerType (getElementType (mul_type op)) = true)
    by exact Ho.
  rewrite Ho', Hr.
  destruct k; try congruence;
    unfold replaceOpWithNewOp, bind, ret, create, replaceOp;
    (destruct (ElemType_eqb (getElementType (vtype (mul_self op)))
                            (getElementType (mul_type op))) eqn:E;
     cbn [negb];
     (split; [reflexivity | split; [reflexivity | ]]);
     eexists _, _; cbn;
     [split; [left; split; reflexivity | ];
      do 5 (split; [reflexivity | ]); now apply ElemType_eqb_eq
     |split; [right; eexists; rewrite <- app_assoc; cbn;
              split; [reflexivity | repeat split] | ];
      repeat split]).
Qed.

(** ** Pooling *)

Lemma sdiv_nonneg (a b : Z) :
  0 <= a -> 1 <= b -> sdiv a b = Some (a / b).
Proof.
  intros Ha Hb. unfold sdiv.
  assert (E1 : (b =? 0) = false) by (apply Z.eqb_neq; lia).
  assert (E2 : (b =? -1) = false) by (apply Z.eqb_neq; lia).
  rewrite E1, E2, andb_false_r. cbn [orb].
  now rewrite Z.quot_div_nonneg by lia.
Qed.

Lemma getOutputDim_window (i k s p : Z) :
  0 <= i -> 1 <= s -> 0 <= p -> k <= i + 2 * p -> i + 2 * p - k < 2 ^ 62 ->
  exists o,
    getOutputDim i k s p p 1 = Some o /\
    1 <= o /\ (o - 1) * s + k <= i + 2 * p < o * s + k.
Proof.
  intros Hi Hs Hp Hk Hb. unfold getOutputDim.
  assert (E : (i =? kUnknownSize) = false)
    by (apply Z.eqb_neq; unfold kUnknownSize; lia).
  rewrite E.
  replace (i + p + p - 1 * (k - 1) - 1) with (i + 2 * p - k) by lia.
  assert (H62 : 2 ^ 62 < 2 ^ 63) by (apply Z.pow_lt_mono_r; lia).
  rewrite wrap64_small by lia.
  rewrite sdiv_nonneg by lia.
  pose proof (Z.div_pos (i + 2 * p - k) s ltac:(lia) ltac:(lia)) as Hq0.
  pose proof (Z.mul_div_le (i + 2 * p - k) s ltac:(lia)) as Hq1.
  pose proof (Z.mul_succ_div_gt (i + 2 * p - k) s ltac:(lia)) as Hq2.
  assert (Hq3 : (i + 2 * p - k) / s <= i + 2 * p - k)
    by (apply Z.div_le_upper_bound; nia).
  rewrite wrap64_small by lia.
  eexists. split; [reflexivity | ]. nia.
Qed.

(** X13.  The input side of max pooling on a statically shaped NCHW tensor
    with constant kernel, stride (at least 1) and padding, unit dilation and
    ceil_mode false, the kernel not exceeding the padded input: the
    parameters are handed on with the padding doubled to (top, bottom, left,
    right), the input is transposed to NHWC, and the output type is
    [N, OH, OW, C] where OH (and likewise OW) is the number of kernel
    positions at that stride: the last window still fits in the padded
    input and one more would not. *)
Theorem maxpool_output_size
    (op : AtenMaxPool2dOp) (N C H W kh kw sh sw ph pw : Z) (e : ElemType)
    (st : RewriterState) :
  vtype (maxpool_self op) = RankedTensorType [N; C; H; W] e ->
  m_TorchListOfConstantInts (maxpool_kernel_size op) = Some [kh; kw] ->
  m_TorchListOfConstantInts (maxpool_stride op) = Some [sh; sw] ->
  m_TorchListOfConstantInts (maxpool_padding op) = Some [ph; pw] ->
  m_TorchListOfConstantInts (maxpool_dilation op) = Some [1; 1] ->
  m_TorchConstantBool (maxpool_ceil_mode op) = Some false ->
  0 <= N -> 0 <= C -> 0 <= H -> 0 <= W ->
  1 <= sh -> 1 <= sw -> 0 <= ph -> 0 <= pw ->
  kh <= H + 2 * ph -> kw <= W + 2 * pw ->
  H + 2 * ph - kh < 2 ^ 62 -> W + 2 * pw - kw < 2 ^ 62 ->
  exists r st' oh ow,
    ConvertAtenMaxPool2dOp_processInputs op st = success (r, st') /\
    pool_kernel r = [kh; kw] /\ pool_stride r = [sh; sw] /\
    pool_pad r = [ph; ph; pw; pw] /\
    vtype (pool_input r) = RankedTensorType [N; H; W; C] e /\
    pool_outputTy r = RankedTensorType [N; oh; ow; C] e /\
    1 <= oh /\ (oh - 1) * sh + kh <= H + 2 * ph < oh * sh + kh /\
    1 <= ow /\ (ow - 1) * sw + kw <= W + 2 * pw < ow * sw + kw.
Proof.
  intros Hty Hk Hs Hp Hd Hc HN HC HH HW Hsh Hsw Hph Hpw Hkh Hkw HbH HbW.
  destruct (@getOutputDim_window H kh sh ph HH Hsh Hph Hkh HbH)
    as (oh & Hoh & Hoh1 & Hoh2).
  destruct (@getOutputDim_window W kw sw pw HW Hsw Hpw Hkw HbW)
    as (ow & How & How1 & How2).
  assert (Hin : Forall (fun d => 0 <= d) [N; C; H; W])
    by (repeat constructor; assumption).
  assert (Hout : Forall (fun d => 0 <= d) [N; oh; ow; C])
    by (repeat constructor; lia).
  assert (Hhwc : Forall (fun d => 0 <= d) [N; H; W; C])
    by (repeat constructor; assumption).
  unfold ConvertAtenMaxPool2dOp_processInputs. rewrite Hd.
  change (at_ [1; 1] 0 >? 1) with false. change (at_ [1; 1] 1 >? 1) with false.
  cbn [orb].
  unfold getOutputTypeAndPoolingParameters, orFail, bind at 1.
  rewrite Hty, Hk, Hs, Hp, Hc. unfold getRank.
  cbn [isRankedTensorType getShape negb List.length Z.of_nat Pos.of_succ_nat
       Pos.succ Z.eqb Pos.eqb andb].
  unfold getOutputTypeForNonAdaptivePoolingOp, getRank.
  cbn [getShape List.length Z.of_nat Pos.of_succ_nat Pos.succ getElementType].
  rewrite (makeShapeTorchCompatible_nonneg Hin).
  change (at_ [N; C; H; W] (4 - 2)) with H.
  change (at_ [N; C; H; W] (4 - 1)) with W.
  change (at_ [N; C; H; W] (4 - 3)) with C.
  change (at_ [N; C; H; W] 0) with N.
  change (at_ [kh; kw] 0) with kh. change (at_ [kh; kw] 1) with kw.
  change (at_ [sh; sw] 0) with sh. change (at_ [sh; sw] 1) with sw.
  change (at_ [ph; pw] 0) with ph. change (at_ [ph; pw] 1) with pw.
  change (at_ [1; 1] 0) with 1. change (at_ [1; 1] 1) with 1.
  rewrite Hoh, How. change (4 >? 3) with true. cbn [app].
  rewrite (makeShapeLLVMCompatible_static Hout).
  unfold orAbort, bind, ret, transposePoolingInputToHwc, transposeTensor,
    getConstTensor_int, create.
  rewrite Hty. unfold getRank.
  cbn [getShape List.length Z.of_nat Pos.of_succ_nat Pos.succ getElementType
       Z.eqb Pos.eqb].
  rewrite (makeShapeTorchCompatible_nonneg Hin).
  change (map (at_ [N; C; H; W]) [0; 2; 3; 1]) with [N; H; W; C].
  rewrite (makeShapeLLVMCompatible_static Hhwc).
  eexists _, _, oh, ow. split; [reflexivity | ].
  cbn [pool_kernel pool_stride pool_pad pool_input pool_outputTy vtype].
  repeat split; try reflexivity; lia.
Qed.

Lemma getOutputDim_adaptive (i o : Z) :
  1 <= o <= i -> i < 2 ^ 62 ->
  1 <= i / o /\
  1 <= i - (o - 1) * (i / o) <= i /\
  getOutputDim i (i - (o - 1) * (i / o)) (i / o) 0 0 1 = Some o.
Proof.
  intros Ho Hi.
  pose proof (Z.mul_div_le i o ltac:(lia)) as H1.
  pose proof (Z.mul_succ_div_gt i o ltac:(lia)) as H2.
  assert (Hs : 1 <= i / o) by (apply Z.div_le_lower_bound; lia).
  assert (H62 : 2 ^ 62 < 2 ^ 63) by (apply Z.pow_lt_mono_r; lia).
  split; [exact Hs | ]. split; [nia | ].
  unfold getOutputDim.
  assert (E : (i =? kUnknownSize) = false)
    by (apply Z.eqb_neq; unfold kUnknownSize; lia).
  rewrite E.
  replace (i + 0 + 0 - 1 * (i - (o - 1) * (i / o) - 1) - 1)
    with ((o - 1) * (i / o)) by lia.
  rewrite wrap64_small by nia.
  rewrite sdiv_nonneg by nia.
  rewrite Z.div_mul by lia.
  rewrite wrap64_small by lia. f_equal. lia.
Qed.

(** X14.  The input side of adaptive average pooling on a statically shaped
    NCHW tensor, for a constant output size [oh, ow] with [1 <= oh <= H] and
    [1 <= ow <= W]: the stride it makes up is [H / oh] (at least 1), the
    kernel is [H - (oh - 1) * stride] (between 1 and H), the padding is zero,
    and the output type is [N, oh, ow, C].  Kernel and stride fit the
    requested size: the output size that non-adaptive pooling computes from
    them, by [getOutputDim], is [oh] again, and likewise for the width. *)
Theorem adaptive_pool_kernel_fits_output_size
    (op : AtenAdaptiveAvgPool2dOp) (N C H W oh ow : Z) (e : ElemType)
    (st : RewriterState) :
  vtype (adaptive_self op) = RankedTensorType [N; C; H; W] e ->
  m_TorchListOfConstantInts (adaptive_output_size op) = Some [oh; ow] ->
  0 <= N -> 0 <= C -> 1 <= oh <= H -> 1 <= ow <= W ->
  H < 2 ^ 62 -> W < 2 ^ 62 ->
  let sH := H / oh in
  let sW := W / ow in
  let kH := H - (oh - 1) * sH in
  let kW := W - (ow - 1) * sW in
  exists r st',
    ConvertAtenAdaptivePoolingOp_processInputs op st = success (r, st') /\
    pool_stride r = [sH; sW] /\ pool_kernel r = [kH; kW] /\
    pool_pad r = [0; 0; 0; 0] /\
    vtype (pool_input r) = RankedTensorType [N; H; W; C] e /\
    pool_outputTy r = RankedTensorType [N; oh; ow; C] e /\
    1 <= sH /\ 1 <= kH <= H /\ 1 <= sW /\ 1 <= kW <= W /\
    getOutputDim H kH sH 0 0 1 = Some oh /\
    getOutputDim W kW sW 0 0 1 = Some ow.
Proof.
  intros Hty Hos HN HC Hoh How HH HW sH sW kH kW.
  destruct (@getOutputDim_adaptive H oh Hoh HH) as (HsH & HkH & HdH).
  destruct (@getOutputDim_adaptive W ow How HW) as (HsW & HkW & HdW).
  fold sH kH in HsH, HkH, HdH. fold sW kW in HsW, HkW, HdW.
  assert (H62 : 2 ^ 62 < 2 ^ 63) by (apply Z.pow_lt_mono_r; lia).
  assert (Hin : Forall (fun d => 0 <= d) [N; C; H; W])
    by (repeat constructor; lia).
  assert (Hout : Forall (fun d => 0 <= d) [N; oh; ow; C])
    by (repeat constructor; lia).
  assert (Hhwc : Forall (fun d => 0 <= d) [N; H; W; C])
    by (repeat constructor; lia).
  unfold ConvertAtenAdaptivePoolingOp_processInputs.
  rewrite Hty, Hos. unfold getRank.
  cbn [isRankedTensorType getShape negb List.length Z.of_nat Pos.of_succ_nat
       Pos.succ Z.eqb Pos.eqb andb Nat.eqb getElementType].
  rewrite bind_assert_true.
  rewrite (makeShapeTorchCompatible_nonneg Hin).
  change (at_ [N; C; H; W] (4 - 2)) with H.
  change (at_ [N; C; H; W] (4 - 1)) with W.
  change (at_ [N; C; H; W] (4 - 3)) with C.
  change (at_ [N; C; H; W] 0) with N.
  change (at_ [oh; ow] 0) with oh. change (at_ [oh; ow] 1) with ow.
  assert (E1 : (oh <=? 0) = false) by (apply Z.leb_gt; lia).
  assert (E2 : (ow <=? 0) = false) by (apply Z.leb_gt; lia).
  rewrite E1, E2.
  unfold bind at 1. unfold ret at 1.
  unfold bind at 1. rewrite sdiv_nonneg by lia. unfold orAbort at 1.
  unfold bind at 1. rewrite sdiv_nonneg by lia. unfold orAbort at 1.
  fold sH sW kH kW.
  rewrite !wrap64_small by lia.
  change (4 >? 3) with true. cbn [app].
  rewrite (makeShapeLLVMCompatible_static Hout).
  unfold bind, ret, transposePoolingInputToHwc, transposeTensor,
    getConstTensor_int, create.
  rewrite Hty. unfold getRank.
  cbn [getShape List.length Z.of_nat Pos.of_succ_nat Pos.succ getElementType
       Z.eqb Pos.eqb].
  rewrite (makeShapeTorchCompatible_nonneg Hin).
  change (map (at_ [N; C; H; W]) [0; 2; 3; 1]) with [N; H; W; C].
  rewrite (makeShapeLLVMCompatible_static Hhwc).
  eexists _, _. split; [reflexivity | ].
  cbn [pool_kernel pool_stride pool_pad pool_input pool_outputTy vtype].
  repeat split; try reflexivity; try assumption; lia.
Qed.

(** X15.  The two transposes around a pooling operation undo each other:
    for a tensor of rank 3 or 4 (CHW or NCHW), moving the channels last and
    then first again gives a value of the type of the input, after creating
    the two dims constants and the two [tosa.transpose]. *)
Theorem pooling_transposes_round_trip
    (x : Value) (pre : list Z) (C H W : Z) (e : ElemType)
    (st : RewriterState) :
  vtype x = RankedTensorType (pre ++ [C; H; W]) e ->
  (List.length pre <= 1)%nat ->
  Forall wellFormedDim (pre ++ [C; H; W]) ->
  exists y z st1 st2 c1 t1 c2 t2,
    transposePoolingInputToHwc x st = success (y, st1) /\
    transposePoolingOutputToChw y st1 = success (z, st2) /\
    emitted st2 = emitted st ++ [c1; t1; c2; t2] /\
    opName t1 = tosa_transpose /\ opOperands t1 = [x; opResult c1] /\
    opResult t1 = y /\
    opName t2 = tosa_transpose /\ opOperands t2 = [y; opResult c2] /\
    opResult t2 = z /\
    vtype y = RankedTensorType (pre ++ [H; W; C]) e /\
    vtype z = vtype x.
Proof.
  intros Hty Hlen Hwf.
  assert (Hrt : forall l, Forall wellFormedDim l ->
            makeShapeLLVMCompatible (makeShapeTorchCompatible l) = l)
    by (intros l; apply makeShapeLLVMCompatible_Torch).
  destruct pre as [ | N [ | ? ?]]; [ | | simpl in Hlen; lia]; cbn [app] in *.
  - (* CHW *)
    assert (Hwf' : Forall wellFormedDim [H; W; C]).
    { inversion Hwf as [ | ? ? HC Ht]; subst.
      inversion Ht as [ | ? ? HH Ht']; subst.
      inversion Ht' as [ | ? ? HW _]; subst.
      repeat (apply Forall_cons; [assumption | ]). apply Forall_nil. }
    do 8 eexists. split.
    { unfold transposePoolingInputToHwc, transposeTensor, getConstTensor_int,
        bind, create.
      rewrite Hty. unfold getRank.
      cbn [getShape List.length Z.of_nat Pos.of_succ_nat Pos.succ
           getElementType Z.eqb Pos.eqb vtype].
      change (map (at_ (makeShapeTorchCompatible [C; H; W])) [1; 2; 0])
        with (makeShapeTorchCompatible [H; W; C]).
      rewrite (Hrt _ Hwf'). reflexivity. }
    split.
    { unfold transposePoolingOutputToChw, transposeTensor, getConstTensor_int,
        bind, create. unfold getRank.
      cbn [getShape List.length Z.of_nat Pos.of_succ_nat Pos.succ
           getElementType Z.eqb Pos.eqb vtype].
      change (map (at_ (makeShapeTorchCompatible [H; W; C])) [2; 0; 1])
        with (makeShapeTorchCompatible [C; H; W]).
      rewrite (Hrt _ Hwf). reflexivity. }
    cbn [emitted]. rewrite <- !app_assoc. cbn [app].
    split; [reflexivity | ]. rewrite Hty. repeat split.
  - (* NCHW *)
    assert (Hwf' : Forall wellFormedDim [N; H; W; C]).
    { inversion Hwf as [ | ? ? HN Ht0]; subst.
      inversion Ht0 as [ | ? ? HC Ht]; subst.
      inversion Ht as [ | ? ? HH Ht']; subst.
      inversion Ht' as [ | ? ? HW _]; subst.
      repeat (apply Forall_cons; [assumption | ]). apply Forall_nil. }
    do 8 eexists. split.
    { unfold transposePoolingInputToHwc, transposeTensor, getConstTensor_int,
        bind, create.
      rewrite Hty. unfold getRank.
      cbn [getShape List.length Z.of_nat Pos.of_succ_nat Pos.succ
           getElementType Z.eqb Pos.eqb vtype].
      change (map (at_ (makeShapeTorchCompatible [N; C; H; W])) [0; 2; 3; 1])
        with (makeShapeTorchCompatible [N; H; W; C]).
      rewrite (Hrt _ Hwf'). reflexivity. }
    split.
    { unfold transposePoolingOutputToChw, transposeTensor, getConstTensor_int,
        bind, create. unfold getRank.
      cbn [getShape List.length Z.of_nat Pos.of_succ_nat Pos.succ
           getElementType Z.eqb Pos.eqb vtype].
      change (map (at_ (makeShapeTorchCompatible [N; H; W; C])) [0; 3; 1; 2])
        with (makeShapeTorchCompatible [N; C; H; W]).
      rewrite (Hrt _ Hwf). reflexivity. }
    cbn [emitted]. rewrite <- !app_assoc. cbn [app].
    split; [reflexivity | ]. rewrite Hty. repeat split.
Qed.

(** ** Matrix multiplication behind [aten.mm], [aten.bmm] and [aten.linear] *)

Lemma getRankBroadcastedShape_vtype (n : Z) (a b : Value) (isRHS : bool) :
  vtype a = vtype b ->
  getRankBroadcastedShape n a isRHS = getRankBroadcastedShape n b isRHS.
Proof. unfold getRankBroadcastedShape. now intros ->. Qed.

(** The matmul shape law for operands that are any values of static tensor
    types: the shape of what [performMatmul] returns is
    [broadcast(batchA, batchB) ++ [M; N]]. *)
Lemma performMatmul_static_shape
    (lhs rhs : Value) (batchA batchB batch : list Z) (M K N : Z)
    (e : ElemType) (st : RewriterState) :
  vtype lhs = RankedTensorType (batchA ++ [M; K]) e ->
  vtype rhs = RankedTensorType (batchB ++ [K; N]) e ->
  Forall (fun d => 0 <= d) (batchA ++ [M; K]) ->
  Forall (fun d => 0 <= d) (batchB ++ [K; N]) ->
  broadcastShapes batchA batchB = Some batch ->
  Z.of_nat (Nat.max (List.length batchA) (List.length batchB)) + 2 < 2 ^ 31 ->
  exists out st',
    performMatmul lhs rhs st = success (out, st') /\
    getShape (vtype out) = batch ++ [M; N].
Proof.
  intros HtyL HtyR HsA HsB Hb Hsmall.
  set (nb := Nat.max (List.length batchA) (List.length batchB)) in *.
  assert (HleA : (List.length batchA <= nb)%nat) by (unfold nb; lia).
  assert (HleB : (List.length batchB <= nb)%nat) by (unfold nb; lia).
  assert (HrkL : getRank (vtype lhs) = Z.of_nat (List.length batchA) + 2).
  { unfold getRank. rewrite HtyL. cbn [getShape].
    rewrite length_app. simpl. lia. }
  assert (HrkR : getRank (vtype rhs) = Z.of_nat (List.length batchB) + 2).
  { unfold getRank. rewrite HtyR. cbn [getShape].
    rewrite length_app. simpl. lia. }
  pose proof (performMatmul_output lhs rhs st) as Hout.
  cbv zeta in Hout. rewrite HrkL, HrkR in Hout.
  (* the maximal rank *)
  match type of Hout with
  | context [if ?m =? 1 then ?m + 1 else ?m] =>
      assert (Hmax : (if m =? 1 then m + 1 else m) = Z.of_nat nb + 2)
  end.
  { pose proof (Zgt_cases (Z.of_nat (List.length batchA) + 2)
                          (Z.of_nat (List.length batchB) + 2)) as Hc.
    destruct (Z.of_nat (List.length batchA) + 2 >?
              Z.of_nat (List.length batchB) + 2);
      match goal with |- context [?x =? 1] =>
        destruct (x =? 1) eqn:E1; [apply Z.eqb_eq in E1 | ] end;
      unfold nb; lia. }
  rewrite Hmax in Hout.
  set (pa := padLeft nb batchA) in *. set (pb := padLeft nb batchB) in *.
  assert (HlB : getRankBroadcastedShape (Z.of_nat nb + 2) lhs false
                = pa ++ [M; K]).
  { rewrite (@getRankBroadcastedShape_vtype _ lhs
               (tensor 0 (batchA ++ [M; K]) e) false HtyL).
    now apply getRankBroadcastedShape_padLeft. }
  assert (HrB : getRankBroadcastedShape (Z.of_nat nb + 2) rhs true
                = pb ++ [K; N]).
  { rewrite (@getRankBroadcastedShape_vtype _ rhs
               (tensor 0 (batchB ++ [K; N]) e) true HtyR).
    now apply getRankBroadcastedShape_padLeft. }
  rewrite HlB, HrB in Hout.
  assert (Hlpa : List.length pa = nb) by now apply padLeft_length.
  assert (Hlpb : List.length pb = nb) by now apply padLeft_length.
  assert (HsA' : Forall (fun d => 0 <= d) (pa ++ [M; K])).
  { apply Forall_app in HsA. destruct HsA as [H1 H2].
    apply Forall_app. split; [now apply padLeft_nonneg | exact H2]. }
  assert (HsB' : Forall (fun d => 0 <= d) (pb ++ [K; N])).
  { apply Forall_app in HsB. destruct HsB as [H1 H2].
    apply Forall_app. split; [now apply padLeft_nonneg | exact H2]. }
  assert (Hbatch : Forall (fun d => 0 <= d) batch).
  { apply Forall_app in HsA'. apply Forall_app in HsB'.
    apply (@broadcast_nonneg pa pb batch); tauto. }
  assert (HMN : Forall (fun d => 0 <= d) (batch ++ [M; N])).
  { apply Forall_app. split; [exact Hbatch | ].
    apply Forall_app in HsA. apply Forall_app in HsB.
    destruct HsA as [_ HA]. destruct HsB as [_ HB].
    apply Forall_inv in HA. apply Forall_inv_tail, Forall_inv in HB.
    repeat constructor; assumption. }
  assert (He : ElemType_eqb (getElementType (vtype lhs))
                           (getElementType (vtype rhs)) = true)
    by (rewrite HtyL, HtyR; apply ElemType_eqb_refl).
  destruct (Hout He)
    as (out & st' & info & tl & tr & Hrun & Hno & Hyes & Hshape).
  exists out, st'. split; [exact Hrun | ]. rewrite Hshape.
  rewrite <- (makeShapeLLVMCompatible_static HMN). f_equal.
  clear Hshape Hrun Hout.
  unfold broadcastShapes in Hb. fold nb pa pb in Hb. cbv zeta in Hb.
  (* the rank-broadcast operands have the padded shapes *)
  assert (HtlA : makeShapeTorchCompatible
                   (getShape
                      (if Z.of_nat (List.length batchA) + 2 =? Z.of_nat nb + 2
                       then vtype lhs
                       else RankedTensorType
                              (makeShapeLLVMCompatible (pa ++ [M; K]))
                              (getElementType (vtype lhs))))
                 = pa ++ [M; K]).
  { destruct (Z.of_nat (List.length batchA) + 2 =? Z.of_nat nb + 2) eqn:E.
    - apply Z.eqb_eq in E. unfold pa, padLeft. rewrite HtyL.
      cbn [getShape].
      replace (nb - List.length batchA)%nat with 0%nat by lia.
      now apply makeShapeTorchCompatible_nonneg.
    - cbn [getShape]. rewrite (makeShapeLLVMCompatible_static HsA').
      now apply makeShapeTorchCompatible_nonneg. }
  assert (HtlB : makeShapeTorchCompatible
                   (getShape
                      (if Z.of_nat (List.length batchB) + 2 =? Z.of_nat nb + 2
                       then vtype rhs
                       else RankedTensorType
                              (makeShapeLLVMCompatible (pb ++ [K; N]))
                              (getElementType (vtype rhs))))
                 = pb ++ [K; N]).
  { destruct (Z.of_nat (List.length batchB) + 2 =? Z.of_nat nb + 2) eqn:E.
    - apply Z.eqb_eq in E. unfold pb, padLeft. rewrite HtyR.
      cbn [getShape].
      replace (nb - List.length batchB)%nat with 0%nat by lia.
      now apply makeShapeTorchCompatible_nonneg.
    - cbn [getShape]. rewrite (makeShapeLLVMCompatible_static HsB').
      now apply makeShapeTorchCompatible_nonneg. }
  assert (HshA : nb = 0%nat ->
                 makeShapeTorchCompatible (getShape (vtype lhs)) = [M; K]).
  { intros H0. rewrite HtyL. cbn [getShape].
    rewrite (makeShapeTorchCompatible_nonneg HsA).
    destruct batchA; [reflexivity | simpl in HleA; lia]. }
  assert (HshB : nb = 0%nat ->
                 makeShapeTorchCompatible (getShape (vtype rhs)) = [K; N]).
  { intros H0. rewrite HtyR. cbn [getShape].
    rewrite (makeShapeTorchCompatible_nonneg HsB).
    destruct batchB; [reflexivity | simpl in HleB; lia]. }
  assert (HgtA : (Z.of_nat (List.length batchA) + 2 >? 1) = true)
    by (apply Z.gtb_lt; lia).
  assert (HgtB : (Z.of_nat (List.length batchB) + 2 >? 1) = true)
    by (apply Z.gtb_lt; lia).
  clearbody pa pb.
  destruct (needsBatchDimBroadcast (Z.of_nat nb + 2) (pa ++ [M; K])
                                   (pb ++ [K; N])) eqn:Hn.
  - (* batch broadcast *)
    assert (H3 : 3 <= Z.of_nat nb + 2).
    { unfold needsBatchDimBroadcast in Hn.
      destruct (Z.of_nat nb + 2 <? 3) eqn:E; [discriminate | ].
      apply Z.ltb_ge in E. exact E. }
    rewrite andb_false_r. cbn [negb]. rewrite (Hyes eq_refl).
    clearbody nb. subst nb.
    destruct (computeOpShape _ _ _ _ _ _ _ _ _) as [[rs td] ts] eqn:Hcs.
    refine (@computeOpShape_broadcast pa pb batch M K N _ _ _ _ _ rs td ts
              _ _ _ _ _ _ _ Hcs); try assumption; [congruence | lia].
  - (* no batch broadcast *)
    destruct (Hno eq_refl) as [-> Htl]. cbn [negb]. rewrite andb_true_r.
    destruct (Z.of_nat nb + 2 =? 3) eqn:E3; cbn [negb].
    + (* rank 3 with equal batch sizes *)
      apply Z.eqb_eq in E3. destruct (Htl E3) as [-> ->].
      rewrite HtlA, HtlB.
      assert (Hnb : nb = 1%nat) by lia.
      destruct pa as [ | p [ | ? ?]]; simpl in Hlpa; try lia.
      destruct pb as [ | q [ | ? ?]]; simpl in Hlpb; try lia.
      unfold needsBatchDimBroadcast in Hn. rewrite E3 in Hn. simpl in Hn.
      destruct (at_ [p; M; K] 0 =? at_ [q; K; N] 0) eqn:E0; [ | discriminate].
      apply Z.eqb_eq in E0. change (p = q) in E0. subst q.
      simpl in Hb. unfold broadcastDim in Hb. rewrite Z.eqb_refl in Hb.
      injection Hb as <-. reflexivity.
    + (* rank 2 *)
      assert (Hnb : nb = 0%nat).
      { unfold needsBatchDimBroadcast in Hn. apply Z.eqb_neq in E3.
        destruct (Z.of_nat nb + 2 <? 3) eqn:E; [apply Z.ltb_lt in E; lia | ].
        assert (E3' : (Z.of_nat nb + 2 =? 3) = false) by now apply Z.eqb_neq.
        rewrite E3' in Hn. discriminate. }
      destruct pa; simpl in Hlpa; [ | lia].
      destruct pb; simpl in Hlpb; [ | lia].
      simpl in Hb. injection Hb as <-.
      rewrite (HshA Hnb), (HshB Hnb).
      assert (EA : List.length batchA = 0%nat) by lia.
      assert (EB : List.length batchB = 0%nat) by lia.
      rewrite EA, EB, Hnb. reflexivity.
Qed.

(** X16.  [aten.linear] on a statically shaped input [batchA ++ [M; K]] and
    weight [batchB ++ [N; K]] of rank 2 or 3 and of one element type, with
    broadcast-compatible batch dims and a bias that is absent or a tensor:
    the weight is first transposed on its last two dims, to
    [batchB ++ [K; N]]; [performMatmul] of the input and the transposed
    weight gives a value of shape [broadcast(batchA, batchB) ++ [M; N]];
    when a bias is given one [tosa.add] of that value and the bias follows;
    and a [tensor.cast] to the result type, reading the sum (or the product
    when there is no bias), replaces the operation. *)
Theorem linear_transposes_weight_and_adds_bias
    (op : AtenLinearOp) (batchA batchB batch : list Z) (M K N : Z)
    (e : ElemType) (st : RewriterState) :
  vtype (linear_input op) = RankedTensorType (batchA ++ [M; K]) e ->
  vtype (linear_weight op) = RankedTensorType (batchB ++ [N; K]) e ->
  (List.length batchA <= 1)%nat -> (List.length batchB <= 1)%nat ->
  Forall (fun d => 0 <= d) (batchA ++ [M; K]) ->
  Forall (fun d => 0 <= d) (batchB ++ [N; K]) ->
  broadcastShapes batchA batchB = Some batch ->
  isNoneType (vtype (linear_bias op)) || isTensorType (vtype (linear_bias op))
    = true ->
  exists c t st2 mm st3 final st',
    ConvertAtenLinearOp_matchAndRewrite op st = success (tt, st') /\
    emitted st2 = emitted st ++ [c; t] /\
    opName c = tosa_const /\
    opAttr c =
      DenseIntElements 32
        (iota (Z.of_nat (List.length batchB)) ++
         [Z.of_nat (List.length batchB) + 1; Z.of_nat (List.length batchB)]) /\
    opName t = tosa_transpose /\
    opOperands t = [linear_weight op; opResult c] /\
    vtype (opResult t) = RankedTensorType (batchB ++ [K; N]) e /\
    performMatmul (linear_input op) (opResult t) st2 = success (mm, st3) /\
    getShape (vtype mm) = batch ++ [M; N] /\
    (if isNoneType (vtype (linear_bias op))
     then emitted st' = emitted st3 ++ [final] /\ opOperands final = [mm]
     else exists add,
            emitted st' = emitted st3 ++ [add; final] /\
            opName add = tosa_add /\
            opOperands add = [mm; linear_bias op] /\
            vtype (opResult add) = vtype mm /\
            opOperands final = [opResult add]) /\
    opName final = tensor_cast /\
    vtype (opResult final) = linear_type op /\
    replacement st' = ReplacedBy (opResult final).
Proof.
  intros HtyI HtyW HlA HlB HsA HsB Hb Hbias.
  assert (HsT : Forall (fun d => 0 <= d) (batchB ++ [K; N])).
  { apply Forall_app in HsB. destruct HsB as [H1 H2].
    apply Forall_app. split; [exact H1 | ].
    apply Forall_inv in H2 as HN. apply Forall_inv_tail, Forall_inv in H2.
    repeat constructor; assumption. }
  assert (Hsmall : Z.of_nat (Nat.max (List.length batchA) (List.length batchB))
                   + 2 < 2 ^ 31) by (simpl; lia).
  assert (Hread : ConvertAtenLinearOp_readMatMulInputs op st
                  = success ((linear_input op, linear_weight op), st)).
  { unfold ConvertAtenLinearOp_readMatMulInputs.
    rewrite HtyI, HtyW.
    rewrite (hasStaticShape_nonneg e HsA), (hasStaticShape_nonneg e HsB).
    unfold getRank. cbn [isRankedTensorType getShape negb orb].
    destruct batchA as [ | a [ | ? ?]]; [ | | simpl in HlA; lia];
      destruct batchB as [ | b [ | ? ?]]; try (simpl in HlB; lia);
      reflexivity. }
  assert (Hb' : negb (isNoneType (vtype (linear_bias op))) &&
                negb (isTensorType (vtype (linear_bias op))) = false).
  { rewrite <- negb_orb, Hbias. reflexivity. }
  set (r := Z.of_nat (List.length (batchB ++ [N; K]))).
  assert (Hdims : swapAt (toI32 (iota r)) (r - 1) (r - 2)
                  = iota (Z.of_nat (List.length batchB)) ++
                    [Z.of_nat (List.length batchB) + 1;
                     Z.of_nat (List.length batchB)]).
  { unfold r. destruct batchB as [ | b [ | ? ?]]; [ | | simpl in HlB; lia];
      reflexivity. }
  assert (Hshape : swapAt (makeShapeTorchCompatible (batchB ++ [N; K]))
                          (r - 1) (r - 2)
                   = batchB ++ [K; N]).
  { rewrite (makeShapeTorchCompatible_nonneg HsB). unfold r.
    destruct batchB as [ | b [ | ? ?]]; [ | | simpl in HlB; lia];
      reflexivity. }
  unfold ConvertAtenLinearOp_matchAndRewrite, orFail at 1, bind at 1.
  rewrite Hread, Hb', HtyW. unfold getRank.
  cbn [getShape getElementType]. fold r. rewrite Hdims, Hshape.
  rewrite (makeShapeLLVMCompatible_static HsT).
  unfold getConstTensor_int. unfold bind at 1, create at 1.
  unfold bind at 1, create at 1. cbn [nextId emitted replacement].
  set (c := mkOperation tosa_const _ _ _).
  set (t := mkValue (S (nextId st)) _ _).
  set (st2 := mkState _ _ _).
  assert (Hty_t : vtype t = RankedTensorType (batchB ++ [K; N]) e)
    by reflexivity.
  destruct (@performMatmul_static_shape (linear_input op) t batchA batchB
              batch M K N e st2 HtyI Hty_t HsA HsT Hb Hsmall)
    as (mm & st3 & Hrun & Hmm).
  unfold bind at 1, orFail. rewrite Hrun.
  unfold replaceOpWithNewOp, bind, create, replaceOp, ret.
  exists c, (mkOperation tosa_transpose [linear_weight op; opResult c] NoAttr t),
    st2, mm, st3.
  destruct (isNoneType (vtype (linear_bias op))); cbn [negb].
  - eexists _, _. split; [reflexivity | ].
    split; [unfold st2; cbn [emitted]; now rewrite <- app_assoc | ].
    repeat split; try assumption; reflexivity.
  - eexists _, _. split; [reflexivity | ].
    split; [unfold st2; cbn [emitted]; now rewrite <- app_assoc | ].
    do 7 (split; [first [reflexivity | assumption] | ]).
    split.
    { eexists. cbn [emitted]. rewrite <- app_assoc. cbn [app].
      split; [reflexivity | ]. repeat split; reflexivity. }
    repeat split; reflexivity.
Qed.


(** X17.  The rewrite shared by [aten.matmul], [aten.mm] and [aten.bmm]: with
    operands of static shapes [batchA ++ [M; K]] and [batchB ++ [K; N]] whose
    ranks the variant admits, the pattern succeeds; what [performMatmul]
    returns has shape [broadcast(batchA, batchB) ++ [M; N]] and is cast to the
    operation's own result type by one [tensor.cast], which replaces the
    operation.  [aten.bmm] thus takes batch sizes that only broadcast. *)
Theorem matmul_variants_cast_to_result_type
    (variant : MatmulVariant) (op : AtenMatmulOp)
    (batchA batchB batch : list Z) (M K N : Z)
    (e : ElemType) (st : RewriterState) :
  vtype (matmul_self op) = RankedTensorType (batchA ++ [M; K]) e ->
  vtype (matmul_other op) = RankedTensorType (batchB ++ [K; N]) e ->
  Forall (fun d => 0 <= d) (batchA ++ [M; K]) ->
  Forall (fun d => 0 <= d) (batchB ++ [K; N]) ->
  broadcastShapes batchA batchB = Some batch ->
  Z.of_nat (Nat.max (List.length batchA) (List.length batchB)) + 2 < 2 ^ 31 ->
  match variant with
  | ConvertAtenMatMulOp => True
  | ConvertAtenMmOp_Mm => batchA = [] /\ batchB = []
  | ConvertAtenMmOp_Bmm =>
      List.length batchA = 1%nat /\ List.length batchB = 1%nat
  end ->
  exists out st1 final st',
    performMatmul (matmul_self op) (matmul_other op) st = success (out, st1) /\
    getShape (vtype out) = batch ++ [M; N] /\
    ConvertAtenMatmulBaseOp_matchAndRewrite variant op st = success (tt, st') /\
    emitted st' = emitted st1 ++ [final] /\
    opName final = tensor_cast /\
    opOperands final = [out] /\
    vtype (opResult final) = matmul_type op /\
    replacement st' = ReplacedBy (opResult final).
Proof.
  intros HtyL HtyR HsA HsB Hb Hsmall Hv.
  destruct (@performMatmul_static_shape (matmul_self op) (matmul_other op)
              batchA batchB batch M K N e st HtyL HtyR HsA HsB Hb Hsmall)
    as (out & st1 & Hrun & Hshape).
  assert (Hread : readMatMulInputs variant op st
                  = success ((matmul_self op, matmul_other op), st)).
  { unfold readMatMulInputs, getRank. rewrite HtyL, HtyR.
    cbn [isRankedTensorType getShape negb orb].
    destruct variant; [reflexivity | | ].
    - destruct Hv as [-> ->]. reflexivity.
    - destruct Hv as [HA HB]. rewrite !length_app, HA, HB. reflexivity. }
  exists out, st1.
  unfold ConvertAtenMatmulBaseOp_matchAndRewrite, orFail at 1, bind at 1.
  rewrite Hread. unfold bind at 1, orFail. rewrite Hrun.
  unfold replaceOpWithNewOp, bind, create, replaceOp, ret.
  eexists _, _. split; [reflexivity | ]. split; [exact Hshape | ].
  split; [reflexivity | ]. repeat split; reflexivity.
Qed.

(** ** Embedding shapes *)

(** X18.  The shapes the embedding pattern gives its operations: the
    [V x D] weight is reshaped to [1 x V x D]; the [B x L] indices, of any
    integer width, are flattened to [1 x N]
    with [N = B * L] when both sizes are known and the unknown size otherwise,
    and cast to 32 bits; the gather yields [1 x N x D] in the weight's element
    type, which the last reshape brings to the result type.  The value of
    [padding_idx] plays no part. *)
Theorem embedding_gather_shapes
    (op : AtenEmbeddingOp) (B L V D w p : Z) (e : ElemType)
    (st : RewriterState) :
  vtype (embedding_indices op) = RankedTensorType [B; L] (IntegerType w) ->
  vtype (embedding_weight op) = RankedTensorType [V; D] e ->
  0 <= V -> 0 <= D ->
  wellFormedDim B -> wellFormedDim L ->
  (0 <= B -> 0 <= L -> B * L < 2 ^ 63) ->
  m_TorchConstantInt (embedding_padding_idx op) = Some p ->
  m_TorchConstantBool (embedding_scale_grad_by_freq op) = Some false ->
  m_TorchConstantBool (embedding_sparse op) = Some false ->
  let known := (0 <=? B) && (0 <=? L) in
  let N := if known then B * L else kDynamic in
  exists reshapedWeight reshapedIndices castIndices gatherOp final st',
    ConvertAtenEmbeddingOp_matchAndRewrite op st = success (tt, st') /\
    emitted st' =
      emitted st ++
      [reshapedWeight; reshapedIndices; castIndices; gatherOp; final] /\
    opAttr reshapedWeight = DenseI64ArrayAttr [1; V; D] /\
    vtype (opResult reshapedWeight) = RankedTensorType [1; V; D] e /\
    opAttr reshapedIndices =
      DenseI64ArrayAttr [1; if known then B * L else kUnknownSize] /\
    vtype (opResult reshapedIndices) = RankedTensorType [1; N] (IntegerType w) /\
    opName castIndices = tosa_cast /\
    opOperands castIndices = [opResult reshapedIndices] /\
    vtype (opResult castIndices) = RankedTensorType [1; N] (IntegerType 32) /\
    opName gatherOp = tosa_gather /\
    opOperands gatherOp = [opResult reshapedWeight; opResult castIndices] /\
    vtype (opResult gatherOp) = RankedTensorType [1; N; D] e /\
    opName final = tosa_reshape /\
    opOperands final = [opResult gatherOp] /\
    vtype (opResult final) = embedding_type op /\
    replacement st' = ReplacedBy (opResult final).
Proof.
  intros HtyI HtyW HV HD HB HL Hprod Hp Hscale Hsparse known N.
  assert (Hdyn : forall d, 0 <= d -> (d =? kDynamic) = false).
  { intros d Hd. apply Z.eqb_neq. unfold kDynamic, Int.min. simpl. lia. }
  assert (Hunk : forall d, 0 <= d -> (d =? kUnknownSize) = false).
  { intros d Hd. apply Z.eqb_neq. unfold kUnknownSize. lia. }
  assert (Hstatic : hasStaticShape (vtype (embedding_indices op)) = known).
  { rewrite HtyI. cbn [hasStaticShape forallb]. unfold isDynamic, known.
    rewrite andb_true_r.
    destruct HB as [HB | ->], HL as [HL | ->];
      rewrite ?Hdyn, ?Z.eqb_refl by assumption; cbn [negb andb];
      repeat match goal with
             | H : 0 <= ?x |- context [0 <=? ?x] =>
                 rewrite (proj2 (Z.leb_le 0 x) H)
             end; try reflexivity;
      cbn; rewrite ?andb_false_r; reflexivity. }
  assert (Hnum :
    (if known
     then fold_left Int.mul64 (makeShapeTorchCompatible [B; L]) 1
     else kUnknownSize) = if known then B * L else kUnknownSize).
  { destruct known eqn:Ek; [ | reflexivity].
    unfold known in Ek. apply andb_true_iff in Ek. destruct Ek as [EB EL].
    apply Z.leb_le in EB, EL.
    unfold makeShapeTorchCompatible. cbn [map]. rewrite !Hdyn by assumption.
    cbn [fold_left]. unfold Int.mul64.
    rewrite wrap_mul_wrap by lia. rewrite Z.mul_1_l.
    apply wrap64_small. split; [nia | auto]. }
  unfold ConvertAtenEmbeddingOp_matchAndRewrite.
  rewrite HtyI, HtyW, Hp, Hscale, Hsparse. rewrite HtyI in Hstatic.
  unfold getRank. cbn [isRankedTensorType getElementType isIntegerType getShape
                       negb orb List.length Z.of_nat Pos.of_succ_nat Pos.succ
                       Z.eqb Pos.eqb].
  rewrite Hstatic, Hnum.
  assert (HN : makeShapeLLVMCompatible [1; if known then B * L else kUnknownSize]
               = [1; N]).
  { unfold makeShapeLLVMCompatible, N. cbn [map]. f_equal.
    destruct known eqn:Ek; [ | reflexivity].
    unfold known in Ek. apply andb_true_iff in Ek. destruct Ek as [EB EL].
    apply Z.leb_le in EB, EL. rewrite Hunk by nia. reflexivity. }
  assert (HWs : makeShapeTorchCompatible [V; D] = [V; D]).
  { unfold makeShapeTorchCompatible. cbn [map]. now rewrite !Hdyn. }
  rewrite HWs.
  assert (HN3 : makeShapeLLVMCompatible
                  [1; if known then B * L else kUnknownSize; at_ [V; D] 1]
                = [1; N; D]).
  { change (at_ [V; D] 1) with D.
    injection HN as HN. unfold makeShapeLLVMCompatible in *. cbn [map] in *.
    rewrite HN, (Hunk D HD). reflexivity. }
  rewrite HN, HN3.
  assert (HW3 : makeShapeLLVMCompatible [1; V; D] = [1; V; D]).
  { unfold makeShapeLLVMCompatible. cbn [map]. now rewrite !Hunk. }
  rewrite HW3.
  unfold replaceOpWithNewOp, bind, create, replaceOp, ret.
  do 6 eexists. split; [reflexivity | ].
  cbn [emitted]. rewrite <- !app_assoc. cbn [app].
  split; [reflexivity | ]. repeat split; reflexivity.
Qed.

End FurtherProperties.

(** * The further properties at concrete operations *)

Lemma transpose_int_swaps_two_dims_witness :
  vtype (transpose_self transposeExample) = RankedTensorType [2; 3; 4] f32 /\
  m_TorchConstantInt (transpose_dim0 transposeExample) = Some 0 /\
  m_TorchConstantInt (transpose_dim1 transposeExample) = Some (-1) /\
  Z.of_nat (List.length [2; 3; 4]) < 2 ^ 31 /\
  exists perm c st',
    ConvertAtenTransposeIntOp_matchAndRewrite transposeExample initialState
      = success (tt, st') /\
    In c (emitted st') /\
    opAttr c = DenseIntElements 32 perm /\
    Permutation perm (iota 3).
Proof.
  assert (H : Z.of_nat (List.length [2; 3; 4]) < 2 ^ 31) by reflexivity.
  repeat (split; [first [reflexivity | exact H] | ]).
  destruct (@transpose_int_swaps_two_dims transposeExample [2; 3; 4]
              f32 0 (-1) initialState eq_refl eq_refl eq_refl H)
    as (perm & c & t & st' & Hrun & Hem & _ & Hattr & _ & _ & _ & _ & _ & _
        & Hperm).
  exists perm, c, st'. repeat split; try assumption.
  rewrite Hem. simpl. now left.
Defined.

Lemma permute_accepts_dims_in_range_witness :
  vtype (permute_self permuteExample) = RankedTensorType [2; 3; 4] f32 /\
  m_TorchListOfConstantInts (permute_dims permuteExample) = Some [2; 0; -2] /\
  List.length [2; 0; -2] = List.length [2; 3; 4] /\
  exists c t st',
    ConvertAtenPermuteOp_matchAndRewrite permuteExample initialState
      = success (tt, st') /\
    emitted st' = emitted initialState ++ [c; t] /\
    opAttr c = DenseIntElements 64 [2; 0; 1].
Proof.
  repeat (split; [reflexivity | ]).
  destruct (@permute_accepts_dims_in_range permuteExample [2; 3; 4] f32
              [2; 0; -2] initialState eq_refl eq_refl eq_refl)
    as (c & t & st' & Hrun & Hem & _ & Hattr & _).
  exists c, t, st'.
  split; [exact Hrun | ]. split; [exact Hem | exact Hattr].
Defined.

Lemma unsqueeze_inserts_unit_dim_witness :
  vtype (unsqueeze_self unsqueezeExample) = RankedTensorType [2; 3] f32 /\
  isIntOrFloat f32 = true /\
  m_TorchConstantInt (unsqueeze_dim unsqueezeExample) = Some (-1) /\
  exists r st',
    ConvertAtenUnsqueezeOp_matchAndRewrite unsqueezeExample initialState
      = success (tt, st') /\
    emitted st' = emitted initialState ++ [r] /\
    opAttr r = DenseI64ArrayAttr [2; 3; 1].
Proof.
  repeat (split; [reflexivity | ]).
  destruct (@unsqueeze_inserts_unit_dim unsqueezeExample [2; 3] f32 (-1)
              initialState eq_refl eq_refl eq_refl)
    as (r & st' & Hrun & Hem & _ & _ & Hattr & _).
  exists r, st'.
  split; [exact Hrun | ]. split; [exact Hem | exact Hattr].
Defined.

Lemma squeeze_dim_undoes_unsqueeze_witness :
  Forall wellFormedDim [2; 3] /\
  ConvertAtenUnsqueezeOp_matchAndRewrite unsqueezeExample initialState
    = success (tt, unsqueezeExampleState) /\
  emitted unsqueezeExampleState
    = emitted initialState ++ [unsqueezeExampleOp] /\
  opAttr unsqueezeExampleOp = DenseI64ArrayAttr [2; 3; 1] /\
  vtype (squeeze_self squeezeBackExample)
    = RankedTensorType (makeShapeLLVMCompatible [2; 3; 1]) f32 /\
  m_TorchConstantInt (squeeze_dim squeezeBackExample) = Some (-1) /\
  exists v st2',
    ConvertAtenSqueezeOp_matchAndRewrite ConvertAtenSqueezeOneDimOp
      squeezeBackExample unsqueezeExampleState = success (tt, st2') /\
    replacement st2' = ReplacedBy v /\
    getShape (vtype v) = [2; 3].
Proof.
  assert (H : Forall wellFormedDim [2; 3]).
  { apply Forall_cons; [left; lia | ].
    apply Forall_cons; [left; lia | apply Forall_nil]. }
  split; [exact H | ]. repeat (split; [reflexivity | ]).
  exact (@squeeze_dim_undoes_unsqueeze unsqueezeExample squeezeBackExample
           [2; 3] [2; 3; 1] f32 f32 (-1) initialState unsqueezeExampleState
           unsqueezeExampleState unsqueezeExampleOp
           eq_refl H eq_refl eq_refl eq_refl eq_refl eq_refl eq_refl).
Defined.

Lemma squeeze_dim_keeps_other_shapes_witness :
  Forall wellFormedDim [2; 3] /\
  m_TorchConstantInt (squeeze_dim squeezeOutOfRangeExample) = Some 5 /\
  (0 <= 5 < 2 -> at_ [2; 3] 5 <> 1) /\
  exists v st',
    ConvertAtenSqueezeOp_matchAndRewrite ConvertAtenSqueezeOneDimOp
      squeezeOutOfRangeExample initialState = success (tt, st') /\
    replacement st' = ReplacedBy v /\
    getShape (vtype v) = [2; 3].
Proof.
  assert (H : Forall wellFormedDim [2; 3]).
  { apply Forall_cons; [left; lia | ].
    apply Forall_cons; [left; lia | apply Forall_nil]. }
  assert (Hp : 0 <= 5 < 2 -> at_ [2; 3] 5 <> 1) by lia.
  split; [exact H | ]. split; [reflexivity | ]. split; [exact Hp | ].
  exact (@squeeze_dim_keeps_other_shapes squeezeOutOfRangeExample [2; 3] f32 5
           initialState eq_refl H eq_refl Hp).
Defined.

Lemma flatten_merges_dim_range_witness :
  Forall (fun d => 0 <= d < 2 ^ 63) [2; 3; 4; 5] /\
  m_TorchConstantInt (flatten_start_dim flattenExample) = Some 1 /\
  m_TorchConstantInt (flatten_end_dim flattenExample) = Some (-2) /\
  0 <= 1 <= 2 /\ 2 < 4 /\
  exists r c st',
    ConvertAtenFlattenUsingIntsOp_matchAndRewrite flattenExample initialState
      = success (tt, st') /\
    emitted st' = emitted initialState ++ [r; c] /\
    opAttr r = DenseI64ArrayAttr [2; 12; 5].
Proof.
  assert (H : Forall (fun d => 0 <= d < 2 ^ 63) [2; 3; 4; 5])
    by (repeat (apply Forall_cons; [lia | ]); apply Forall_nil).
  assert (Ha : 0 <= 1 <= 2) by lia.
  assert (Hb : 2 < 4) by lia.
  split; [exact H | ]. repeat (split; [reflexivity | ]).
  split; [exact Ha | ]. split; [exact Hb | ].
  destruct (@flatten_merges_dim_range flattenExample [2; 3; 4; 5] f32 1 (-2)
              initialState eq_refl H eq_refl eq_refl Ha Hb)
    as ((r & c & st' & Hrun & Hem & _ & _ & Hattr & _) & _).
  exists r, c, st'.
  split; [exact Hrun | ]. split; [exact Hem | exact Hattr].
Defined.

Lemma flatten_of_scalar_witness :
  vtype (flatten_self flattenScalarExample) = RankedTensorType [] f32 /\
  m_TorchConstantInt (flatten_start_dim flattenScalarExample) = Some 0 /\
  m_TorchConstantInt (flatten_end_dim flattenScalarExample) = Some (-1) /\
  ConvertAtenFlattenUsingIntsOp_matchAndRewrite flattenScalarExample
    initialState = failure "end_dim must be larger than start_dim".
Proof.
  repeat (split; [reflexivity | ]).
  exact (@flatten_of_scalar flattenScalarExample f32 0 (-1) initialState
           eq_refl eq_refl eq_refl).
Defined.

Lemma argmax_one_dim_shape_witness :
  Forall wellFormedDim [2; 3; 4] /\
  m_TorchConstantInt (argmax_dim argmaxDimExample) = Some 1 /\
  1 <> -1 /\
  m_TorchConstantBool (argmax_keepdim argmaxDimExample) = Some true /\
  exists a x st',
    ConvertAtenArgmaxOp_matchAndRewrite argmaxDimExample initialState
      = success (tt, st') /\
    emitted st' = emitted initialState ++ [a; x] /\
    vtype (opResult a) = RankedTensorType [2; 1; 4] (IntegerType 32) /\
    vtype (opResult x) = RankedTensorType [2; 1; 4] (IntegerType 64).
Proof.
  assert (H : Forall wellFormedDim [2; 3; 4])
    by (repeat (apply Forall_cons; [left; lia | ]); apply Forall_nil).
  assert (Hd : 1 <> -1) by lia.
  split; [exact H | ]. split; [reflexivity | ]. split; [exact Hd | ].
  split; [reflexivity | ].
  destruct (@argmax_one_dim_shape argmaxDimExample [2; 3; 4] f32 1 true
              initialState eq_refl H eq_refl Hd eq_refl)
    as (a & x & st' & Hrun & Hem & _ & _ & _ & Ha & _ & _ & Hx & _).
  exists a, x, st'.
  split; [exact Hrun | ]. split; [exact Hem | ].
  split; [exact Ha | exact Hx].
Defined.

Lemma argmax_all_dims_result_shape_witness :
  Forall wellFormedDim [2; 3; 4] /\
  valueOr (m_TorchConstantInt (argmax_dim argmaxKeepExample)) (-1) = -1 /\
  m_TorchConstantBool (argmax_keepdim argmaxKeepExample) = Some true /\
  exists (ops : list Operation) ext st',
    ConvertAtenArgmaxOp_matchAndRewrite argmaxKeepExample initialState
      = success (tt, st') /\
    List.length ops = 3%nat /\
    replacement st' = ReplacedBy (opResult ext) /\
    getShape (vtype (opResult ext)) = [1; 3; 4].
Proof.
  assert (H : Forall wellFormedDim [2; 3; 4])
    by (repeat (apply Forall_cons; [left; lia | ]); apply Forall_nil).
  split; [exact H | ]. repeat (split; [reflexivity | ]).
  destruct (@argmax_all_dims_result_shape argmaxKeepExample [2; 3; 4] f32 true
              initialState eq_refl H eq_refl eq_refl)
    as (ops & ext & st' & Hrun & _ & Hlen & _ & _ & _ & Hrep & Hshape).
  exists ops, ext, st'.
  split; [exact Hrun | ]. split; [exact Hlen | ].
  split; [exact Hrep | exact Hshape].
Defined.

Lemma rsub_accepts_any_constant_alpha_witness :
  vtype (rsub_self rsubExample) = RankedTensorType [2; 3] (FloatType 32) /\
  m_TorchConstantInt (rsub_alpha rsubExample) = Some 2 /\
  exists c1 c2 m sb st',
    ConvertAtenRsubScalarOp_matchAndRewrite rsubExample initialState
      = success (tt, st') /\
    emitted st' = emitted initialState ++ [c1; c2; m; sb] /\
    opName m = tosa_mul /\ opOperands m = [rsub_self rsubExample; opResult c2] /\
    opName sb = tosa_sub /\ opOperands sb = [opResult c1; opResult m].
Proof.
  repeat (split; [reflexivity | ]).
  pose proof (@rsub_accepts_any_constant_alpha x86_64 rsubExample [2; 3] 32
                initialState eq_refl) as H.
  cbv zeta in H.
  destruct (ConvertAtenRsubScalarOp_matchAndRewrite rsubExample initialState)
    as [[[] st'] | msg | msg]; [ | discriminate H | destruct H].
  destruct H as (_ & _ & c1 & c2 & m & sb & Hem & _ & _ & _ & _ & Hm & Hmo
                 & Hs & Hso & _).
  exists c1, c2, m, sb, st'. repeat split; assumption.
Defined.

Lemma alpha_outside_i32_becomes_f32_witness :
  m_TorchConstantInt largeAlpha = Some (2 ^ 60 + 2 ^ 36 + 1) /\
  Int.in_range 32 (2 ^ 60 + 2 ^ 36 + 1) = false /\
  fptrunc (sitofp (2 ^ 60 + 2 ^ 36 + 1)) = S754_finite false 8388608 37 /\
  exists t st',
    torchAlphaToTosaTensor largeAlpha (IntegerType 32) false initialState
      = success (t, st') /\
    vtype t = RankedTensorType [] (FloatType 32) /\
    emitted st' =
      [mkOperation tosa_const []
         (DenseFPElements [S754_finite false 8388609 37]) t].
Proof.
  repeat (split; [reflexivity | ]).
  rewrite (@alpha_outside_i32_becomes_f32 x86_64 largeAlpha
             (2 ^ 60 + 2 ^ 36 + 1) false initialState eq_refl).
  change (Int.in_range 32 (2 ^ 60 + 2 ^ 36 + 1)) with false. cbv iota zeta.
  do 2 eexists. split; [reflexivity | ]. split; reflexivity.
Defined.

Lemma mul_casts_only_left_operand_witness :
  AtenMulTensorOp <> AtenSquareOp /\
  isTensorType (vtype (mul_other mulExample)) = true /\
  exists c m st',
    ConvertAtenMulOp_matchAndRewrite AtenMulTensorOp mulExample initialState
      = success (tt, st') /\
    emitted st' = emitted initialState ++ [c; m] /\
    opName c = tosa_cast /\ opOperands c = [mul_self mulExample] /\
    opName m = tosa_mul /\
    opOperands m = [opResult c; mul_other mulExample].
Proof.
  assert (Hk : AtenMulTensorOp <> AtenSquareOp) by discriminate.
  split; [exact Hk | ]. split; [reflexivity | ].
  pose proof (@mul_casts_only_left_operand x86_64 AtenMulTensorOp mulExample
                initialState Hk eq_refl) as H.
  destruct (ConvertAtenMulOp_matchAndRewrite AtenMulTensorOp mulExample
              initialState) as [[[] st'] | msg | msg] eqn:E;
    [ | vm_compute in E; discriminate E | destruct H].
  destruct H as (_ & _ & m & lhs & Hcase & Hm & Hops & _ & _ & _ & Hel).
  destruct Hcase as [[_ Hl] | (c & Hem & Hc & Hco & _ & Hl)].
  - subst lhs. discriminate Hel.
  - subst lhs. exists c, m, st'. repeat split; assumption.
Defined.

Lemma maxpool_output_size_witness :
  0 <= 1 /\ 0 <= 3 /\ 0 <= 8 /\ 1 <= 2 /\ 3 <= 8 + 2 * 1 /\
  8 + 2 * 1 - 3 < 2 ^ 62 /\
  exists r st',
    ConvertAtenMaxPool2dOp_processInputs maxPoolExample initialState
      = success (r, st') /\
    pool_pad r = [1; 1; 1; 1] /\
    vtype (pool_input r) = RankedTensorType [1; 8; 8; 3] f32 /\
    pool_outputTy r = RankedTensorType [1; 4; 4; 3] f32.
Proof.
  assert (H1 : 0 <= 1) by lia. assert (H3 : 0 <= 3) by lia.
  assert (H8 : 0 <= 8) by lia. assert (Hs : 1 <= 2) by lia.
  assert (Hk : 3 <= 8 + 2 * 1) by lia.
  assert (Hb : 8 + 2 * 1 - 3 < 2 ^ 62) by lia.
  repeat (split; [assumption | ]).
  destruct (@maxpool_output_size maxPoolExample 1 3 8 8 3 3 2 2 1 1 f32
              initialState eq_refl eq_refl eq_refl eq_refl eq_refl eq_refl
              H1 H3 H8 H8 Hs Hs H1 H1 Hk Hk Hb Hb)
    as (r & st' & oh & ow & Hrun & _ & _ & Hpad & Hin & Hout & Hoh1 & Hoh
        & How1 & How).
  assert (oh = 4) by lia. assert (ow = 4) by lia. subst oh ow.
  exists r, st'. repeat split; assumption.
Defined.

Lemma adaptive_pool_kernel_fits_output_size_witness :
  0 <= 1 /\ 0 <= 3 /\ 1 <= 2 <= 7 /\ 7 < 2 ^ 62 /\
  exists r st',
    ConvertAtenAdaptivePoolingOp_processInputs adaptivePoolExample
      initialState = success (r, st') /\
    pool_stride r = [3; 3] /\ pool_kernel r = [4; 4] /\
    pool_outputTy r = RankedTensorType [1; 2; 2; 3] f32 /\
    getOutputDim 7 4 3 0 0 1 = Some 2.
Proof.
  assert (H1 : 0 <= 1) by lia. assert (H3 : 0 <= 3) by lia.
  assert (Ho : 1 <= 2 <= 7) by lia. assert (Hb : 7 < 2 ^ 62) by lia.
  repeat (split; [assumption | ]).
  destruct (@adaptive_pool_kernel_fits_output_size adaptivePoolExample
              1 3 7 7 2 2 f32 initialState eq_refl eq_refl H1 H3 Ho Ho Hb Hb)
    as (r & st' & Hrun & Hstride & Hkernel & _ & _ & Hout & _ & _ & _ & _
        & Hdim & _).
  exists r, st'.
  split; [exact Hrun | ]. split; [exact Hstride | ].
  split; [exact Hkernel | ]. split; [exact Hout | exact Hdim].
Defined.

Lemma pooling_transposes_round_trip_witness :
  (List.length [1] <= 1)%nat /\
  Forall wellFormedDim ([1] ++ [3; 8; 8]) /\
  exists y z st1 st2,
    transposePoolingInputToHwc (tensor 0 [1; 3; 8; 8] f32) initialState
      = success (y, st1) /\
    transposePoolingOutputToChw y st1 = success (z, st2) /\
    vtype y = RankedTensorType [1; 8; 8; 3] f32 /\
    vtype z = RankedTensorType [1; 3; 8; 8] f32.
Proof.
  assert (Hl : (List.length [1] <= 1)%nat) by (simpl; lia).
  assert (H : Forall wellFormedDim ([1] ++ [3; 8; 8]))
    by (repeat (apply Forall_cons; [left; lia | ]); apply Forall_nil).
  split; [exact Hl | ]. split; [exact H | ].
  destruct (@pooling_transposes_round_trip (tensor 0 [1; 3; 8; 8] f32) [1]
              3 8 8 f32 initialState eq_refl Hl H)
    as (y & z & st1 & st2 & c1 & t1 & c2 & t2 & Hy & Hz & _ & _ & _ & _ & _
        & _ & _ & Hty & Htz).
  exists y, z, st1, st2.
  split; [exact Hy | ]. split; [exact Hz | ].
  split; [exact Hty | exact Htz].
Defined.

Lemma linear_transposes_weight_and_adds_bias_witness :
  Forall (fun d => 0 <= d) ([] ++ [4; 5]) /\
  Forall (fun d => 0 <= d) ([] ++ [6; 5]) /\
  broadcastShapes [] [] = Some [] /\
  isNoneType (vtype (linear_bias linearExample)) ||
    isTensorType (vtype (linear_bias linearExample)) = true /\
  exists c t mm add final st',
    ConvertAtenLinearOp_matchAndRewrite linearExample initialState
      = success (tt, st') /\
    opAttr c = DenseIntElements 32 [1; 0] /\
    opOperands t = [linear_weight linearExample; opResult c] /\
    vtype (opResult t) = RankedTensorType [5; 6] f32 /\
    getShape (vtype mm) = [4; 6] /\
    opOperands add = [mm; linear_bias linearExample] /\
    opOperands final = [opResult add] /\
    replacement st' = ReplacedBy (opResult final).
Proof.
  assert (HA : Forall (fun d => 0 <= d) ([] ++ [4; 5]))
    by (repeat (apply Forall_cons; [lia | ]); apply Forall_nil).
  assert (HB : Forall (fun d => 0 <= d) ([] ++ [6; 5]))
    by (repeat (apply Forall_cons; [lia | ]); apply Forall_nil).
  assert (Hl : (List.length (@nil Z) <= 1)%nat) by (simpl; lia).
  split; [exact HA | ]. split; [exact HB | ].
  repeat (split; [reflexivity | ]).
  destruct (@linear_transposes_weight_and_adds_bias linearExample [] [] []
              4 5 6 f32 initialState eq_refl eq_refl Hl Hl HA HB eq_refl
              eq_refl)
    as (c & t & st2 & mm & st3 & final & st' & Hrun & _ & _ & Hattr & _
        & Hops & Hty & _ & Hmm & Hbias & _ & _ & Hrep).
  destruct Hbias as (add & _ & _ & Hadd & _ & Hfinal).
  exists c, t, mm, add, final, st'.
  split; [exact Hrun | ]. split; [exact Hattr | ]. split; [exact Hops | ].
  split; [exact Hty | ]. split; [exact Hmm | ]. split; [exact Hadd | ].
  split; [exact Hfinal | exact Hrep].
Defined.

Lemma matmul_variants_cast_to_result_type_witness :
  Forall (fun d => 0 <= d) ([1] ++ [4; 5]) /\
  Forall (fun d => 0 <= d) ([7] ++ [5; 6]) /\
  broadcastShapes [1] [7] = Some [7] /\
  Z.of_nat (Nat.max (List.length [1]) (List.length [7])) + 2 < 2 ^ 31 /\
  exists out final st',
    ConvertAtenMatmulBaseOp_matchAndRewrite ConvertAtenMmOp_Bmm bmmExample
      initialState = success (tt, st') /\
    getShape (vtype out) = [7; 4; 6] /\
    opOperands final = [out] /\
    replacement st' = ReplacedBy (opResult final).
Proof.
  assert (HA : Forall (fun d => 0 <= d) ([1] ++ [4; 5]))
    by (repeat (apply Forall_cons; [lia | ]); apply Forall_nil).
  assert (HB : Forall (fun d => 0 <= d) ([7] ++ [5; 6]))
    by (repeat (apply Forall_cons; [lia | ]); apply Forall_nil).
  assert (Hr : Z.of_nat (Nat.max (List.length [1]) (List.length [7])) + 2
               < 2 ^ 31) by reflexivity.
  split; [exact HA | ]. split; [exact HB | ]. split; [reflexivity | ].
  split; [exact Hr | ].
  destruct (@matmul_variants_cast_to_result_type ConvertAtenMmOp_Bmm
              bmmExample [1] [7] [7] 4 5 6 f32 initialState
              eq_refl eq_refl HA HB eq_refl Hr (conj eq_refl eq_refl))
    as (out & st1 & final & st' & _ & Hshape & Hrun & _ & _ & Hops & _
        & Hrep).
  exists out, final, st'.
  split; [exact Hrun | ]. split; [exact Hshape | ].
  split; [exact Hops | exact Hrep].
Defined.

Lemma embedding_gather_shapes_witness :
  0 <= 10 /\ 0 <= 4 /\ wellFormedDim 2 /\ wellFormedDim 3 /\
  (0 <= 2 -> 0 <= 3 -> 2 * 3 < 2 ^ 63) /\
  m_TorchConstantInt (embedding_padding_idx embeddingExample) = Some (-1) /\
  exists reshapedWeight reshapedIndices castIndices gatherOp final st',
    ConvertAtenEmbeddingOp_matchAndRewrite embeddingExample initialState
      = success (tt, st') /\
    emitted st' =
      emitted initialState ++
      [reshapedWeight; reshapedIndices; castIndices; gatherOp; final] /\
    vtype (opResult reshapedWeight) = RankedTensorType [1; 10; 4] f32 /\
    vtype (opResult castIndices) = RankedTensorType [1; 6] (IntegerType 32) /\
    vtype (opResult gatherOp) = RankedTensorType [1; 6; 4] f32.
Proof.
  assert (HV : 0 <= 10) by lia. assert (HD : 0 <= 4) by lia.
  assert (HB : wellFormedDim 2) by (left; lia).
  assert (HL : wellFormedDim 3) by (left; lia).
  assert (Hp : 0 <= 2 -> 0 <= 3 -> 2 * 3 < 2 ^ 63) by lia.
  repeat (split; [assumption | ]). split; [reflexivity | ].
  destruct (@embedding_gather_shapes embeddingExample 2 3 10 4 64 (-1) f32
              initialState eq_refl eq_refl HV HD HB HL Hp eq_refl eq_refl
              eq_refl)
    as (rw & ri & ci & g & final & st' & Hrun & Hem & _ & Hrw & _ & _ & _ & _
        & Hci & _ & _ & Hg & _).
  exists rw, ri, ci, g, final, st'.
  split; [exact Hrun | ]. split; [exact Hem | ]. split; [exact Hrw | ].
  split; [exact Hci | exact Hg].
Defined.
